(** * Brewvino booking placecards: a shallow embedding of [app.py]

    The development follows the source file top-down:

    - [PyStr]: the Python [str] methods and the one regular expression the
      program uses.  A text is a list of characters with code points below
      256; [str.isspace], [str.lower], [str.upper] and the class [\d] are
      given on the code points below 128, where they are exactly Python's.
      Python also treats characters beyond 127 as blanks, digits or cased
      letters; the embedding does not, so every statement about an arbitrary
      text carries the hypothesis [PyStr.is_ascii];
    - [Normalizers]: [capitalize_customer_name], [extract_table_numbers]
      and [calculate_end_time], the latter with its [try]/[except] blocks and
      a model of [datetime.strptime] for the four formats it tries;
    - [Layout]: [get_default_specs], [create_single_card] and the page
      loop of [generate_placecards], with the two ReportLab calls that can
      raise on what they are given ([colors.toColor] and the [Paragraph]
      constructor) as parameters;
    - [App]: [load_design_specs], [generate_preview_card],
      [validate_csv_structure] and the control flow of [main] as a trace of
      Streamlit calls;
    - [Spec]: the vocabulary of the specification the theorems are stated
      in, and sample inputs.

    Lengths in points (floating point products such as [card_height * 0.25])
    are left out of the card and page structures; everything else a
    definition mentions is taken from the function it names. *)

From Stdlib Require Import Bool Arith ZArith QArith List Ascii String Lia.
From Stdlib Require Import DecimalString.
Import ListNotations.

Local Open Scope string_scope.
Local Open Scope list_scope.
Local Open Scope nat_scope.

(* ===================================================================== *)
(** ** Python strings *)
(* ===================================================================== *)

Module PyStr.

(** Code point of a character. *)
Definition ord (c : ascii) : nat := nat_of_ascii c.

(** A text of 7-bit ASCII characters: the texts on which the functions
    below are Python's. *)
Definition is_ascii_char (c : ascii) : bool := ord c <? 128.

Fixpoint is_ascii (s : string) : bool :=
  match s with
  | EmptyString => true
  | String c r => is_ascii_char c && is_ascii r
  end.

(** [str.isspace] on ASCII: TAB, LF, VT, FF, CR, FS, GS, RS, US, SPACE. *)
Definition is_space (c : ascii) : bool :=
  ((9 <=? ord c) && (ord c <=? 13)) || ((28 <=? ord c) && (ord c <=? 32)).

(** The class [\d] on ASCII. *)
Definition is_digit (c : ascii) : bool := (48 <=? ord c) && (ord c <=? 57).

Definition is_upper (c : ascii) : bool := (65 <=? ord c) && (ord c <=? 90).
Definition is_lower (c : ascii) : bool := (97 <=? ord c) && (ord c <=? 122).

Definition lower_char (c : ascii) : ascii :=
  if is_upper c then ascii_of_nat (ord c + 32) else c.
Definition upper_char (c : ascii) : ascii :=
  if is_lower c then ascii_of_nat (ord c - 32) else c.

Definition is_empty (s : string) : bool :=
  match s with EmptyString => true | String _ _ => false end.

(** [s.lower()] *)
Fixpoint lower (s : string) : string :=
  match s with
  | EmptyString => EmptyString
  | String c r => String (lower_char c) (lower r)
  end.

(** [s.capitalize()]: first character upper-cased, the rest lower-cased. *)
Definition capitalize (s : string) : string :=
  match s with
  | EmptyString => EmptyString
  | String c r => String (upper_char c) (lower r)
  end.

(** [s.lstrip()] *)
Fixpoint lstrip (s : string) : string :=
  match s with
  | EmptyString => EmptyString
  | String c r => if is_space c then lstrip r else s
  end.

(** [s.rstrip()] *)
Fixpoint rstrip (s : string) : string :=
  match s with
  | EmptyString => EmptyString
  | String c r =>
      let r' := rstrip r in
      if is_space c && is_empty r' then EmptyString else String c r'
  end.

(** [s.strip()] *)
Definition strip (s : string) : string := rstrip (lstrip s).

(** [s.lstrip(ch)] for a single character [ch]. *)
Fixpoint lstrip_char (ch : ascii) (s : string) : string :=
  match s with
  | EmptyString => EmptyString
  | String c r => if Ascii.eqb c ch then lstrip_char ch r else s
  end.

(** [s.split()]: the maximal runs of non-space characters; [word] is the
    run being read. *)
Fixpoint split_go (word s : string) : list string :=
  match s with
  | EmptyString => if is_empty word then [] else [word]
  | String c r =>
      if is_space c
      then (if is_empty word then split_go EmptyString r
            else word :: split_go EmptyString r)
      else split_go (word ++ String c EmptyString) r
  end.

Definition split (s : string) : list string := split_go EmptyString s.

(** [s.split(sep)] for a single character [sep]: never an empty list. *)
Fixpoint split_on_go (sep : ascii) (field s : string) : list string :=
  match s with
  | EmptyString => [field]
  | String c r =>
      if Ascii.eqb c sep
      then field :: split_on_go sep EmptyString r
      else split_on_go sep (field ++ String c EmptyString) r
  end.

Definition split_on (sep : ascii) (s : string) : list string :=
  split_on_go sep EmptyString s.

(** [sep.join(l)] *)
Definition join (sep : string) (l : list string) : string := String.concat sep l.

(** [re.findall(r'\d+', s)]: the maximal runs of digits, left to right;
    [run] is the run being read. *)
Fixpoint findall_digits_go (run s : string) : list string :=
  match s with
  | EmptyString => if is_empty run then [] else [run]
  | String c r =>
      if is_digit c
      then findall_digits_go (run ++ String c EmptyString) r
      else (if is_empty run then findall_digits_go EmptyString r
            else run :: findall_digits_go EmptyString r)
  end.

Definition findall_digits (s : string) : list string :=
  findall_digits_go EmptyString s.

(** [pat in s], which is what [Series.str.contains(pat)] computes per entry
    for a pattern without regular-expression metacharacters. *)
Fixpoint contains (pat s : string) : bool :=
  String.prefix pat s ||
  match s with
  | EmptyString => false
  | String _ r => contains pat r
  end.

(** Decimal digit character of [d < 10]. *)
Definition digit_char (d : nat) : ascii := ascii_of_nat (48 + d).

(** ["%02d" % n] for [n < 100]. *)
Definition two_digits (n : nat) : string :=
  String (digit_char (n / 10)) (String (digit_char (n mod 10)) EmptyString).

(** [str(z)] for an integer. *)
Definition of_Z (z : Z) : string := NilZero.string_of_int (Z.to_int z).
Definition of_nat (n : nat) : string := of_Z (Z.of_nat n).

End PyStr.

(* ===================================================================== *)
(** ** Cell values and exceptions *)
(* ===================================================================== *)

(** What a cell of the data frame holds: text, a missing value ([NaN]) or
    an integer. *)
Inductive pyval : Type :=
| PyStr (s : string)
| PyNaN
| PyInt (z : Z).

(** A value without a character beyond 127. *)
Definition ascii_value (v : pyval) : bool :=
  match v with PyStr s => PyStr.is_ascii s | _ => true end.

(** [pd.isna(v)] *)
Definition pd_isna (v : pyval) : bool :=
  match v with PyNaN => true | _ => false end.

(** [v == ""] *)
Definition eq_empty (v : pyval) : bool :=
  match v with PyStr s => PyStr.is_empty s | _ => false end.

(** [str(v)], also what an f-string prints for [{v}]. *)
Definition py_str (v : pyval) : string :=
  match v with
  | PyStr s => s
  | PyNaN => "nan"
  | PyInt z => PyStr.of_Z z
  end.

Inductive exn : Type :=
| ValueError
| AttributeError
| IndexError
| KeyError (labels : list string)
| FileNotFoundError
| PermissionError
| JSONDecodeError
| ParserError
| RenderError.

Inductive result (A : Type) : Type :=
| Ok (a : A)
| Raise (e : exn).
Arguments Ok {A} a.
Arguments Raise {A} e.

Definition bind {A B} (m : result A) (k : A -> result B) : result B :=
  match m with Ok a => k a | Raise e => Raise e end.

Notation "x <- m ;; k" := (bind m (fun x => k))
  (at level 61, m at next level, right associativity).

(** [v.strip()]: only [str] has the method. *)
Definition method_strip (v : pyval) : result string :=
  match v with
  | PyStr s => Ok (PyStr.strip s)
  | _ => Raise AttributeError
  end.

(* ===================================================================== *)
(** ** Field normalizers *)
(* ===================================================================== *)

Module Normalizers.

(** The particle list of the source; both branches of the test on it
    append [word.capitalize()]. *)
Definition particles : list string :=
  ["mc"; "mac"; "o'"; "de"; "van"; "von"; "la"; "le"].

Definition capitalize_word (word : string) : string :=
  if existsb (String.eqb (PyStr.lower word)) particles
  then PyStr.capitalize word
  else PyStr.capitalize word.

(** The [for word in words] loop: empty words are skipped. *)
Fixpoint capitalize_words (words : list string) : list string :=
  match words with
  | [] => []
  | word :: rest =>
      if PyStr.is_empty word then capitalize_words rest
      else capitalize_word word :: capitalize_words rest
  end.

Definition capitalize_customer_name (name : pyval) : string :=
  if pd_isna name || eq_empty name then "Guest"
  else
    let name := PyStr.strip (py_str name) in
    if String.eqb (PyStr.lower name) "walk in" then "Walk In"
    else PyStr.join " " (capitalize_words (PyStr.split name)).

(** The [for table in tables] loop. *)
Fixpoint clean_tables (tables : list string) : list string :=
  match tables with
  | [] => []
  | table :: rest =>
      match PyStr.findall_digits (PyStr.strip table) with
      | number :: _ => number :: clean_tables rest
      | [] => clean_tables rest
      end
  end.

Definition extract_table_numbers (table_string : pyval) : string :=
  if pd_isna table_string || eq_empty table_string then "TBD"
  else
    match clean_tables (PyStr.split_on "," (py_str table_string)) with
    | [] => "TBD"
    | cleaned_tables => PyStr.join "," cleaned_tables
    end.

(** *** [datetime.strptime] for the formats of [calculate_end_time]

    [_strptime] turns a format into a regular expression (each directive a
    group of ordered alternatives, a blank of the format into [\s+], letters
    matched without regard to case), matches it at the start of the data
    with backtracking, and raises [ValueError] when nothing matches or when
    the match leaves data unconverted.  A regular expression is modelled by
    the list of its matches in the order backtracking finds them. *)

Definition regex (A : Type) : Type := string -> list (A * string).

Definition re_ret {A} (a : A) : regex A := fun s => [(a, s)].

Definition re_seq {A B} (p : regex A) (k : A -> regex B) : regex B :=
  fun s => flat_map (fun ar => k (fst ar) (snd ar)) (p s).

Definition re_alt {A} (p q : regex A) : regex A := fun s => p s ++ q s.

(** One digit of the class [[lo-hi]], with its value. *)
Definition re_digit (lo hi : nat) : regex nat := fun s =>
  match s with
  | EmptyString => []
  | String c r =>
      if PyStr.is_digit c
      then (let d := PyStr.ord c - 48 in
            if (lo <=? d) && (d <=? hi) then [(d, r)] else [])
      else []
  end.

(** Two digits [[lo1-hi1][lo2-hi2]], with their value. *)
Definition re_digit2 (lo1 hi1 lo2 hi2 : nat) : regex nat :=
  re_seq (re_digit lo1 hi1) (fun a =>
  re_seq (re_digit lo2 hi2) (fun b => re_ret (10 * a + b))).

(** A letter, case ignored. *)
Definition re_letter (l : ascii) : regex unit := fun s =>
  match s with
  | EmptyString => []
  | String c r =>
      if Ascii.eqb (PyStr.lower_char c) (PyStr.lower_char l) then [(tt, r)] else []
  end.

(** A literal character of the format. *)
Definition re_char (l : ascii) : regex unit := fun s =>
  match s with
  | EmptyString => []
  | String c r => if Ascii.eqb c l then [(tt, r)] else []
  end.

(** [\s*] and [\s+], greedy: the longest run first. *)
Fixpoint re_spaces_star (s : string) : list (unit * string) :=
  match s with
  | EmptyString => [(tt, s)]
  | String c r => if PyStr.is_space c then re_spaces_star r ++ [(tt, s)] else [(tt, s)]
  end.

Definition re_spaces_plus : regex unit := fun s =>
  match s with
  | EmptyString => []
  | String c r => if PyStr.is_space c then re_spaces_star r else []
  end.

(** [%I]: [1[0-2]|0[1-9]|[1-9]] *)
Definition dir_I : regex nat :=
  re_alt (re_digit2 1 1 0 2) (re_alt (re_digit2 0 0 1 9) (re_digit 1 9)).

(** [%H]: [2[0-3]|[0-1]\d|\d] *)
Definition dir_H : regex nat :=
  re_alt (re_digit2 2 2 0 3) (re_alt (re_digit2 0 1 0 9) (re_digit 0 9)).

(** [%M]: [[0-5]\d|\d] *)
Definition dir_M : regex nat :=
  re_alt (re_digit2 0 5 0 9) (re_digit 0 9).

(** [%p]: [am|pm]; [true] is PM. *)
Definition dir_p : regex bool :=
  re_alt (re_seq (re_letter "a") (fun _ => re_seq (re_letter "m") (fun _ => re_ret false)))
         (re_seq (re_letter "p") (fun _ => re_seq (re_letter "m") (fun _ => re_ret true))).

Inductive time_format : Type :=
| Fmt_I_M_p   (* "%I:%M %p" *)
| Fmt_H_M     (* "%H:%M"    *)
| Fmt_Ip      (* "%I%p"     *)
| Fmt_I_Mp.   (* "%I:%M%p"  *)

Definition time_formats : list time_format :=
  [Fmt_I_M_p; Fmt_H_M; Fmt_Ip; Fmt_I_Mp].

(** A date and time of day: days after 1900-01-01 (the date [strptime]
    fills in when the format has none), hour and minute. *)
Record datetime : Type := mk_datetime {
  dt_day : nat;
  dt_hour : nat;
  dt_minute : nat
}.

(** The hour of the day from [%I] and [%p]: 12 AM is 0, 12 PM is 12. *)
Definition hour_of_I (hour : nat) (pm : bool) : nat :=
  if pm then (if hour =? 12 then hour else hour + 12)
  else (if hour =? 12 then 0 else hour).

Definition format_regex (fmt : time_format) : regex datetime :=
  match fmt with
  | Fmt_I_M_p =>
      re_seq dir_I (fun h => re_seq (re_char ":") (fun _ =>
      re_seq dir_M (fun m => re_seq re_spaces_plus (fun _ =>
      re_seq dir_p (fun pm => re_ret (mk_datetime 0 (hour_of_I h pm) m))))))
  | Fmt_H_M =>
      re_seq dir_H (fun h => re_seq (re_char ":") (fun _ =>
      re_seq dir_M (fun m => re_ret (mk_datetime 0 h m))))
  | Fmt_Ip =>
      re_seq dir_I (fun h =>
      re_seq dir_p (fun pm => re_ret (mk_datetime 0 (hour_of_I h pm) 0)))
  | Fmt_I_Mp =>
      re_seq dir_I (fun h => re_seq (re_char ":") (fun _ =>
      re_seq dir_M (fun m =>
      re_seq dir_p (fun pm => re_ret (mk_datetime 0 (hour_of_I h pm) m)))))
  end.

Definition strptime (data : string) (fmt : time_format) : result datetime :=
  match format_regex fmt data with
  | [] => Raise ValueError
  | (dt, rest) :: _ => if PyStr.is_empty rest then Ok dt else Raise ValueError
  end.

(** [dt + timedelta(hours=h)] *)
Definition add_hours (dt : datetime) (h : nat) : datetime :=
  let t := dt_hour dt + h in
  mk_datetime (dt_day dt + t / 24) (t mod 24) (dt_minute dt).

(** [dt.strftime("%I:%M %p")] *)
Definition strftime (dt : datetime) : string :=
  let h12 := if dt_hour dt mod 12 =? 0 then 12 else dt_hour dt mod 12 in
  PyStr.two_digits h12 ++ ":" ++ PyStr.two_digits (dt_minute dt) ++ " "
  ++ (if dt_hour dt <? 12 then "AM" else "PM").

(** The [for fmt in time_formats] loop: [break] on the first format that
    parses, [continue] on [ValueError]; any other exception leaves the
    loop. *)
Fixpoint try_formats (booking_time : pyval) (fmts : list time_format)
  : result (option datetime) :=
  match fmts with
  | [] => Ok None
  | fmt :: rest =>
      match (data <- method_strip booking_time ;; strptime data fmt) with
      | Ok booking_datetime => Ok (Some booking_datetime)
      | Raise ValueError => try_formats booking_time rest
      | Raise e => Raise e
      end
  end.

(** [f"{booking_time} - {booking_time}"] *)
Definition passthrough (booking_time : pyval) : string :=
  py_str booking_time ++ " - " ++ py_str booking_time.

(** The body of the outer [try]. *)
Definition calculate_end_time_try (booking_time : pyval) : result string :=
  booking_datetime <- try_formats booking_time time_formats ;;
  match booking_datetime with
  | None => Ok (passthrough booking_time)
  | Some booking_datetime =>
      let end_datetime := add_hours booking_datetime 2 in
      let start_formatted := PyStr.lstrip_char "0" (strftime booking_datetime) in
      let end_formatted := PyStr.lstrip_char "0" (strftime end_datetime) in
      Ok (start_formatted ++ " - " ++ end_formatted)%string
  end.

(** The function with its [except Exception] handler. *)
Definition calculate_end_time (booking_time : pyval) : string :=
  match calculate_end_time_try booking_time with
  | Ok time_range => time_range
  | Raise _ => passthrough booking_time
  end.

End Normalizers.

Import Normalizers.

(* ===================================================================== *)
(** ** Cards and pages *)
(* ===================================================================== *)

Module Layout.

(** The style configuration: the ten keys of [get_default_specs]. *)
Record design_specs : Type := mk_specs {
  font_family : string;
  title_font_size : nat;
  content_font_size : nat;
  card_width : Q;
  card_height : Q;
  margin : Q;
  background_color : string;
  text_color : string;
  border : bool;
  border_color : string
}.

Definition get_default_specs : design_specs :=
  {| font_family := "Helvetica";
     title_font_size := 14;
     content_font_size := 12;
     card_width := 7 # 2;
     card_height := 5 # 2;
     margin := 1 # 2;
     background_color := "white";
     text_color := "black";
     border := true;
     border_color := "gray" |}.

(** One row of the data frame after the column selection of [main]. *)
Record booking : Type := mk_booking {
  service_or_event : pyval;
  time : pyval;
  number_of_people : pyval;
  customer : pyval;
  tables : pyval
}.

Inductive alignment : Type := TA_LEFT | TA_CENTER | TA_RIGHT.

(** A [Color] object of ReportLab, by the text the library prints for
    it. *)
Inductive Color : Type := Color_value (repr : string).

(** A [ParagraphStyle(name, parent=..., ...)] call: the name, the name of
    the parent style and the attributes the call sets ([None] for an
    attribute left to the parent). *)
Record ParagraphStyle : Type := mk_style {
  style_name : string;
  parent : string;
  fontSize : nat;
  textColor : Color;
  style_alignment : alignment;
  fontName : string;
  spaceBefore : option nat;
  spaceAfter : option nat
}.

Record Paragraph : Type := mk_paragraph {
  text : string;
  style : ParagraphStyle
}.

(** The [TableStyle] commands the program issues; a cell range is a pair of
    (column, row) corners, [-1] for the last. *)
Definition corner : Type := (Z * Z)%type.

Inductive style_cmd : Type :=
| ALIGN (c1 c2 : corner) (how : string)
| VALIGN (c1 c2 : corner) (how : string)
| LEFTPADDING (c1 c2 : corner) (pad : nat)
| RIGHTPADDING (c1 c2 : corner) (pad : nat)
| TOPPADDING (c1 c2 : corner) (pad : nat)
| BOTTOMPADDING (c1 c2 : corner) (pad : nat)
| BACKGROUND (c1 c2 : corner) (color : Color)
| LINEBELOW (c1 c2 : corner) (width : nat) (color : Color)
| BOX (c1 c2 : corner) (width : nat) (color : Color).

(** The commands that draw a rule or an outline. *)
Definition draws_line (c : style_cmd) : bool :=
  match c with
  | LINEBELOW _ _ _ _ | BOX _ _ _ _ => true
  | _ => false
  end.

(** [table_party_table]: the footer row of a card. *)
Record footer_table : Type := mk_footer {
  footer_left : Paragraph;
  footer_right : Paragraph;
  footer_style : list style_cmd
}.

(** [card_table]: the five rows of a card and its style. *)
Record card_table : Type := mk_card {
  reserved_title : Paragraph;
  name : Paragraph;
  time_info : Paragraph;
  empty_space : Paragraph;
  table_party_table : footer_table;
  table_style : list style_cmd
}.

(** A cell of the page grid: a card, or a string (the filler is [""]). *)
Inductive page_cell : Type :=
| CellCard (card : card_table)
| CellText (s : string).

Record page_table : Type := mk_page {
  page_data : list (list page_cell);
  page_style : list style_cmd
}.

Inductive flowable : Type :=
| PageTable (t : page_table)
| PageBreak.

(** The two ReportLab calls whose outcome depends on the text they are
    given: [colors.toColor(arg)], which returns a [Color] or raises on a
    colour it does not know, and the parsing of the text of a paragraph as
    markup, done by the [Paragraph] constructor in the style it is given,
    which raises on text it cannot parse.  They are library code and stay
    parameters: every statement holds whatever they do. *)
Record ReportLab : Type := mk_reportlab {
  toColor : string -> result Color;
  parse_markup : string -> ParagraphStyle -> result unit
}.

(** [Paragraph(text, style)] *)
Definition new_Paragraph (lib : ReportLab) (text : string) (style : ParagraphStyle)
  : result Paragraph :=
  parsed <- parse_markup lib text style ;;
  Ok (mk_paragraph text style).

(** [title_style] and [content_style] of [generate_placecards]. *)
Definition title_style (lib : ReportLab) (specs : design_specs)
  : result ParagraphStyle :=
  color <- toColor lib (text_color specs) ;;
  Ok (mk_style "CustomTitle" "Heading1" (title_font_size specs) color
               TA_CENTER (font_family specs) None None).

Definition content_style (lib : ReportLab) (specs : design_specs)
  : result ParagraphStyle :=
  color <- toColor lib (text_color specs) ;;
  Ok (mk_style "CustomContent" "Normal" (content_font_size specs) color
               TA_CENTER (font_family specs) None None).

Definition create_single_card (lib : ReportLab) (row : booking)
           (title_style content_style : ParagraphStyle) (specs : design_specs)
  : result card_table :=
  color <- toColor lib (text_color specs) ;;
  let header_style :=
    mk_style "HeaderStyle" (style_name title_style) (title_font_size specs + 2)
             color TA_CENTER (font_family specs) (Some 6) (Some 6) in
  color <- toColor lib (text_color specs) ;;
  let left_style :=
    mk_style "LeftStyle" (style_name content_style) (content_font_size specs)
             color TA_LEFT (font_family specs) None None in
  color <- toColor lib (text_color specs) ;;
  let right_style :=
    mk_style "RightStyle" (style_name content_style) (content_font_size specs)
             color TA_RIGHT (font_family specs) None None in
  reserved_title <- new_Paragraph lib "<b>RESERVED</b>" header_style ;;
  let capitalized_name := capitalize_customer_name (customer row) in
  name <- new_Paragraph lib ("<b>" ++ capitalized_name ++ "</b>") title_style ;;
  let time_range := calculate_end_time (time row) in
  time_info <- new_Paragraph lib time_range content_style ;;
  empty_space <- new_Paragraph lib "" content_style ;;
  let table_numbers := extract_table_numbers (tables row) in
  table_cell <- new_Paragraph lib ("T" ++ table_numbers) left_style ;;
  party_cell <- new_Paragraph lib (py_str (number_of_people row) ++ "P") right_style ;;
  let table_party_table :=
    mk_footer table_cell party_cell
      [ ALIGN (0, 0) (0, 0) "LEFT";
        ALIGN (1, 0) (1, 0) "RIGHT";
        VALIGN (0, 0) (-1, -1) "MIDDLE";
        LEFTPADDING (0, 0) (-1, -1) 6;
        RIGHTPADDING (0, 0) (-1, -1) 6 ]%Z in
  background <- toColor lib (background_color specs) ;;
  rule <- toColor lib (border_color specs) ;;
  let table_style :=
    [ ALIGN (0, 0) (-1, -1) "CENTER";
      VALIGN (0, 0) (-1, -1) "MIDDLE";
      BACKGROUND (0, 0) (-1, -1) background;
      LINEBELOW (0, 0) (0, 0) 1 rule ]%Z in
  table_style <-
    (if border specs
     then outline <- toColor lib (border_color specs) ;;
          Ok (table_style ++ [BOX (0, 0) (-1, -1) 1 outline]%Z)
     else Ok table_style) ;;
  Ok (mk_card reserved_title name time_info empty_space table_party_table table_style).

(** [range(start, stop, step)] for a positive [step]; [stop - start] rounds
    of the recursion are always enough. *)
Fixpoint range_go (fuel start stop step : nat) : list nat :=
  match fuel with
  | 0 => []
  | S fuel' =>
      if start <? stop then start :: range_go fuel' (start + step) stop step
      else []
  end.

Definition range (start stop step : nat) : list nat :=
  range_go (stop - start) start stop step.

(** [df.iloc[a:b]] and [df.iloc[i]] *)
Definition iloc_slice {A} (df : list A) (a b : nat) : list A :=
  firstn (b - a) (skipn a df).

Definition iloc {A} (df : list A) (i : nat) : result A :=
  match nth_error df i with
  | Some row => Ok row
  | None => Raise IndexError
  end.

(** A [for] loop whose body may raise, threading the variables it
    updates. *)
Fixpoint for_each {A S} (xs : list A) (body : S -> A -> result S) (s : S)
  : result S :=
  match xs with
  | [] => Ok s
  | x :: rest => s' <- body s x ;; for_each rest body s'
  end.

(** [while len(cards) < 2: cards.append("")]; the list grows at each turn,
    so two turns are enough. *)
Fixpoint fill_row (fuel : nat) (cards : list page_cell) : list page_cell :=
  match fuel with
  | 0 => cards
  | S fuel' =>
      if List.length cards <? 2 then fill_row fuel' (cards ++ [CellText ""])
      else cards
  end.

(** The body of the two inner [for i in ...] loops. *)
Definition append_card (lib : ReportLab) (page_bookings : list booking)
           (title_style content_style : ParagraphStyle) (specs : design_specs)
           (cards : list page_cell) (i : nat) : result (list page_cell) :=
  row <- iloc page_bookings i ;;
  card <- create_single_card lib row title_style content_style specs ;;
  Ok (cards ++ [CellCard card]).

Definition page_table_style : list style_cmd :=
  [ ALIGN (0, 0) (-1, -1) "CENTER";
    VALIGN (0, 0) (-1, -1) "MIDDLE";
    LEFTPADDING (0, 0) (-1, -1) 0;
    RIGHTPADDING (0, 0) (-1, -1) 0;
    TOPPADDING (0, 0) (-1, -1) 0;
    BOTTOMPADDING (0, 0) (-1, -1) 0 ]%Z.

(** The body of [for page_start in range(0, len(df), 4)]. *)
Definition page_body (lib : ReportLab) (df : list booking)
           (title_style content_style : ParagraphStyle) (specs : design_specs)
           (story : list flowable) (page_start : nat) : result (list flowable) :=
  let page_bookings := iloc_slice df page_start (page_start + 4) in
  row1_cards <- for_each (range 0 (Nat.min 2 (List.length page_bookings)) 1)
                         (append_card lib page_bookings title_style content_style specs)
                         [] ;;
  let row1_cards := fill_row 2 row1_cards in
  let page_data := [row1_cards] in
  row2_cards <- (if 2 <? List.length page_bookings
                 then for_each (range 2 (Nat.min 4 (List.length page_bookings)) 1)
                               (append_card lib page_bookings title_style
                                            content_style specs)
                               []
                 else Ok []) ;;
  let row2_cards := fill_row 2 row2_cards in
  let page_data := page_data ++ [row2_cards] in
  let story := story ++ [PageTable (mk_page page_data page_table_style)] in
  let story := if page_start + 4 <? List.length df then story ++ [PageBreak] else story in
  Ok story.

(** The loop over the pages: the [story] that [generate_placecards] hands
    to [doc.build]. *)
Definition build_story (lib : ReportLab) (df : list booking)
           (title_style content_style : ParagraphStyle) (specs : design_specs)
  : result (list flowable) :=
  for_each (range 0 (List.length df) 4)
           (page_body lib df title_style content_style specs) [].

(** [generate_placecards]; [doc_build] stands for [doc.build] followed by
    the return of the buffer it filled. *)
Definition generate_placecards {pdf : Type} (lib : ReportLab)
           (doc_build : list flowable -> result pdf)
           (df : list booking) (specs : design_specs) : result pdf :=
  title <- title_style lib specs ;;
  content <- content_style lib specs ;;
  story <- build_story lib df title content specs ;;
  doc_build story.

(** *** The pagination, as the specification words it *)

(** The cards of the records, in input order: the first record whose card
    cannot be built decides the failure. *)
Fixpoint map_result {A B} (f : A -> result B) (l : list A) : result (list B) :=
  match l with
  | [] => Ok []
  | x :: rest =>
      y <- f x ;;
      ys <- map_result f rest ;;
      Ok (y :: ys)
  end.

(** Consecutive chunks of at most four. *)
Fixpoint chunks4 {A} (l : list A) : list (list A) :=
  match l with
  | [] => []
  | a :: b :: c :: d :: rest => [a; b; c; d] :: chunks4 rest
  | short => [short]
  end.

(** Cell [i] of the grid of a chunk of cards, in row-major order. *)
Definition grid_cell (chunk : list card_table) (i : nat) : page_cell :=
  match nth_error chunk i with
  | Some card => CellCard card
  | None => CellText ""
  end.

Definition page_of_chunk (chunk : list card_table) : page_table :=
  mk_page [ [grid_cell chunk 0; grid_cell chunk 1];
            [grid_cell chunk 2; grid_cell chunk 3] ]
          page_table_style.

Fixpoint intersperse {A} (sep : A) (l : list A) : list A :=
  match l with
  | [] => []
  | x :: rest =>
      match rest with
      | [] => [x]
      | _ :: _ => x :: sep :: intersperse sep rest
      end
  end.

(** The cards of a story, page by page and cell by cell. *)
Definition cards_of_cell (c : page_cell) : list card_table :=
  match c with CellCard card => [card] | CellText _ => [] end.

Definition cards_of_flowable (f : flowable) : list card_table :=
  match f with
  | PageTable t => flat_map cards_of_cell (List.concat (page_data t))
  | PageBreak => []
  end.

Definition is_page (f : flowable) : bool :=
  match f with PageTable _ => true | PageBreak => false end.

End Layout.

Import Layout.

(* ===================================================================== *)
(** ** The Streamlit script *)
(* ===================================================================== *)

Module App.

(** Texts the script shows; an f-string keeps its arguments. *)
Inductive message : Type :=
| Specs_not_found (specs_file : string)
| Preview_failed (e : exn)
| Missing_required_columns (missing_columns : list string)
| Required_columns_are
| Found_bookings (n : nat)
| Filtered_to (n : nat) (service : string)
| Including_all (n : nat)
| No_bookings_found
| Layout_note
| Placecards_generated
| Error_generating (e : exn)
| Error_reading_csv (e : exn).

Inductive heading : Type :=
| Upload_booking_data
| Filter_by_service_period
| Design_settings
| Instructions.

Inductive markdown : Type := Intro | Rule | Instructions_text.

(** The calls that put something on the page, in the order made. *)
Inductive call : Type :=
| st_title
| st_markdown (m : markdown)
| st_header (h : heading)
| st_subheader (s : string)
| st_dataframe (rows : list booking)
| st_success (m : message)
| st_info (m : message)
| st_warning (m : message)
| st_error (m : message)
| st_write
| st_image (png : string)
| st_code
| st_spinner
| st_download_button (file_name : string) (data : string).

(** How a piece of the script ends: normally, with an exception, or by
    [st.stop()], whose [StopException] is not an [Exception] and so passes
    through every [except Exception]. *)
Inductive outcome (A : Type) : Type :=
| Done (a : A)
| Raised (e : exn)
| Stopped.
Arguments Done {A} a.
Arguments Raised {A} e.
Arguments Stopped {A}.

Definition st (A : Type) : Type := list call -> outcome A * list call.

Definition ret {A} (a : A) : st A := fun page => (Done a, page).

Definition then_ {A B} (m : st A) (k : A -> st B) : st B :=
  fun page =>
    match m page with
    | (Done a, page') => k a page'
    | (Raised e, page') => (Raised e, page')
    | (Stopped, page') => (Stopped, page')
    end.

Definition emit (c : call) : st unit := fun page => (Done tt, page ++ [c]).

Definition stop {A} : st A := fun page => (Stopped, page).

Definition lift {A} (r : result A) : st A :=
  fun page =>
    match r with
    | Ok a => (Done a, page)
    | Raise e => (Raised e, page)
    end.

(** [try: m  except <catches> as e: handler e] *)
Definition try_except {A} (m : st A) (catches : exn -> bool) (handler : exn -> st A)
  : st A :=
  fun page =>
    match m page with
    | (Raised e, page') =>
        if catches e then handler e page' else (Raised e, page')
    | other => other
    end.

Definition Exception (e : exn) : bool := true.
Definition is_FileNotFoundError (e : exn) : bool :=
  match e with FileNotFoundError => true | _ => false end.

Notation "x <-- m ;; k" := (then_ m (fun x => k))
  (at level 61, m at next level, right associativity).
Notation "m ;;; k" := (then_ m (fun _ => k))
  (at level 61, right associativity).

Definition run {A} (m : st A) : outcome A * list call := m [].

(** *** [load_design_specs] *)

(** The state of the file [design_specs.json]. *)
Inductive specs_file : Type :=
| File_absent
| File_no_permission
| File_not_json
| File_holds (specs : design_specs).

(** [open(specs_file, 'r')] followed by [json.load(f)]. *)
Definition open_and_load (f : specs_file) : result design_specs :=
  match f with
  | File_absent => Raise FileNotFoundError
  | File_no_permission => Raise PermissionError
  | File_not_json => Raise JSONDecodeError
  | File_holds specs => Ok specs
  end.

Definition load_design_specs (f : specs_file) : st design_specs :=
  try_except (lift (open_and_load f))
             is_FileNotFoundError
             (fun _ =>
                emit (st_warning (Specs_not_found "design_specs.json")) ;;;
                ret get_default_specs).

(** *** [generate_preview_card] *)

(** [render] stands for the drawing and [renderPM.drawToFile]. *)
Definition generate_preview_card (render : design_specs -> result string)
           (specs : design_specs) : st (option string) :=
  try_except (img_buffer <-- lift (render specs) ;; ret (Some img_buffer))
             Exception
             (fun e => emit (st_error (Preview_failed e)) ;;; ret None).

(** *** [validate_csv_structure] *)

Definition required_columns : list string :=
  ["Service or Event"; "Time"; "Number of People"; "Customer"; "Table(s)"].

(** [[col for col in required_columns if col not in columns]] *)
Definition missing_from (columns : list string) : list string :=
  filter (fun col => negb (existsb (String.eqb col) columns)) required_columns.

Definition validate_csv_structure (df_columns : list string) : st bool :=
  let missing_columns := missing_from df_columns in
  match missing_columns with
  | _ :: _ =>
      emit (st_error (Missing_required_columns missing_columns)) ;;;
      emit (st_info Required_columns_are) ;;;
      ret false
  | [] => ret true
  end.

(** *** The uploaded table *)

(** What [pd.read_csv] returns: the column labels and the rows, each row
    aligned with the labels (a short row is missing its last cells). *)
Record DataFrame : Type := mk_frame {
  columns : list string;
  rows : list (list pyval)
}.

Fixpoint cell (labels : list string) (row : list pyval) (label : string) : pyval :=
  match labels, row with
  | l :: labels', v :: row' =>
      if String.eqb l label then v else cell labels' row' label
  | _, _ => PyNaN
  end.

(** [df.copy()[[...the five required labels...]]]: a [KeyError] naming the
    labels that are not columns, else the rows cut down to the five. *)
Definition select_required (df : DataFrame) : result (list booking) :=
  match missing_from (columns df) with
  | (_ :: _) as missing => Raise (KeyError missing)
  | [] =>
      Ok (map (fun row =>
                 mk_booking (cell (columns df) row "Service or Event")
                            (cell (columns df) row "Time")
                            (cell (columns df) row "Number of People")
                            (cell (columns df) row "Customer")
                            (cell (columns df) row "Table(s)"))
              (rows df))
  end.

(** [df.head()] *)
Definition head {A} (df : list A) : list A := firstn 5 df.

(** *** The service filter *)

Inductive filter_option : Type := All_bookings | Lunch_only | Dinner_only.

(** Whether a cell holds text. *)
Definition has_text (v : pyval) : bool :=
  match v with PyStr _ => true | _ => false end.

(** [series.str]: pandas gives the accessor to a column of text only.  A
    column read by [pd.read_csv] is one (dtype [object]) when it has a cell
    of text or no row at all; a column of numbers and missing cells only is
    numeric, and [.str] then raises [AttributeError]. *)
Definition str_accessor (series : list pyval) : result (list pyval) :=
  match series with
  | [] => Ok series
  | _ :: _ =>
      if existsb has_text series then Ok series else Raise AttributeError
  end.

(** One entry of [series.str.lower()]: an entry that is not text gives a
    missing value. *)
Definition str_lower (v : pyval) : pyval :=
  match v with
  | PyStr s => PyStr (PyStr.lower s)
  | _ => PyNaN
  end.

(** One entry of [series.str.contains(pat, na=False)]: an entry that is
    not text gives the [na] value. *)
Definition str_contains (pat : string) (v : pyval) : bool :=
  match v with
  | PyStr s => PyStr.contains pat s
  | _ => false
  end.

(** [df[mask]] for a Boolean mask. *)
Fixpoint boolean_index {A} (df : list A) (mask : list bool) : list A :=
  match df, mask with
  | row :: df', b :: mask' =>
      if b then row :: boolean_index df' mask' else boolean_index df' mask'
  | _, _ => []
  end.

(** [df2[df2['Service or Event'].str.lower().str.contains(pat, na=False)]] *)
Definition filter_service (pat : string) (df2 : list booking)
  : result (list booking) :=
  series <- str_accessor (map service_or_event df2) ;;
  lowered <- str_accessor (map str_lower series) ;;
  Ok (boolean_index df2 (map (str_contains pat) lowered)).

Definition apply_filter (opt : filter_option) (df2 : list booking)
  : result (list booking) :=
  match opt with
  | Lunch_only => filter_service "lunch" df2
  | Dinner_only => filter_service "dinner" df2
  | All_bookings => Ok df2
  end.

(** *** [main] *)

(** One run of the script: the files it finds, what the widgets return and
    the calls into the rendering library. *)
Record session : Type := mk_session {
  design_specs_json : specs_file;
  uploaded_file : option (result DataFrame);
  filter_choice : filter_option;
  font_family_choice : string;
  title_font_size_choice : nat;
  content_font_size_choice : nat;
  border_choice : bool;
  border_color_choice : string;
  background_color_choice : string;
  preview_render : design_specs -> result string;
  generate_clicked : bool;
  reportlab : ReportLab;
  doc_build : list flowable -> result string
}.

(** The value each widget is created with, which it returns as long as the
    user leaves it alone: [index=0 if ... == "Helvetica" else 1] of the
    font list, the loaded sizes, the loaded border flag, and [index=0] of
    the two colour lists. *)
Definition initial_font_family (d : design_specs) : string :=
  if String.eqb (font_family d) "Helvetica" then "Helvetica" else "Times-Roman".

Definition widgets_left_alone (ss : session) (d : design_specs) : Prop :=
  font_family_choice ss = initial_font_family d /\
  title_font_size_choice ss = title_font_size d /\
  content_font_size_choice ss = content_font_size d /\
  border_choice ss = border d /\
  border_color_choice ss = "gray" /\
  background_color_choice ss = "white".

Definition set_fonts (ss : session) (d : design_specs) : design_specs :=
  mk_specs (font_family_choice ss) (title_font_size_choice ss)
           (content_font_size_choice ss) (card_width d) (card_height d)
           (margin d) (background_color d) (text_color d) (border d)
           (border_color d).

Definition set_styling (ss : session) (d : design_specs) : design_specs :=
  mk_specs (font_family d) (title_font_size d) (content_font_size d)
           (card_width d) (card_height d) (margin d)
           (background_color_choice ss) (text_color d) (border_choice ss)
           (if border_choice ss then border_color_choice ss else border_color d).

Definition file_name_for (opt : filter_option) : string :=
  match opt with
  | Lunch_only => "brewvino_placecards_lunch.pdf"
  | Dinner_only => "brewvino_placecards_dinner.pdf"
  | All_bookings => "brewvino_placecards_all_services.pdf"
  end.

(** The part of [main] under [if validate_csv_structure(df2):]. *)
Definition process_bookings (ss : session) (design_specs : design_specs)
           (df2 : list booking) : st unit :=
  emit (st_success (Found_bookings (List.length df2))) ;;;
  emit (st_header Filter_by_service_period) ;;;
  let filter_option := filter_choice ss in
  filtered_df <-- lift (apply_filter filter_option df2) ;;
  emit (st_info (match filter_option with
                 | Lunch_only => Filtered_to (List.length filtered_df) "Lunch"
                 | Dinner_only => Filtered_to (List.length filtered_df) "Dinner"
                 | All_bookings => Including_all (List.length filtered_df)
                 end)) ;;;
  (if 0 <? List.length filtered_df
   then emit (st_subheader "Filtered Data Preview") ;;;
        emit (st_dataframe (head filtered_df))
   else emit (st_warning No_bookings_found) ;;;
        stop) ;;;
  emit (st_header Design_settings) ;;;
  emit (st_info Layout_note) ;;;
  emit (st_subheader "Font Settings") ;;;
  let design_specs := set_fonts ss design_specs in
  emit (st_subheader "Card Styling") ;;;
  let design_specs := set_styling ss design_specs in
  emit (st_subheader "Preview") ;;;
  emit st_write ;;;
  preview_buffer <-- generate_preview_card (preview_render ss) design_specs ;;
  match preview_buffer with
  | Some png => emit (st_image png)
  | None => emit st_code
  end ;;;
  if generate_clicked ss
  then
    emit st_spinner ;;;
    try_except
      (pdf_buffer <-- lift (generate_placecards (reportlab ss) (doc_build ss)
                                                filtered_df design_specs) ;;
       emit (st_success Placecards_generated) ;;;
       emit (st_download_button (file_name_for filter_option) pdf_buffer))
      Exception
      (fun e => emit (st_error (Error_generating e)))
  else ret tt.

Definition main (ss : session) : st unit :=
  emit st_title ;;;
  emit (st_markdown Intro) ;;;
  design_specs <-- load_design_specs (design_specs_json ss) ;;
  emit (st_header Upload_booking_data) ;;;
  match uploaded_file ss with
  | Some upload =>
      try_except
        (df <-- lift upload ;;
         df2 <-- lift (select_required df) ;;
         emit (st_subheader "Data Preview") ;;;
         emit (st_dataframe (head df2)) ;;;
         (* the columns of df2 are the five just selected *)
         valid <-- validate_csv_structure required_columns ;;
         if valid then process_bookings ss design_specs df2 else ret tt)
        Exception
        (fun e => emit (st_error (Error_reading_csv e)))
  | None => ret tt
  end ;;;
  emit (st_markdown Rule) ;;;
  emit (st_header Instructions) ;;;
  emit (st_markdown Instructions_text).

End App.

Import App.

(* ===================================================================== *)
(** ** The properties, as the specification words them *)
(* ===================================================================== *)

Module Spec.

(** Every character of [s] satisfies [p]. *)
Fixpoint all_chars (p : ascii -> bool) (s : string) : bool :=
  match s with
  | EmptyString => true
  | String c r => p c && all_chars p r
  end.

Fixpoint has_digit (s : string) : bool :=
  match s with
  | EmptyString => false
  | String c r => PyStr.is_digit c || has_digit r
  end.

Fixpoint drop_nondigits (s : string) : string :=
  match s with
  | EmptyString => EmptyString
  | String c r => if PyStr.is_digit c then s else drop_nondigits r
  end.

Fixpoint take_digits (s : string) : string :=
  match s with
  | EmptyString => EmptyString
  | String c r => if PyStr.is_digit c then String c (take_digits r) else EmptyString
  end.

(** The first contiguous run of digits of a segment (empty when the
    segment has no digit). *)
Definition first_digit_run (segment : string) : string :=
  take_digits (drop_nondigits segment).

Definition is_comma (c : ascii) : bool := Ascii.eqb c ",".

Definition digit_or_comma (c : ascii) : bool := PyStr.is_digit c || is_comma c.

(** A 12-hour clock time with no leading zero and an AM/PM suffix. *)
Definition clock12 (hour minute : nat) : string :=
  PyStr.of_nat (if hour mod 12 =? 0 then 12 else hour mod 12)
  ++ ":" ++ PyStr.two_digits minute ++ " "
  ++ (if hour <? 12 then "AM" else "PM").

(** The first of the formats, in order, that parses [data]. *)
Fixpoint first_parse (fmts : list time_format) (data : string) : option datetime :=
  match fmts with
  | [] => None
  | fmt :: rest =>
      match strptime data fmt with
      | Ok dt => Some dt
      | Raise _ => first_parse rest data
      end
  end.

(** [keyword] occurs in [s] as a substring, case ignored. *)
Definition ci_substring (keyword s : string) : Prop :=
  exists pre mid post : string,
    s = (pre ++ mid ++ post)%string /\ PyStr.lower mid = PyStr.lower keyword.

Inductive subsequence {A : Type} : list A -> list A -> Prop :=
| sub_nil : subsequence [] []
| sub_keep : forall x l1 l2, subsequence l1 l2 -> subsequence (x :: l1) (x :: l2)
| sub_skip : forall x l1 l2, subsequence l1 l2 -> subsequence l1 (x :: l2).

(** The keyword of a filter choice. *)
Definition keyword_of (opt : filter_option) : option string :=
  match opt with
  | Lunch_only => Some "lunch"
  | Dinner_only => Some "dinner"
  | All_bookings => None
  end.

(** Every match of the expression carries a value satisfying [P]. *)
Definition yields {A : Type} (p : regex A) (P : A -> Prop) : Prop :=
  forall s a r, In (a, r) (p s) -> P a.

(** A time of day on the date [strptime] fills in. *)
Definition time_of_day (dt : datetime) : Prop :=
  dt_day dt = 0 /\ dt_hour dt < 24 /\ dt_minute dt < 60.

(** A character other than the separator. *)
Definition not_sep (sep c : ascii) : bool := negb (Ascii.eqb c sep).

(** A digit run: not empty, digits only. *)
Definition is_run (x : string) : Prop :=
  PyStr.is_empty x = false /\ all_chars PyStr.is_digit x = true.

(** A character that is not a blank. *)
Definition no_space (c : ascii) : bool := negb (PyStr.is_space c).

(** A word of [split]: not empty, no blank. *)
Definition is_word (w : string) : Prop :=
  PyStr.is_empty w = false /\ all_chars no_space w = true.

(** The page of a chunk of cards and the story of a list of cards: the
    pages of the consecutive chunks, a page break between two. *)
Definition page_of (chunk : list card_table) : flowable :=
  PageTable (page_of_chunk chunk).

Definition story_of (cards : list card_table) : list flowable :=
  intersperse PageBreak (map page_of (chunks4 cards)).

(** The cards of the records, in input order, or the exception of the first
    record whose card cannot be built. *)
Definition cards_of (lib : ReportLab) (title content : ParagraphStyle)
           (specs : design_specs) (df : list booking) : result (list card_table) :=
  map_result (fun row => create_single_card lib row title content specs) df.

(** The test of the service filter on one cell: the cell is text and its
    lower-case form contains the keyword. *)
Definition lower_contains (pat : string) (v : pyval) : bool :=
  str_contains pat (str_lower v).

(** The service column is one pandas reads as text: it has a cell of
    text, or no row. *)
Definition text_column (df2 : list booking) : bool :=
  match df2 with
  | [] => true
  | _ :: _ => existsb (fun row => has_text (service_or_event row)) df2
  end.

(** A library that knows the colour names of the widgets and refuses a
    text in which [<] opens anything but [<b] or [</]. *)
Definition sample_colors : list string :=
  ["white"; "black"; "gray"; "blue"; "red"; "green";
   "lightgray"; "lightblue"; "lightyellow"].

Fixpoint tags_ok (s : string) : bool :=
  match s with
  | EmptyString => true
  | String c r =>
      (if Ascii.eqb c "<"
       then match r with
            | String d _ => Ascii.eqb d "b" || Ascii.eqb d "/"
            | EmptyString => false
            end
       else true) && tags_ok r
  end.

Definition sample_reportlab : ReportLab :=
  mk_reportlab
    (fun arg => if existsb (String.eqb arg) sample_colors
                then Ok (Color_value arg) else Raise ValueError)
    (fun text _ => if tags_ok text then Ok tt else Raise ValueError).

(** *** Sample runs *)

Definition absent_session : session :=
  mk_session File_absent None All_bookings "Helvetica" 14 12 true "gray" "white"
             (fun _ => Ok "png") false sample_reportlab (fun _ => Ok "pdf").

Definition no_time_column : DataFrame :=
  mk_frame ["Service or Event"; "Number of People"; "Customer"; "Table(s)"]
           [[PyStr "Lunch"; PyInt 4; PyStr "john smith"; PyStr "T5"]].

Definition no_time_session : session :=
  mk_session (File_holds get_default_specs) (Some (Ok no_time_column)) All_bookings
             "Helvetica" 14 12 true "gray" "white"
             (fun _ => Ok "png") true sample_reportlab (fun _ => Ok "pdf").

Definition dinner_only_frame : DataFrame :=
  mk_frame ["Service or Event"; "Time"; "Number of People"; "Customer"; "Table(s)"]
           [ [PyStr "Dinner"; PyStr "7:30 PM"; PyInt 4; PyStr "john smith"; PyStr "T5"];
             [PyNaN; PyStr "19:30"; PyInt 2; PyStr "jane doe"; PyStr "3"] ].

Definition lunch_of_dinners : session :=
  mk_session (File_holds get_default_specs) (Some (Ok dinner_only_frame)) Lunch_only
             "Helvetica" 14 12 true "gray" "white"
             (fun _ => Ok "png") true sample_reportlab (fun _ => Ok "pdf").

(** An upload whose service column is empty in every row. *)
Definition blank_service_frame : DataFrame :=
  mk_frame ["Service or Event"; "Time"; "Number of People"; "Customer"; "Table(s)"]
           [ [PyNaN; PyStr "7:30 PM"; PyInt 4; PyStr "john smith"; PyStr "T5"];
             [PyNaN; PyStr "19:30"; PyInt 2; PyStr "jane doe"; PyStr "3"] ].

Definition blank_service_rows : list booking :=
  [ mk_booking PyNaN (PyStr "7:30 PM") (PyInt 4) (PyStr "john smith") (PyStr "T5");
    mk_booking PyNaN (PyStr "19:30") (PyInt 2) (PyStr "jane doe") (PyStr "3") ].

Definition lunch_of_blanks : session :=
  mk_session (File_holds get_default_specs) (Some (Ok blank_service_frame)) Lunch_only
             "Helvetica" 14 12 true "gray" "white"
             (fun _ => Ok "png") true sample_reportlab (fun _ => Ok "pdf").

Definition booking_number (n : nat) : booking :=
  mk_booking (PyStr "Dinner") (PyStr "7:30 PM") (PyInt 2)
             (PyStr ("guest " ++ PyStr.of_nat n)) (PyStr (PyStr.of_nat n)).

Definition five_bookings : list booking := map booking_number [1; 2; 3; 4; 5].

(** The two styles [generate_placecards] makes from the default settings. *)
Definition sample_title : ParagraphStyle :=
  mk_style "CustomTitle" "Heading1" 14 (Color_value "black") TA_CENTER
           "Helvetica" None None.

Definition sample_content : ParagraphStyle :=
  mk_style "CustomContent" "Normal" 12 (Color_value "black") TA_CENTER
           "Helvetica" None None.

(** *** Vocabulary of the further properties *)

(** [p] holds at every hour and minute of a day. *)
Definition all_times (p : nat -> nat -> bool) : bool :=
  forallb (fun h => forallb (p h) (seq 0 60)) (seq 0 24).

(** The time of day [hour]:[minute] on the date [strptime] fills in. *)
Definition at_time (hour minute : nat) : datetime := mk_datetime 0 hour minute.

(** How [calculate_end_time] writes a time:
    [dt.strftime("%I:%M %p").lstrip('0')]. *)
Definition display (dt : datetime) : string :=
  PyStr.lstrip_char "0" (strftime dt).

(** The 24-hour writing [HH:MM] of a time. *)
Definition clock24 (hour minute : nat) : string :=
  PyStr.two_digits hour ++ ":" ++ PyStr.two_digits minute.

(** [strptime] reads [data] in the format as the time [hour]:[minute]. *)
Definition parses_to (data : string) (fmt : time_format) (hour minute : nat) : bool :=
  match strptime data fmt with
  | Ok dt => (dt_day dt =? 0) && (dt_hour dt =? hour) && (dt_minute dt =? minute)
  | Raise _ => false
  end.

(** The text does not begin with a blank. *)
Definition no_leading_blank (s : string) : bool :=
  match s with
  | EmptyString => true
  | String c _ => negb (PyStr.is_space c)
  end.

(** A call other than a preview image and a download. *)
Definition plain_call (c : call) : Prop :=
  match c with
  | st_download_button _ _ | st_image _ => False
  | _ => True
  end.

(** A run with no design file, an upload and the button pressed. *)
Definition absent_with_upload : session :=
  mk_session File_absent (Some (Ok dinner_only_frame)) Dinner_only
             "Helvetica" 14 12 true "gray" "white"
             (fun _ => Ok "png") true sample_reportlab (fun _ => Ok "pdf").

(** A download button among the calls. *)
Definition is_download (c : call) : bool :=
  match c with st_download_button _ _ => true | _ => false end.

(** No two page breaks in a row. *)
Fixpoint no_double_break (story : list flowable) : bool :=
  match story with
  | PageBreak :: ((PageBreak :: _) as rest) => false
  | _ :: rest => no_double_break rest
  | [] => true
  end.

(** A page table of two rows of two cells with the page style. *)
Definition two_by_two (f : flowable) : Prop :=
  match f with
  | PageTable t =>
      map (@List.length page_cell) (page_data t) = [2; 2] /\
      page_style t = page_table_style
  | PageBreak => True
  end.

(** The paragraphs of a card. *)
Definition card_paragraphs (card : card_table) : list Paragraph :=
  [ reserved_title card; name card; time_info card; empty_space card;
    footer_left (table_party_table card); footer_right (table_party_table card) ].

(** A run in which a table is uploaded, read and selected, its filter
    keeps rows, the button is pressed and the document cannot be built. *)
Definition failing_build : session :=
  mk_session (File_holds get_default_specs) (Some (Ok dinner_only_frame)) Dinner_only
             "Helvetica" 14 12 true "gray" "white"
             (fun _ => Raise RenderError) true sample_reportlab
             (fun _ => Raise RenderError).

(** The command that outlines a table. *)
Definition is_box (c : style_cmd) : bool :=
  match c with BOX _ _ _ _ => true | _ => false end.

(** A page break. *)
Definition is_break (f : flowable) : bool := negb (is_page f).


(** The time [hour]:[minute] in the four forms of the specification,
    [h:mm AM/PM], [h:mmAM/PM], [hAM/PM] (for a time on the hour) and, on the
    24-hour clock, [HH:mm]; the suffix in capitals or in small letters. *)
Definition hour12 (hour : nat) : nat :=
  if hour mod 12 =? 0 then 12 else hour mod 12.

Definition suffixes (hour : nat) : list string :=
  if hour <? 12 then ["AM"; "am"] else ["PM"; "pm"].

Definition forms (hour minute : nat) : list string :=
  let h := PyStr.of_nat (hour12 hour) in
  let mm := PyStr.two_digits minute in
  (flat_map (fun suffix =>
               [ (h ++ ":" ++ mm ++ " " ++ suffix)%string;
                 (h ++ ":" ++ mm ++ suffix)%string ]
               ++ (if minute =? 0 then [(h ++ suffix)%string] else []))
            (suffixes hour)
   ++ [(PyStr.two_digits hour ++ ":" ++ mm)%string])%list.

(** What the four forms allow, piece by piece: a number in one or two
    digits (with or without a leading zero), a run of blanks, and AM or PM in
    any mix of cases. *)
Definition number_text (n : nat) (x : string) : Prop :=
  x = PyStr.two_digits n \/ (n < 10 /\ x = PyStr.of_nat n).

Definition blank_run (x : string) : Prop :=
  PyStr.is_empty x = false /\ all_chars PyStr.is_space x = true.

Definition suffix_text (pm : bool) (x : string) : Prop :=
  PyStr.lower x = if pm then "pm" else "am".

(** The hour of the day of [hour] o'clock AM or PM: 12 AM is midnight. *)
Definition hour_of_day (hour : nat) (pm : bool) : nat :=
  hour mod 12 + (if pm then 12 else 0).

(** [written fmt t hour minute]: the text [t] is the time
    [hour]:[minute] in the form of the specification that the format [fmt]
    stands for: [h:mm AM/PM], [HH:mm] on the 24-hour clock, [hAM/PM] and
    [h:mmAM/PM]. *)
Inductive written : time_format -> string -> nat -> nat -> Prop :=
| written_12 (hour minute : nat) (pm : bool) (hh mm sp ap : string) :
    1 <= hour <= 12 -> minute < 60 ->
    number_text hour hh -> number_text minute mm ->
    blank_run sp -> suffix_text pm ap ->
    written Fmt_I_M_p (hh ++ ":" ++ mm ++ sp ++ ap) (hour_of_day hour pm) minute
| written_24 (hour minute : nat) (hh mm : string) :
    hour < 24 -> minute < 60 ->
    number_text hour hh -> number_text minute mm ->
    written Fmt_H_M (hh ++ ":" ++ mm) hour minute
| written_hour (hour : nat) (pm : bool) (hh ap : string) :
    1 <= hour <= 12 ->
    number_text hour hh -> suffix_text pm ap ->
    written Fmt_Ip (hh ++ ap) (hour_of_day hour pm) 0
| written_tight (hour minute : nat) (pm : bool) (hh mm ap : string) :
    1 <= hour <= 12 -> minute < 60 ->
    number_text hour hh -> number_text minute mm ->
    suffix_text pm ap ->
    written Fmt_I_Mp (hh ++ ":" ++ mm ++ ap) (hour_of_day hour pm) minute.

(** The form a text can only be in: the one with a blank, the one of
    digits and colon only, and of the other two the one with a colon. *)
Definition digit_or_colon (c : ascii) : bool := PyStr.is_digit c || Ascii.eqb c ":".

Definition form_class (t : string) : time_format :=
  if negb (all_chars no_space t) then Fmt_I_M_p
  else if all_chars digit_or_colon t then Fmt_H_M
  else if all_chars (not_sep ":") t then Fmt_Ip
  else Fmt_I_Mp.

(** The text is empty or begins with a character that [p] refuses. *)
Definition next_not (p : ascii -> bool) (rest : string) : Prop :=
  match rest with
  | EmptyString => True
  | String c _ => p c = false
  end.

(** The first match of the expression on [s] has the value [a] and leaves
    [r]. *)
Definition first_match {A : Type} (p : regex A) (s : string) (a : A) (r : string)
  : Prop :=
  exists tl, p s = (a, r) :: tl.

(** A character that is no digit, no blank and no colon. *)
Definition plain_char (c : ascii) : Prop :=
  PyStr.is_digit c = false /\ PyStr.is_space c = false /\ Ascii.eqb c ":" = false.

(** Every match of the expression consumes a text that [P] relates to
    its value. *)
Definition matches {A : Type} (p : regex A) (P : string -> A -> Prop) : Prop :=
  forall s a r, In (a, r) (p s) -> exists x, s = (x ++ r)%string /\ P x a.

(** The formats read [data], as it stands, as the time [hour]:[minute]. *)
Definition reads_as (data : string) (hour minute : nat) : bool :=
  String.eqb (PyStr.strip data) data &&
  match first_parse time_formats data with
  | Some dt => (dt_day dt =? 0) && (dt_hour dt =? hour) && (dt_minute dt =? minute)
  | None => false
  end.

(** Texts in none of the four forms. *)
Definition not_a_time : list string :=
  [ "garbage"; ""; "7"; "7 PM"; "7:30 XM"; "7.30 PM"; "0:30 AM"; "13:00 PM";
    "24:00"; "7:60 PM"; "19:30 PM"; "7:30 PM x"; "7:30:00 PM"; "PM 7:30";
    "730 PM"; "7:30 P M" ].

End Spec.

Import Spec.

(* ===================================================================== *)
(** ** Characters and strings *)
(* ===================================================================== *)

Section Characters.

Local Ltac by_cases c := destruct c as [[] [] [] [] [] [] [] []]; reflexivity.

Lemma is_space_lower_char (c : ascii) :
  PyStr.is_space (PyStr.lower_char c) = PyStr.is_space c.
Proof. by_cases c. Qed.

Lemma is_space_upper_char (c : ascii) :
  PyStr.is_space (PyStr.upper_char c) = PyStr.is_space c.
Proof. by_cases c. Qed.

Lemma lower_char_idem (c : ascii) :
  PyStr.lower_char (PyStr.lower_char c) = PyStr.lower_char c.
Proof. by_cases c. Qed.

Lemma upper_char_idem (c : ascii) :
  PyStr.upper_char (PyStr.upper_char c) = PyStr.upper_char c.
Proof. by_cases c. Qed.

Lemma lower_upper_char (c : ascii) :
  PyStr.lower_char (PyStr.upper_char c) = PyStr.lower_char c.
Proof. by_cases c. Qed.

Lemma digit_then_not_space (c : ascii) :
  PyStr.is_digit c && PyStr.is_space c = false.
Proof. by_cases c. Qed.

Lemma digit_then_not_comma (c : ascii) :
  PyStr.is_digit c && is_comma c = false.
Proof. by_cases c. Qed.

End Characters.

Lemma digit_not_space (c : ascii) :
  PyStr.is_digit c = true -> PyStr.is_space c = false.
Proof.
  intros Hd. generalize (digit_then_not_space c). rewrite Hd. trivial.
Qed.

Lemma space_not_digit (c : ascii) :
  PyStr.is_space c = true -> PyStr.is_digit c = false.
Proof.
  intros Hs. generalize (digit_then_not_space c). rewrite Hs.
  destruct (PyStr.is_digit c); trivial.
Qed.

Lemma append_nil_r (s : string) : (s ++ "")%string = s.
Proof. induction s as [|c s IH]; simpl; [reflexivity | now rewrite IH]. Qed.

Lemma append_assoc (a b c : string) :
  ((a ++ b) ++ c)%string = (a ++ (b ++ c))%string.
Proof. induction a as [|x a IH]; simpl; [reflexivity | now rewrite IH]. Qed.

Lemma append_snoc (a : string) (c : ascii) (b : string) :
  ((a ++ String c "") ++ b)%string = (a ++ String c b)%string.
Proof. now rewrite append_assoc. Qed.

Lemma is_empty_true (s : string) : PyStr.is_empty s = true -> s = "".
Proof. destruct s; [reflexivity | discriminate]. Qed.

Lemma is_empty_snoc (a : string) (c : ascii) :
  PyStr.is_empty (a ++ String c "") = false.
Proof. destruct a; reflexivity. Qed.

Lemma all_chars_append (p : ascii -> bool) (a b : string) :
  all_chars p (a ++ b) = all_chars p a && all_chars p b.
Proof.
  induction a as [|c a IH]; simpl; [reflexivity|].
  now rewrite IH, andb_assoc.
Qed.

(** *** [join] *)

Lemma join_cons (sep x : string) (l : list string) :
  l <> [] -> PyStr.join sep (x :: l) = (x ++ sep ++ PyStr.join sep l)%string.
Proof. destruct l; [congruence | reflexivity]. Qed.

Lemma all_chars_join (p : ascii -> bool) (sep : string) (l : list string) :
  all_chars p sep = true ->
  Forall (fun x => all_chars p x = true) l ->
  all_chars p (PyStr.join sep l) = true.
Proof.
  intros Hsep H. induction H as [|x l Hx Hl IH]; [reflexivity|].
  destruct l as [|y l]; [exact Hx|].
  rewrite join_cons by discriminate.
  now rewrite !all_chars_append, Hx, Hsep, IH.
Qed.

(** *** [split_on] *)

Lemma split_on_go_nonempty (sep : ascii) (s field : string) :
  PyStr.split_on_go sep field s <> [].
Proof.
  revert field. induction s as [|c s IH]; intros field; simpl.
  - discriminate.
  - destruct (Ascii.eqb c sep); [discriminate | apply IH].
Qed.

Lemma join_split_on_go (sep : ascii) (s field : string) :
  PyStr.join (String sep "") (PyStr.split_on_go sep field s) = (field ++ s)%string.
Proof.
  revert field. induction s as [|c s IH]; intros field; simpl.
  - now rewrite append_nil_r.
  - destruct (Ascii.eqb c sep) eqn:E.
    + apply Ascii.eqb_eq in E. subst c.
      rewrite join_cons by apply split_on_go_nonempty.
      now rewrite IH.
    + rewrite IH. apply append_snoc.
Qed.

Lemma split_on_go_no_sep (sep : ascii) (s field : string) :
  all_chars (fun c => negb (Ascii.eqb c sep)) field = true ->
  Forall (fun seg => all_chars (fun c => negb (Ascii.eqb c sep)) seg = true)
         (PyStr.split_on_go sep field s).
Proof.
  revert field. induction s as [|c s IH]; intros field Hf; simpl.
  - now constructor.
  - destruct (Ascii.eqb c sep) eqn:E.
    + constructor; [exact Hf | now apply IH].
    + apply IH. rewrite all_chars_append, Hf. simpl. now rewrite E.
Qed.

(** *** Digit runs *)

Lemma findall_digits_go_run (s run : string) :
  PyStr.is_empty run = false ->
  exists tl, PyStr.findall_digits_go run s = (run ++ take_digits s)%string :: tl.
Proof.
  revert run. induction s as [|c s IH]; intros run Hrun; simpl.
  - rewrite Hrun, append_nil_r. now exists [].
  - destruct (PyStr.is_digit c).
    + destruct (IH (run ++ String c "")%string (is_empty_snoc run c)) as [tl Htl].
      exists tl. now rewrite Htl, append_snoc.
    + rewrite Hrun, append_nil_r. eauto.
Qed.

Lemma findall_digits_first (s : string) :
  if has_digit s
  then exists tl, PyStr.findall_digits s = first_digit_run s :: tl
  else PyStr.findall_digits s = [].
Proof.
  unfold PyStr.findall_digits, first_digit_run.
  induction s as [|c s IH]; simpl; [reflexivity|].
  destruct (PyStr.is_digit c) eqn:Hc; simpl.
  - rewrite Hc. apply (findall_digits_go_run s (String c "")). reflexivity.
  - exact IH.
Qed.

Lemma take_digits_rstrip (s : string) :
  take_digits (PyStr.rstrip s) = take_digits s.
Proof.
  induction s as [|c s IH]; simpl; [reflexivity|].
  destruct (PyStr.is_space c) eqn:Hs; simpl.
  - rewrite (space_not_digit c Hs).
    destruct (PyStr.is_empty (PyStr.rstrip s)); simpl; [reflexivity|].
    now rewrite (space_not_digit c Hs).
  - destruct (PyStr.is_digit c); [now rewrite IH | reflexivity].
Qed.

Lemma first_digit_run_rstrip (s : string) :
  first_digit_run (PyStr.rstrip s) = first_digit_run s.
Proof.
  unfold first_digit_run.
  induction s as [|c s IH]; simpl; [reflexivity|].
  destruct (PyStr.is_digit c) eqn:Hd.
  - rewrite (digit_not_space c Hd). simpl. rewrite !Hd. simpl.
    now rewrite Hd, take_digits_rstrip.
  - destruct (PyStr.is_space c && PyStr.is_empty (PyStr.rstrip s)) eqn:E; simpl.
    + apply andb_true_iff in E. destruct E as [_ E].
      apply is_empty_true in E. rewrite E in IH. now rewrite <- IH.
    + now rewrite Hd.
Qed.

Lemma first_digit_run_lstrip (s : string) :
  first_digit_run (PyStr.lstrip s) = first_digit_run s.
Proof.
  unfold first_digit_run.
  induction s as [|c s IH]; simpl; [reflexivity|].
  destruct (PyStr.is_space c) eqn:Hs; [|reflexivity].
  now rewrite (space_not_digit c Hs).
Qed.

Lemma first_digit_run_strip (s : string) :
  first_digit_run (PyStr.strip s) = first_digit_run s.
Proof.
  unfold PyStr.strip. now rewrite first_digit_run_rstrip, first_digit_run_lstrip.
Qed.

Lemma has_digit_first_run (s : string) :
  has_digit s = negb (PyStr.is_empty (first_digit_run s)).
Proof.
  unfold first_digit_run.
  induction s as [|c s IH]; simpl; [reflexivity|].
  destruct (PyStr.is_digit c) eqn:Hd; simpl; [now rewrite Hd | exact IH].
Qed.

Lemma has_digit_strip (s : string) : has_digit (PyStr.strip s) = has_digit s.
Proof. now rewrite !has_digit_first_run, first_digit_run_strip. Qed.

Lemma take_digits_all_digits (s : string) :
  all_chars PyStr.is_digit (take_digits s) = true.
Proof.
  induction s as [|c s IH]; simpl; [reflexivity|].
  destruct (PyStr.is_digit c) eqn:Hd; simpl; [now rewrite Hd | reflexivity].
Qed.

Lemma all_chars_weaken (p q : ascii -> bool) (s : string) :
  (forall c, p c = true -> q c = true) ->
  all_chars p s = true -> all_chars q s = true.
Proof.
  intros Hpq. induction s as [|c s IH]; simpl; [trivial|].
  intros H. apply andb_true_iff in H. destruct H as [Hc Hs].
  now rewrite (Hpq c Hc), IH.
Qed.

(** *** [clean_tables] *)

Lemma clean_tables_runs (segments : list string) :
  clean_tables segments = map first_digit_run (filter has_digit segments).
Proof.
  induction segments as [|seg segments IH]; simpl; [reflexivity|].
  generalize (findall_digits_first (PyStr.strip seg)).
  rewrite has_digit_strip, first_digit_run_strip.
  destruct (has_digit seg); simpl.
  - intros [tl Htl]. rewrite Htl. now rewrite IH.
  - intros E. now rewrite E.
Qed.

Lemma runs_digits (segments : list string) :
  Forall (fun x => all_chars digit_or_comma x = true)
         (map first_digit_run segments).
Proof.
  induction segments as [|seg segments IH]; simpl; constructor; [|exact IH].
  apply (all_chars_weaken PyStr.is_digit).
  - intros c Hc. unfold digit_or_comma. now rewrite Hc.
  - apply take_digits_all_digits.
Qed.

Lemma extract_table_numbers_chars (v : pyval) :
  extract_table_numbers v = "TBD" \/
  all_chars digit_or_comma (extract_table_numbers v) = true.
Proof.
  unfold extract_table_numbers.
  destruct (pd_isna v || eq_empty v); [now left|].
  rewrite clean_tables_runs.
  destruct (map first_digit_run _) as [|run runs] eqn:E; [now left|].
  right. rewrite <- E. apply all_chars_join; [reflexivity | apply runs_digits].
Qed.

Lemma extract_table_numbers_text (s : string) :
  extract_table_numbers (PyStr s) =
  match map first_digit_run (filter has_digit (PyStr.split_on "," s)) with
  | [] => "TBD"
  | runs => PyStr.join "," runs
  end.
Proof.
  unfold extract_table_numbers. simpl.
  destruct (PyStr.is_empty s) eqn:E.
  - apply is_empty_true in E. now subst s.
  - now rewrite clean_tables_runs.
Qed.

(** C5. Table-number extraction: a missing or empty input gives ["TBD"];
    any other ASCII text is split on commas (the segments, rejoined with
    commas, are the text, and none contains a comma), the first run of
    digits of each segment that has a digit is kept, in order, segments
    without a digit are dropped, and the runs are joined with commas,
    ["TBD"] standing for no run at all; the three examples of the
    specification hold, and every output for an ASCII value is ["TBD"] or
    made of digits and commas only. *)
Theorem extract_table_numbers_spec :
  extract_table_numbers PyNaN = "TBD" /\
  extract_table_numbers (PyStr "") = "TBD" /\
  (forall s : string,
      PyStr.is_ascii s = true ->
      let segments := PyStr.split_on "," s in
      PyStr.join "," segments = s /\
      Forall (fun seg => all_chars (fun c => negb (is_comma c)) seg = true) segments /\
      extract_table_numbers (PyStr s) =
        match map first_digit_run (filter has_digit segments) with
        | [] => "TBD"
        | runs => PyStr.join "," runs
        end) /\
  extract_table_numbers (PyStr "5, T12, none") = "5,12" /\
  extract_table_numbers (PyStr "abc") = "TBD" /\
  (forall v : pyval,
      ascii_value v = true ->
      extract_table_numbers v = "TBD" \/
      all_chars digit_or_comma (extract_table_numbers v) = true).
Proof.
  repeat split; try reflexivity.
  - apply (join_split_on_go "," s "").
  - apply (split_on_go_no_sep "," s ""). reflexivity.
  - apply extract_table_numbers_text.
  - intros v _. apply extract_table_numbers_chars.
Qed.

(* ===================================================================== *)
(** ** Pagination *)
(* ===================================================================== *)

Lemma list_ind4 {A : Type} (P : list A -> Prop) :
  P [] ->
  (forall short, 1 <= List.length short <= 3 -> P short) ->
  (forall a b c d rest, P rest -> P (a :: b :: c :: d :: rest)) ->
  forall l, P l.
Proof.
  intros Hnil Hshort Hstep.
  fix IH 1.
  intros [|a [|b [|c [|d rest]]]].
  - exact Hnil.
  - apply Hshort. simpl. lia.
  - apply Hshort. simpl. lia.
  - apply Hshort. simpl. lia.
  - apply Hstep, IH.
Qed.

Lemma chunks4_short {A : Type} (short : list A) :
  1 <= List.length short <= 3 -> chunks4 short = [short].
Proof.
  destruct short as [|a [|b [|c [|d rest]]]]; simpl; intros H;
    try reflexivity; lia.
Qed.

Lemma chunks4_nil {A : Type} (l : list A) : chunks4 l = [] -> l = [].
Proof.
  destruct l as [|a [|b [|c [|d rest]]]]; simpl; intros H;
    try reflexivity; discriminate.
Qed.

Lemma concat_chunks4 {A : Type} (l : list A) : List.concat (chunks4 l) = l.
Proof.
  induction l as [|short H|a b c d rest IH] using list_ind4.
  - reflexivity.
  - rewrite chunks4_short by exact H. simpl. apply app_nil_r.
  - simpl. now rewrite IH.
Qed.

Lemma length_chunks4 {A : Type} (l : list A) :
  List.length (chunks4 l) = (List.length l + 3) / 4.
Proof.
  induction l as [|short H|a b c d rest IH] using list_ind4.
  - reflexivity.
  - rewrite chunks4_short by exact H.
    change (List.length [short]) with 1.
    apply Nat.div_unique with (r := List.length short - 1); lia.
  - simpl List.length. rewrite IH.
    replace (S (S (S (S (List.length rest)))) + 3)
      with (1 * 4 + (List.length rest + 3)) by lia.
    now rewrite Nat.div_add_l by discriminate.
Qed.

Lemma chunks4_sizes {A : Type} (l : list A) :
  Forall (fun chunk => 1 <= List.length chunk <= 4) (chunks4 l).
Proof.
  induction l as [|short H|a b c d rest IH] using list_ind4.
  - constructor.
  - rewrite chunks4_short by exact H. constructor; [lia | constructor].
  - simpl. constructor; [simpl; lia | exact IH].
Qed.

Lemma chunks4_full {A : Type} (l : list A) (i : nat) :
  S i < List.length (chunks4 l) -> List.length (nth i (chunks4 l) []) = 4.
Proof.
  revert i. induction l as [|short H|a b c d rest IH] using list_ind4; intros i.
  - simpl. lia.
  - rewrite chunks4_short by exact H. simpl. lia.
  - simpl. destruct i as [|i]; [reflexivity|].
    intros Hi. apply IH. lia.
Qed.

(** *** Loops over a list whose body may raise *)

Section MapResult.

Context {A B : Type} (f : A -> result B).

Lemma map_result_cons (x : A) (l : list A) :
  map_result f (x :: l) =
  match f x with
  | Ok y => match map_result f l with
            | Ok ys => Ok (y :: ys)
            | Raise e => Raise e
            end
  | Raise e => Raise e
  end.
Proof. reflexivity. Qed.

Lemma map_result_app (l1 l2 : list A) :
  map_result f (l1 ++ l2) =
  match map_result f l1 with
  | Ok ys1 => match map_result f l2 with
              | Ok ys2 => Ok (ys1 ++ ys2)
              | Raise e => Raise e
              end
  | Raise e => Raise e
  end.
Proof.
  induction l1 as [|x l1 IH].
  - simpl. now destruct (map_result f l2).
  - rewrite <- app_comm_cons, !map_result_cons, IH.
    destruct (f x) as [y|e]; [|reflexivity].
    destruct (map_result f l1) as [ys1|e]; [|reflexivity].
    now destruct (map_result f l2).
Qed.

Lemma map_result_Forall2 (l : list A) (ys : list B) :
  map_result f l = Ok ys <-> Forall2 (fun x y => f x = Ok y) l ys.
Proof.
  revert ys. induction l as [|x l IH]; intros ys.
  - simpl. split.
    + intros H. inversion H. constructor.
    + intros H. inversion H. reflexivity.
  - rewrite map_result_cons. split.
    + destruct (f x) as [y|e] eqn:E; [|discriminate].
      destruct (map_result f l) as [ys'|e] eqn:E'; [|discriminate].
      intros H. inversion H. constructor; [exact E | now apply IH].
    + intros H. inversion H as [|x' y l' ys' Hx Hl]; subst.
      rewrite Hx. apply IH in Hl. now rewrite Hl.
Qed.

Lemma map_result_length (l : list A) (ys : list B) :
  map_result f l = Ok ys -> List.length ys = List.length l.
Proof.
  intros H. apply map_result_Forall2 in H.
  symmetry. eapply Forall2_length. exact H.
Qed.

(** The first entry that raises decides. *)
Lemma map_result_raises (l : list A) (e : exn) :
  map_result f l = Raise e <->
  exists before x after ys,
    l = before ++ x :: after /\ map_result f before = Ok ys /\ f x = Raise e.
Proof.
  induction l as [|x l IH].
  - simpl. split; [discriminate|].
    intros [before [x [after [ys [H _]]]]]. now destruct before.
  - rewrite map_result_cons. split.
    + destruct (f x) as [y|e'] eqn:E.
      * destruct (map_result f l) as [ys|e'] eqn:E'; [discriminate|].
        intros H. inversion H; subst e'.
        destruct (proj1 IH eq_refl) as [before [x' [after [ys [Hl [Hb Hx]]]]]].
        exists (x :: before), x', after, (y :: ys).
        split; [now rewrite Hl|]. split; [|exact Hx].
        now rewrite map_result_cons, E, Hb.
      * intros H. inversion H; subst e'.
        exists [], x, l, []. now repeat split.
    + intros [before [x' [after [ys [Hl [Hb Hx]]]]]].
      destruct before as [|b before].
      * simpl in Hl. inversion Hl; subst. now rewrite Hx.
      * simpl in Hl. inversion Hl; subst.
        rewrite map_result_cons in Hb.
        destruct (f b) as [y|e']; [|discriminate].
        destruct (map_result f before) as [ys'|e'] eqn:E'; [|discriminate].
        assert (H : map_result f (before ++ x' :: after) = Raise e).
        { apply IH. exists before, x', after, ys'. now repeat split. }
        now rewrite H.
Qed.

End MapResult.

(** *** The story of a list of cards *)

Lemma story_of_nil : story_of [] = [].
Proof. reflexivity. Qed.

Lemma story_of_short (cards : list card_table) :
  1 <= List.length cards <= 4 -> story_of cards = [page_of cards].
Proof.
  destruct cards as [|a [|b [|c [|d [|e rest]]]]]; simpl; intros H;
    try reflexivity; lia.
Qed.

Lemma story_of_four (a b c d : card_table) (rest : list card_table) :
  rest <> [] ->
  story_of (a :: b :: c :: d :: rest)
  = page_of [a; b; c; d] :: PageBreak :: story_of rest.
Proof.
  intros Hrest. unfold story_of.
  change (chunks4 (a :: b :: c :: d :: rest)) with ([a; b; c; d] :: chunks4 rest).
  destruct (chunks4 rest) as [|chunk chunks] eqn:E; [|reflexivity].
  apply chunks4_nil in E. congruence.
Qed.

Lemma story_of_app (first rest : list card_table) :
  first <> [] ->
  List.length first = 4 \/ (List.length first <= 4 /\ rest = []) ->
  story_of (first ++ rest)
  = page_of first :: (match rest with [] => [] | _ :: _ => [PageBreak] end)
                     ++ story_of rest.
Proof.
  intros Hne [H4|[Hle ->]].
  - destruct first as [|a [|b [|c [|d [|e first]]]]]; try discriminate.
    destruct rest as [|r rest].
    + reflexivity.
    + apply story_of_four. discriminate.
  - rewrite app_nil_r. apply story_of_short.
    destruct first; [congruence | simpl in *; lia].
Qed.

Section Pagination.

Variable lib : ReportLab.
Variables title content : ParagraphStyle.
Variable specs : design_specs.

(** *** The loops of [generate_placecards] *)

Lemma page_body_eq (df : list booking) (story : list flowable) (page_start : nat) :
  page_body lib df title content specs story page_start =
  match cards_of lib title content specs (firstn 4 (skipn page_start df)) with
  | Ok cards =>
      Ok (story ++ page_of cards
                :: (if page_start + 4 <? List.length df then [PageBreak] else []))
  | Raise e => Raise e
  end.
Proof.
  unfold page_body, iloc_slice, page_of, cards_of.
  replace (page_start + 4 - page_start) with 4 by lia.
  assert (Hlen : List.length (firstn 4 (skipn page_start df)) <= 4)
    by apply firstn_le_length.
  generalize (page_start + 4 <? List.length df). intros more.
  destruct (firstn 4 (skipn page_start df)) as [|a [|b [|c [|d [|e rest]]]]];
    cbn [List.length] in Hlen; try lia;
    cbn [List.length Nat.min Nat.ltb Nat.leb range range_go Nat.sub Nat.add
         for_each append_card iloc nth_error bind map_result];
    repeat match goal with
           | |- context [create_single_card lib ?r title content specs] =>
               destruct (create_single_card lib r title content specs);
               cbn [bind]; [|reflexivity]
           end;
    destruct more; cbn [fill_row List.length Nat.ltb Nat.leb app];
    rewrite <- ?app_assoc; reflexivity.
Qed.

Lemma cards_of_split (df : list booking) :
  cards_of lib title content specs df =
  match cards_of lib title content specs (firstn 4 df) with
  | Ok first =>
      match cards_of lib title content specs (skipn 4 df) with
      | Ok rest => Ok (first ++ rest)
      | Raise e => Raise e
      end
  | Raise e => Raise e
  end.
Proof.
  unfold cards_of. rewrite <- map_result_app. now rewrite firstn_skipn.
Qed.

Lemma page_loop (df : list booking) (fuel : nat) :
  forall (page_start : nat) (story : list flowable),
    List.length df - page_start <= fuel ->
    for_each (range_go fuel page_start (List.length df) 4)
             (page_body lib df title content specs) story
    = match cards_of lib title content specs (skipn page_start df) with
      | Ok cards => Ok (story ++ story_of cards)
      | Raise e => Raise e
      end.
Proof.
  induction fuel as [|fuel IH]; intros page_start story Hfuel.
  - cbn [range_go for_each]. rewrite skipn_all2 by lia.
    cbn. now rewrite app_nil_r.
  - cbn [range_go]. destruct (Nat.ltb_spec page_start (List.length df)) as [Hlt|Hge].
    + cbn [for_each]. rewrite page_body_eq.
      rewrite (cards_of_split (skipn page_start df)).
      destruct (cards_of lib title content specs (firstn 4 (skipn page_start df)))
        as [first|e] eqn:Efirst; [|reflexivity].
      cbn [bind]. rewrite IH by lia.
      rewrite skipn_skipn. replace (4 + page_start) with (page_start + 4) by lia.
      destruct (cards_of lib title content specs (skipn (page_start + 4) df))
        as [rest|e] eqn:Erest; [|reflexivity].
      apply map_result_length in Efirst, Erest.
      rewrite length_firstn, length_skipn in Efirst.
      rewrite length_skipn in Erest.
      rewrite story_of_app.
      * rewrite <- app_assoc. cbn [app]. do 3 f_equal.
        destruct (Nat.ltb_spec (page_start + 4) (List.length df));
          destruct rest; cbn [List.length] in Erest; try lia; reflexivity.
      * destruct first; [cbn [List.length] in Efirst; lia | discriminate].
      * destruct (Nat.le_gt_cases 4 (List.length df - page_start)).
        -- left. lia.
        -- right. split; [lia|]. destruct rest; [reflexivity|].
           cbn [List.length] in Erest. lia.
    + cbn [for_each]. rewrite skipn_all2 by lia.
      cbn. now rewrite app_nil_r.
Qed.

Lemma build_story_eq (df : list booking) :
  build_story lib df title content specs =
  match cards_of lib title content specs df with
  | Ok cards => Ok (story_of cards)
  | Raise e => Raise e
  end.
Proof.
  unfold build_story, range.
  rewrite page_loop by lia. reflexivity.
Qed.

(** The chunks of the cards are the cards of the chunks of the records. *)
Lemma cards_of_chunks (df : list booking) :
  forall cards,
    cards_of lib title content specs df = Ok cards ->
    Forall2 (fun records chunk => cards_of lib title content specs records = Ok chunk)
            (chunks4 df) (chunks4 cards).
Proof.
  induction df as [|short H|a b c d rest IH] using list_ind4; intros cards E.
  - inversion E. constructor.
  - assert (Hlen := map_result_length _ _ _ E).
    rewrite chunks4_short by exact H.
    rewrite chunks4_short by lia.
    constructor; [exact E | constructor].
  - unfold cards_of in E. rewrite !map_result_cons in E.
    destruct (create_single_card lib a title content specs) as [ca|e] eqn:Ea;
      [|discriminate].
    destruct (create_single_card lib b title content specs) as [cb|e] eqn:Eb;
      [|discriminate].
    destruct (create_single_card lib c title content specs) as [cc|e] eqn:Ec;
      [|discriminate].
    destruct (create_single_card lib d title content specs) as [cd|e] eqn:Ed;
      [|discriminate].
    destruct (map_result _ rest) as [cr|e] eqn:Er; [|discriminate].
    inversion E; subst cards.
    change (chunks4 (a :: b :: c :: d :: rest)) with ([a; b; c; d] :: chunks4 rest).
    change (chunks4 (ca :: cb :: cc :: cd :: cr)) with ([ca; cb; cc; cd] :: chunks4 cr).
    constructor; [|now apply IH].
    unfold cards_of. rewrite !map_result_cons, Ea, Eb, Ec, Ed. reflexivity.
Qed.

End Pagination.

(** *** The story *)

Lemma filter_is_page_intersperse (l : list (list card_table)) :
  filter is_page (intersperse PageBreak (map page_of l)) = map page_of l.
Proof.
  induction l as [|chunk l IH]; [reflexivity|].
  destruct l as [|chunk' l]; [reflexivity|].
  change (page_of chunk
            :: filter is_page (intersperse PageBreak (map page_of (chunk' :: l)))
          = page_of chunk :: map page_of (chunk' :: l)).
  now rewrite IH.
Qed.

Lemma cards_of_page (chunk : list card_table) :
  List.length chunk <= 4 -> cards_of_flowable (page_of chunk) = chunk.
Proof.
  destruct chunk as [|a [|b [|c [|d [|e rest]]]]]; simpl; intros H;
    try reflexivity; lia.
Qed.

Lemma cards_of_intersperse (l : list (list card_table)) :
  Forall (fun chunk => 1 <= List.length chunk <= 4) l ->
  flat_map cards_of_flowable (intersperse PageBreak (map page_of l))
  = List.concat l.
Proof.
  induction 1 as [|chunk l Hc Hl IH]; [reflexivity|].
  destruct l as [|chunk' l].
  - change (cards_of_flowable (page_of chunk) ++ [] = chunk ++ []).
    rewrite !app_nil_r. apply cards_of_page. lia.
  - change (cards_of_flowable (page_of chunk)
              ++ flat_map cards_of_flowable
                   (intersperse PageBreak (map page_of (chunk' :: l)))
            = chunk ++ List.concat (chunk' :: l)).
    rewrite IH.
    now rewrite cards_of_page by lia.
Qed.

Lemma story_of_pages (cards : list card_table) :
  List.length (filter is_page (story_of cards)) = (List.length cards + 3) / 4.
Proof.
  unfold story_of.
  rewrite filter_is_page_intersperse, length_map. apply length_chunks4.
Qed.

Lemma generate_placecards_eq {pdf : Type} (lib : ReportLab)
      (build : list flowable -> result pdf) (df : list booking)
      (specs : design_specs) :
  generate_placecards lib build df specs =
  match title_style lib specs with
  | Ok title =>
      match content_style lib specs with
      | Ok content =>
          match cards_of lib title content specs df with
          | Ok cards => build (story_of cards)
          | Raise e => Raise e
          end
      | Raise e => Raise e
      end
  | Raise e => Raise e
  end.
Proof.
  unfold generate_placecards.
  destruct (title_style lib specs) as [title|e]; [|reflexivity].
  destruct (content_style lib specs) as [content|e]; [|reflexivity].
  cbn [bind]. rewrite build_story_eq.
  now destruct (cards_of lib title content specs df).
Qed.

(** C2. Pagination.  The page loop builds the cards of the records in
    input order and fails, with the exception of the first record whose
    card the library cannot build, before anything is handed to
    [doc.build]; otherwise its story is the list of the pages of the
    consecutive chunks of at most four cards, in input order, with a page
    break between two pages and none after the last.  For [N] records the
    story has ceil(N/4) pages (written [(N + 3) / 4]); the chunks of the
    cards are the cards of the chunks of the records; all chunks but the
    last hold exactly four; the cards of the story, read page by page and
    row by row, are the cards of the records in input order, and the cards
    of a page are those of its chunk; a grid cell beyond the length of the
    chunk is the empty text, a cell within it is the card of its record,
    and the page table draws no line around its cells. *)
Theorem generate_placecards_pagination
        (lib : ReportLab) (title content : ParagraphStyle)
        (specs : design_specs) (df : list booking) :
  build_story lib df title content specs =
    match cards_of lib title content specs df with
    | Ok cards =>
        Ok (intersperse PageBreak
              (map (fun chunk => PageTable (page_of_chunk chunk)) (chunks4 cards)))
    | Raise e => Raise e
    end /\
  (forall e,
      cards_of lib title content specs df = Raise e <->
      exists before row after cards,
        df = before ++ row :: after /\
        cards_of lib title content specs before = Ok cards /\
        create_single_card lib row title content specs = Raise e) /\
  (forall (pdf : Type) (doc_build : list flowable -> result pdf),
      title_style lib specs = Ok title ->
      content_style lib specs = Ok content ->
      generate_placecards lib doc_build df specs =
        match cards_of lib title content specs df with
        | Ok cards => doc_build (story_of cards)
        | Raise e => Raise e
        end) /\
  (forall cards : list card_table,
      cards_of lib title content specs df = Ok cards ->
      let pages := chunks4 cards in
      let story := story_of cards in
      Forall2 (fun row card => create_single_card lib row title content specs = Ok card)
              df cards /\
      List.length (filter is_page story) = (List.length df + 3) / 4 /\
      List.length pages = (List.length df + 3) / 4 /\
      List.concat pages = cards /\
      Forall2 (fun records chunk =>
                 cards_of lib title content specs records = Ok chunk)
              (chunks4 df) pages /\
      Forall (fun chunk => 1 <= List.length chunk <= 4) pages /\
      (forall i, S i < List.length pages -> List.length (nth i pages []) = 4) /\
      flat_map cards_of_flowable story = cards /\
      (forall chunk,
          In chunk pages ->
          cards_of_flowable (PageTable (page_of_chunk chunk)) = chunk)) /\
  (forall (chunk : list card_table) (i : nat),
      match nth_error chunk i with
      | Some card => grid_cell chunk i = CellCard card
      | None => grid_cell chunk i = CellText ""
      end) /\
  existsb draws_line page_table_style = false.
Proof.
  split; [apply build_story_eq|].
  split; [intros e; apply map_result_raises|].
  split.
  { intros pdf doc_build Ht Hc.
    rewrite generate_placecards_eq, Ht, Hc. reflexivity. }
  split.
  { intros cards E. cbv zeta.
    assert (Hlen := map_result_length _ _ _ E).
    split; [now apply map_result_Forall2|].
    split; [rewrite story_of_pages; now rewrite Hlen|].
    split; [rewrite length_chunks4; now rewrite Hlen|].
    split; [apply concat_chunks4|].
    split; [now apply cards_of_chunks|].
    split; [apply chunks4_sizes|].
    split; [apply chunks4_full|].
    split.
    - unfold story_of. rewrite cards_of_intersperse by apply chunks4_sizes.
      apply concat_chunks4.
    - intros chunk Hin. apply cards_of_page.
      generalize (chunks4_sizes cards). rewrite Forall_forall.
      intros Hall. apply (Hall chunk Hin). }
  split; [|reflexivity].
  intros chunk i. unfold grid_cell. now destruct (nth_error chunk i).
Qed.

(* ===================================================================== *)
(** ** The time range *)
(* ===================================================================== *)

Section Regex.

Context {A B : Type}.

Lemma yields_ret (a : A) (P : A -> Prop) : P a -> yields (re_ret a) P.
Proof.
  intros Ha s a' r [E|[]]. inversion E. now subst.
Qed.

Lemma yields_seq (p : regex A) (k : A -> regex B) (P : A -> Prop) (Q : B -> Prop) :
  yields p P -> (forall a, P a -> yields (k a) Q) -> yields (re_seq p k) Q.
Proof.
  intros Hp Hk s b r Hin. unfold re_seq in Hin.
  apply in_flat_map in Hin. destruct Hin as [[a r'] [Hin1 Hin2]].
  exact (Hk a (Hp s a r' Hin1) r' b r Hin2).
Qed.

Lemma yields_alt (p q : regex A) (P : A -> Prop) :
  yields p P -> yields q P -> yields (re_alt p q) P.
Proof.
  intros Hp Hq s a r Hin. unfold re_alt in Hin.
  apply in_app_or in Hin. destruct Hin; [eapply Hp | eapply Hq]; eassumption.
Qed.

Lemma yields_any (p : regex A) : yields p (fun _ => True).
Proof. intros s a r _. exact I. Qed.

End Regex.

Lemma yields_digit (lo hi : nat) :
  yields (re_digit lo hi) (fun d => lo <= d <= hi).
Proof.
  intros [|c s] d r; simpl; [tauto|].
  destruct (PyStr.is_digit c); [|simpl; tauto].
  destruct (Nat.leb_spec lo (PyStr.ord c - 48));
    destruct (Nat.leb_spec (PyStr.ord c - 48) hi); simpl; try tauto.
  intros [E|[]]. inversion E. subst. lia.
Qed.

Lemma yields_digit2 (lo1 hi1 lo2 hi2 : nat) :
  yields (re_digit2 lo1 hi1 lo2 hi2)
         (fun n => 10 * lo1 + lo2 <= n <= 10 * hi1 + hi2).
Proof.
  unfold re_digit2.
  apply yields_seq with (P := fun d => lo1 <= d <= hi1); [apply yields_digit|].
  intros a Ha.
  apply yields_seq with (P := fun d => lo2 <= d <= hi2); [apply yields_digit|].
  intros b Hb.
  apply yields_ret. lia.
Qed.

Lemma yields_weaken {A : Type} (p : regex A) (P Q : A -> Prop) :
  (forall a, P a -> Q a) -> yields p P -> yields p Q.
Proof. intros HPQ Hp s a r Hin. exact (HPQ a (Hp s a r Hin)). Qed.

Lemma dir_I_range : yields dir_I (fun h => 1 <= h <= 12).
Proof.
  unfold dir_I. repeat apply yields_alt.
  - eapply yields_weaken; [|apply yields_digit2]. simpl. intros a. lia.
  - eapply yields_weaken; [|apply yields_digit2]. simpl. intros a. lia.
  - eapply yields_weaken; [|apply yields_digit]. simpl. intros a. lia.
Qed.

Lemma dir_H_range : yields dir_H (fun h => h < 24).
Proof.
  unfold dir_H. repeat apply yields_alt.
  - eapply yields_weaken; [|apply yields_digit2]. simpl. intros a. lia.
  - eapply yields_weaken; [|apply yields_digit2]. simpl. intros a. lia.
  - eapply yields_weaken; [|apply yields_digit]. simpl. intros a. lia.
Qed.

Lemma dir_M_range : yields dir_M (fun m => m < 60).
Proof.
  unfold dir_M. repeat apply yields_alt.
  - eapply yields_weaken; [|apply yields_digit2]. simpl. intros a. lia.
  - eapply yields_weaken; [|apply yields_digit]. simpl. intros a. lia.
Qed.

Lemma hour_of_I_range (h : nat) (pm : bool) :
  1 <= h <= 12 -> hour_of_I h pm < 24.
Proof.
  intros H. unfold hour_of_I.
  destruct pm; destruct (Nat.eqb_spec h 12); lia.
Qed.

Lemma format_regex_range (fmt : time_format) :
  yields (format_regex fmt) time_of_day.
Proof.
  destruct fmt; unfold format_regex.
  - apply yields_seq with (P := fun h => 1 <= h <= 12); [apply dir_I_range|]. intros h Hh.
    apply yields_seq with (P := fun _ => True); [apply yields_any|]. intros _ _.
    apply yields_seq with (P := fun m => m < 60); [apply dir_M_range|]. intros m Hm.
    apply yields_seq with (P := fun _ => True); [apply yields_any|]. intros _ _.
    apply yields_seq with (P := fun _ => True); [apply yields_any|]. intros pm _.
    apply yields_ret. repeat split; simpl; auto using hour_of_I_range.
  - apply yields_seq with (P := fun h => h < 24); [apply dir_H_range|]. intros h Hh.
    apply yields_seq with (P := fun _ => True); [apply yields_any|]. intros _ _.
    apply yields_seq with (P := fun m => m < 60); [apply dir_M_range|]. intros m Hm.
    apply yields_ret. repeat split; simpl; auto.
  - apply yields_seq with (P := fun h => 1 <= h <= 12); [apply dir_I_range|]. intros h Hh.
    apply yields_seq with (P := fun _ => True); [apply yields_any|]. intros pm _.
    apply yields_ret. repeat split; simpl; auto using hour_of_I_range. lia.
  - apply yields_seq with (P := fun h => 1 <= h <= 12); [apply dir_I_range|]. intros h Hh.
    apply yields_seq with (P := fun _ => True); [apply yields_any|]. intros _ _.
    apply yields_seq with (P := fun m => m < 60); [apply dir_M_range|]. intros m Hm.
    apply yields_seq with (P := fun _ => True); [apply yields_any|]. intros pm _.
    apply yields_ret. repeat split; simpl; auto using hour_of_I_range.
Qed.

Lemma strptime_range (data : string) (fmt : time_format) (dt : datetime) :
  strptime data fmt = Ok dt -> time_of_day dt.
Proof.
  unfold strptime. intros H.
  destruct (format_regex fmt data) as [|[dt' rest] l] eqn:E; [discriminate|].
  destruct (PyStr.is_empty rest); [|discriminate].
  inversion H; subst dt'.
  apply (format_regex_range fmt data dt rest). rewrite E. now left.
Qed.

Lemma strptime_raises_ValueError (data : string) (fmt : time_format) (e : exn) :
  strptime data fmt = Raise e -> e = ValueError.
Proof.
  unfold strptime.
  destruct (format_regex fmt data) as [|[dt rest] l].
  - congruence.
  - destruct (PyStr.is_empty rest); congruence.
Qed.

Lemma first_parse_range (fmts : list time_format) (data : string) (dt : datetime) :
  first_parse fmts data = Some dt -> time_of_day dt.
Proof.
  induction fmts as [|fmt fmts IH]; simpl; [discriminate|].
  destruct (strptime data fmt) eqn:E; [|exact IH].
  intros H. inversion H; subst. eapply strptime_range; eassumption.
Qed.

Lemma try_formats_text (s : string) (fmts : list time_format) :
  try_formats (PyStr s) fmts = Ok (first_parse fmts (PyStr.strip s)).
Proof.
  induction fmts as [|fmt fmts IH]; simpl; [reflexivity|].
  destruct (strptime (PyStr.strip s) fmt) as [dt|e] eqn:E; [reflexivity|].
  apply strptime_raises_ValueError in E. subst e. exact IH.
Qed.

Lemma try_formats_not_text (v : pyval) (fmts : list time_format) :
  (forall s, v <> PyStr s) -> fmts <> [] ->
  try_formats v fmts = Raise AttributeError.
Proof.
  intros Hv Hf. destruct fmts as [|fmt fmts]; [congruence|].
  destruct v; simpl; try reflexivity. now elim (Hv s).
Qed.

Lemma lstrip_strftime (dt : datetime) :
  PyStr.lstrip_char "0" (strftime dt) = clock12 (dt_hour dt) (dt_minute dt).
Proof.
  unfold strftime, clock12.
  assert (Hk : dt_hour dt mod 12 < 12) by (apply Nat.mod_upper_bound; discriminate).
  destruct (dt_hour dt mod 12) as [|[|[|[|[|[|[|[|[|[|[|[|k]]]]]]]]]]]];
    try reflexivity; lia.
Qed.

Lemma calculate_end_time_text (s : string) :
  calculate_end_time (PyStr s) =
  match first_parse time_formats (PyStr.strip s) with
  | Some start =>
      (clock12 (dt_hour start) (dt_minute start) ++ " - " ++
       clock12 ((dt_hour start + 2) mod 24) (dt_minute start))%string
  | None => (s ++ " - " ++ s)%string
  end.
Proof.
  unfold calculate_end_time, calculate_end_time_try.
  rewrite try_formats_text. cbv beta iota delta [bind].
  destruct (first_parse time_formats (PyStr.strip s)) as [start|]; [|reflexivity].
  cbv zeta. rewrite !lstrip_strftime. reflexivity.
Qed.

(** *** Blanks around a text *)

Lemma lstrip_blank (a : string) :
  all_chars PyStr.is_space a = true -> PyStr.lstrip a = "".
Proof.
  induction a as [|c a IH]; simpl; [reflexivity|].
  intros H. apply andb_true_iff in H. destruct H as [Hc Ha].
  rewrite Hc. now apply IH.
Qed.

Lemma lstrip_blank_app (a x : string) :
  all_chars PyStr.is_space a = true ->
  PyStr.lstrip (a ++ x) = PyStr.lstrip x.
Proof.
  induction a as [|c a IH]; simpl; [reflexivity|].
  intros H. apply andb_true_iff in H. destruct H as [Hc Ha].
  rewrite Hc. now apply IH.
Qed.

Lemma rstrip_blank (b : string) :
  all_chars PyStr.is_space b = true -> PyStr.rstrip b = "".
Proof.
  induction b as [|c b IH]; simpl; [reflexivity|].
  intros H. apply andb_true_iff in H. destruct H as [Hc Hb].
  now rewrite Hc, IH.
Qed.

Lemma rstrip_app_blank (x b : string) :
  all_chars PyStr.is_space b = true ->
  PyStr.rstrip (x ++ b) = PyStr.rstrip x.
Proof.
  intros Hb. induction x as [|c x IH]; simpl.
  - now apply rstrip_blank.
  - now rewrite IH.
Qed.

Lemma strip_app_blank (x b : string) :
  all_chars PyStr.is_space b = true ->
  PyStr.strip (x ++ b) = PyStr.strip x.
Proof.
  intros Hb. unfold PyStr.strip.
  induction x as [|c x IH]; simpl.
  - now rewrite (lstrip_blank b Hb).
  - destruct (PyStr.is_space c); [exact IH|].
    apply (rstrip_app_blank (String c x) b Hb).
Qed.

Lemma strip_padded (before x after : string) :
  all_chars PyStr.is_space before = true ->
  all_chars PyStr.is_space after = true ->
  PyStr.strip (before ++ x ++ after) = PyStr.strip x.
Proof.
  intros Ha Hb.
  rewrite <- (strip_app_blank x after Hb).
  unfold PyStr.strip. now rewrite lstrip_blank_app.
Qed.

Lemma rstrip_no_space (w : string) :
  all_chars no_space w = true -> PyStr.rstrip w = w.
Proof.
  induction w as [|c w IH]; simpl; [reflexivity|].
  intros H. apply andb_true_iff in H. destruct H as [Hc Hw].
  unfold no_space in Hc. apply negb_true_iff in Hc.
  now rewrite Hc, IH.
Qed.

Lemma rstrip_ends_with_word (a w : string) :
  is_word w -> PyStr.rstrip (a ++ w) = (a ++ w)%string.
Proof.
  intros [Hne Hw]. induction a as [|c a IH]; simpl.
  - now apply rstrip_no_space.
  - rewrite IH.
    assert (E : PyStr.is_empty (a ++ w) = false)
      by (destruct a; [exact Hne | reflexivity]).
    now rewrite E, andb_false_r.
Qed.

Lemma lstrip_starts_with_word (x rest : string) :
  is_word x -> PyStr.lstrip (x ++ rest) = (x ++ rest)%string.
Proof.
  intros [Hne Hx]. destruct x as [|c x]; [discriminate|].
  simpl in *. apply andb_true_iff in Hx. destruct Hx as [Hc _].
  unfold no_space in Hc. apply negb_true_iff in Hc. now rewrite Hc.
Qed.

(** *** Every time of day *)

Lemma all_times_spec (p : nat -> nat -> bool) :
  all_times p = true ->
  forall h m, h < 24 -> m < 60 -> p h m = true.
Proof.
  unfold all_times. intros H h m Hh Hm.
  rewrite forallb_forall in H.
  assert (Hrow := H h (proj2 (in_seq 24 0 h) (conj (Nat.le_0_l h) Hh))).
  rewrite forallb_forall in Hrow.
  apply Hrow. apply in_seq. lia.
Qed.

Lemma forms_check :
  all_times (fun h m => forallb (fun form => reads_as form h m) (forms h m)) = true.
Proof. vm_compute. reflexivity. Qed.

Lemma forms_read (hour minute : nat) (form : string) :
  hour < 24 -> minute < 60 -> In form (forms hour minute) ->
  PyStr.strip form = form /\
  first_parse time_formats form = Some (mk_datetime 0 hour minute).
Proof.
  intros Hh Hm Hin.
  assert (H := all_times_spec _ forms_check hour minute Hh Hm).
  rewrite forallb_forall in H. specialize (H form Hin).
  unfold reads_as in H. apply andb_true_iff in H. destruct H as [Hs Hp].
  apply String.eqb_eq in Hs. split; [exact Hs|].
  destruct (first_parse time_formats form) as [[d h m]|]; [|discriminate].
  simpl in Hp.
  apply andb_true_iff in Hp. destruct Hp as [Hp Hmin].
  apply andb_true_iff in Hp. destruct Hp as [Hd Hhour].
  apply Nat.eqb_eq in Hd, Hhour, Hmin. now subst.
Qed.

(** C3. The time range.  For an ASCII text the formats [%I:%M %p],
    [%H:%M], [%I%p] and [%I:%M%p] are tried in this order on the trimmed
    text; when one parses, the first that does gives a start time of day,
    and the result is the start and the start plus two hours (modulo 24),
    each as a 12-hour clock time without leading zero and with AM or PM,
    joined by [" - "]; when none parses the result is the original text
    twice, joined the same way.  Every time of day, written in any of the
    four forms of the specification with any blanks before and after, gives
    the range from that time to two hours later (midnight is 12 AM, noon
    12 PM); texts in none of the forms are echoed; the four examples of the
    specification hold. *)
Theorem calculate_end_time_spec :
  time_formats = [Fmt_I_M_p; Fmt_H_M; Fmt_Ip; Fmt_I_Mp] /\
  (forall s : string,
      PyStr.is_ascii s = true ->
      match first_parse time_formats (PyStr.strip s) with
      | Some start =>
          dt_hour start < 24 /\ dt_minute start < 60 /\
          calculate_end_time (PyStr s) =
            (clock12 (dt_hour start) (dt_minute start) ++ " - " ++
             clock12 ((dt_hour start + 2) mod 24) (dt_minute start))%string
      | None => calculate_end_time (PyStr s) = (s ++ " - " ++ s)%string
      end) /\
  (forall (hour minute : nat) (form before after : string),
      hour < 24 -> minute < 60 -> In form (forms hour minute) ->
      all_chars PyStr.is_space before = true ->
      all_chars PyStr.is_space after = true ->
      calculate_end_time (PyStr (before ++ form ++ after)) =
        (clock12 hour minute ++ " - " ++ clock12 ((hour + 2) mod 24) minute)%string) /\
  forms 0 5 = ["12:05 AM"; "12:05AM"; "12:05 am"; "12:05am"; "00:05"] /\
  forms 21 0 = ["9:00 PM"; "9:00PM"; "9PM"; "9:00 pm"; "9:00pm"; "9pm"; "21:00"] /\
  calculate_end_time (PyStr " 12:05 am ") = "12:05 AM - 2:05 AM" /\
  calculate_end_time (PyStr "12:00 PM") = "12:00 PM - 2:00 PM" /\
  Forall (fun s => calculate_end_time (PyStr s) = (s ++ " - " ++ s)%string)
         not_a_time /\
  calculate_end_time (PyStr "7:30 PM") = "7:30 PM - 9:30 PM" /\
  calculate_end_time (PyStr "19:30") = "7:30 PM - 9:30 PM" /\
  calculate_end_time (PyStr "11:15 PM") = "11:15 PM - 1:15 AM" /\
  calculate_end_time (PyStr "garbage") = "garbage - garbage".
Proof.
  split; [reflexivity|].
  split.
  { intros s _. generalize (calculate_end_time_text s).
    destruct (first_parse time_formats (PyStr.strip s)) as [start|] eqn:E; [|trivial].
    intros H. destruct (first_parse_range _ _ _ E) as [_ [Hh Hm]]. auto. }
  split.
  { intros hour minute form before after Hh Hm Hin Ha Hb.
    destruct (forms_read hour minute form Hh Hm Hin) as [Hs Hp].
    rewrite calculate_end_time_text, (strip_padded before form after Ha Hb), Hs, Hp.
    reflexivity. }
  split; [reflexivity|]. split; [reflexivity|].
  split; [reflexivity|]. split; [reflexivity|].
  split; [repeat constructor|].
  repeat split; reflexivity.
Qed.

(* ===================================================================== *)
(** ** The service filter *)
(* ===================================================================== *)

Lemma boolean_index_map {A : Type} (f : A -> bool) (df : list A) :
  boolean_index df (map f df) = filter f df.
Proof.
  induction df as [|row df IH]; simpl; [reflexivity|].
  now rewrite IH.
Qed.

Lemma subsequence_filter {A : Type} (f : A -> bool) (l : list A) :
  subsequence (filter f l) l.
Proof.
  induction l as [|x l IH]; simpl; [constructor|].
  destruct (f x); now constructor.
Qed.

Lemma subsequence_refl {A : Type} (l : list A) : subsequence l l.
Proof. induction l; now constructor. Qed.

Lemma prefix_iff (pat s : string) :
  String.prefix pat s = true <-> exists post, s = (pat ++ post)%string.
Proof.
  revert s. induction pat as [|c pat IH]; intros s.
  - split; [intros _; now exists s | intros _; now destruct s].
  - destruct s as [|d s]; simpl.
    + split; [discriminate | intros [post H]; discriminate].
    + destruct (ascii_dec c d) as [->|Hne].
      * rewrite IH. split; intros [post H]; exists post.
        -- now rewrite H.
        -- now inversion H.
      * split; [discriminate | intros [post H]; inversion H; congruence].
Qed.

Lemma contains_iff (pat s : string) :
  PyStr.contains pat s = true <->
  exists pre post, s = (pre ++ pat ++ post)%string.
Proof.
  induction s as [|c s IH].
  - change (PyStr.contains pat "") with (String.prefix pat "" || false).
    rewrite orb_false_r, prefix_iff. split.
    + intros [post H]. now exists ""%string, post.
    + intros [[|d pre] [post H]]; [now exists post | discriminate].
  - change (PyStr.contains pat (String c s))
      with (String.prefix pat (String c s) || PyStr.contains pat s).
    rewrite orb_true_iff, prefix_iff, IH. split.
    + intros [[post H]|[pre [post H]]].
      * now exists ""%string, post.
      * exists (String c pre), post. simpl. now rewrite H.
    + intros [[|d pre] [post H]].
      * left. now exists post.
      * right. exists pre, post. simpl in H. now inversion H.
Qed.

Lemma lower_append (a b : string) :
  PyStr.lower (a ++ b) = (PyStr.lower a ++ PyStr.lower b)%string.
Proof. induction a as [|c a IH]; simpl; [reflexivity | now rewrite IH]. Qed.

Lemma lower_split (s x y : string) :
  PyStr.lower s = (x ++ y)%string ->
  exists a b, s = (a ++ b)%string /\ PyStr.lower a = x /\ PyStr.lower b = y.
Proof.
  revert s. induction x as [|c x IH]; intros s H; simpl in H.
  - now exists ""%string, s.
  - destruct s as [|d s]; [discriminate|].
    simpl in H. inversion H as [[Hc Hs]].
    destruct (IH s Hs) as [a [b [E [Ha Hb]]]].
    exists (String d a), b. simpl. now rewrite E, Ha.
Qed.

Lemma lower_idem (s : string) : PyStr.lower (PyStr.lower s) = PyStr.lower s.
Proof.
  induction s as [|c s IH]; simpl; [reflexivity|].
  now rewrite lower_char_idem, IH.
Qed.

(** Searching the lower-cased text for a lower-case keyword is searching
    the text with case ignored. *)
Lemma contains_lower_iff (keyword s : string) :
  PyStr.lower keyword = keyword ->
  PyStr.contains keyword (PyStr.lower s) = true <-> ci_substring keyword s.
Proof.
  intros Hk. rewrite contains_iff. unfold ci_substring. split.
  - intros [pre [post H]].
    apply lower_split in H. destruct H as [a [b [E [Ha Hb]]]].
    apply lower_split in Hb. destruct Hb as [m [p [E' [Hm Hp]]]].
    exists a, m, p. subst b. split; [exact E | now rewrite Hk].
  - intros [pre [mid [post [E Hm]]]].
    exists (PyStr.lower pre), (PyStr.lower post).
    now rewrite E, !lower_append, Hm, Hk.
Qed.

Lemma lower_contains_iff (keyword : string) (v : pyval) :
  PyStr.lower keyword = keyword ->
  lower_contains keyword v = true <->
  exists s, v = PyStr s /\ ci_substring keyword s.
Proof.
  intros Hk. destruct v as [s| |z]; unfold lower_contains; simpl.
  - rewrite (contains_lower_iff keyword s Hk). split.
    + intros H. now exists s.
    + intros [s' [E H]]. now inversion E.
  - split; [discriminate | intros [s [E _]]; discriminate].
  - split; [discriminate | intros [s [E _]]; discriminate].
Qed.

Lemma ci_substring_nonempty (keyword s : string) :
  keyword <> ""%string -> ci_substring keyword s -> s <> ""%string.
Proof.
  intros Hk [pre [mid [post [E Hm]]]] Hs. subst s.
  destruct pre; [|discriminate]. destruct mid; [|discriminate].
  simpl in Hm. destruct keyword; [congruence | discriminate].
Qed.

Lemma has_text_str_lower (series : list pyval) :
  existsb has_text (map str_lower series) = existsb has_text series.
Proof.
  induction series as [|v series IH]; simpl; [reflexivity|].
  rewrite IH. now destruct v.
Qed.

Lemma existsb_map {A B : Type} (f : A -> B) (p : B -> bool) (l : list A) :
  existsb p (map f l) = existsb (fun x => p (f x)) l.
Proof. induction l as [|x l IH]; simpl; [reflexivity | now rewrite IH]. Qed.

Lemma str_accessor_column (df2 : list booking) :
  str_accessor (map service_or_event df2) =
  if text_column df2 then Ok (map service_or_event df2) else Raise AttributeError.
Proof.
  destruct df2 as [|row rest]; [reflexivity|].
  unfold text_column, str_accessor.
  change (map service_or_event (row :: rest))
    with (service_or_event row :: map service_or_event rest).
  change (service_or_event row :: map service_or_event rest)
    with (map service_or_event (row :: rest)).
  now rewrite existsb_map.
Qed.

Lemma filter_service_eq (keyword : string) (df2 : list booking) :
  filter_service keyword df2 =
  if text_column df2
  then Ok (filter (fun row => lower_contains keyword (service_or_event row)) df2)
  else Raise AttributeError.
Proof.
  unfold filter_service. rewrite str_accessor_column.
  destruct (text_column df2) eqn:Hcol; [|reflexivity].
  cbn [bind].
  assert (Hl : str_accessor (map str_lower (map service_or_event df2))
               = Ok (map str_lower (map service_or_event df2))).
  { destruct df2 as [|row rest]; [reflexivity|].
    unfold str_accessor.
    change (map str_lower (map service_or_event (row :: rest)))
      with (str_lower (service_or_event row)
              :: map str_lower (map service_or_event rest)).
    change (str_lower (service_or_event row)
              :: map str_lower (map service_or_event rest))
      with (map str_lower (map service_or_event (row :: rest))).
    rewrite has_text_str_lower, existsb_map.
    unfold text_column in Hcol. now rewrite Hcol. }
  rewrite Hl. cbn [bind]. rewrite !map_map.
  f_equal. apply (boolean_index_map
                    (fun row => str_contains keyword (str_lower (service_or_event row)))).
Qed.

Lemma keyword_of_lower (opt : filter_option) (keyword : string) :
  keyword_of opt = Some keyword ->
  PyStr.lower keyword = keyword /\ keyword <> ""%string /\
  apply_filter opt = filter_service keyword.
Proof.
  destruct opt; simpl; intros H; inversion H; subst;
    (split; [reflexivity | split; [discriminate | reflexivity]]).
Qed.

Lemma text_column_false (keyword : string) (df2 : list booking) :
  text_column df2 = false ->
  df2 <> [] /\
  filter (fun row => lower_contains keyword (service_or_event row)) df2 = [].
Proof.
  intros H. split; [intros ->; discriminate|].
  assert (Hall : forall row, In row df2 -> has_text (service_or_event row) = false).
  { destruct df2 as [|r rest]; [discriminate|]. unfold text_column in H.
    intros row Hin. destruct (has_text (service_or_event row)) eqn:E; [|reflexivity].
    assert (Hex : existsb (fun row => has_text (service_or_event row)) (r :: rest) = true)
      by (apply existsb_exists; now exists row).
    congruence. }
  clear H. induction df2 as [|r rest IH]; [reflexivity|].
  simpl. rewrite IH by (intros row Hin; apply Hall; now right).
  assert (Hr := Hall r (or_introl eq_refl)).
  unfold lower_contains. now destruct (service_or_event r).
Qed.

(** C6. The service filter.  With no keyword ("All bookings") every record
    is kept.  With a keyword, the records the specification asks for are
    those, in input order, whose service field is a text that contains the
    keyword as a substring with case ignored: a subsequence of the input
    in which no record has a missing, non-text or empty service field.
    The program returns exactly these records when the service column has
    a cell of text (or the table has no row).  When the table has rows and
    no cell of the column is text, those records are none, yet the program
    does not return the empty selection: [.str] raises [AttributeError]. *)
Theorem filter_by_service_spec :
  (forall (df2 : list booking) (opt : filter_option),
      match keyword_of opt with
      | None => apply_filter opt df2 = Ok df2
      | Some keyword =>
          let wanted :=
            filter (fun row => lower_contains keyword (service_or_event row)) df2 in
          (forall row,
              lower_contains keyword (service_or_event row) = true <->
              exists s, service_or_event row = PyStr s /\ ci_substring keyword s) /\
          subsequence wanted df2 /\
          (forall row,
              In row wanted <->
              In row df2 /\
              exists s, service_or_event row = PyStr s /\ ci_substring keyword s) /\
          (forall row,
              In row wanted ->
              service_or_event row <> PyNaN /\ service_or_event row <> PyStr "") /\
          apply_filter opt df2 =
            (if text_column df2 then Ok wanted else Raise AttributeError) /\
          (text_column df2 = false -> df2 <> [] /\ wanted = [])
      end) /\
  text_column blank_service_rows = false /\
  apply_filter Lunch_only blank_service_rows = Raise AttributeError /\
  apply_filter Lunch_only blank_service_rows <> Ok [].
Proof.
  split; [|repeat split; discriminate].
  intros df2 opt.
  destruct (keyword_of opt) as [keyword|] eqn:E.
  - destruct (keyword_of_lower opt keyword E) as [Hk [Hne Hf]].
    rewrite Hf, filter_service_eq. cbv zeta.
    assert (Hin : forall row,
               In row (filter (fun row => lower_contains keyword (service_or_event row)) df2) <->
               In row df2 /\
               exists s, service_or_event row = PyStr s /\ ci_substring keyword s).
    { intros row. rewrite filter_In, (lower_contains_iff keyword _ Hk). tauto. }
    split; [intros row; apply (lower_contains_iff keyword _ Hk)|].
    split; [apply subsequence_filter|].
    split; [exact Hin|].
    split.
    + intros row H. apply Hin in H. destruct H as [_ [s [Hs Hc]]].
      split; [congruence|].
      intros H'. rewrite H' in Hs. inversion Hs; subst s.
      now apply (ci_substring_nonempty keyword ""%string Hne).
    + split; [reflexivity | apply text_column_false].
  - destruct opt; try discriminate. reflexivity.
Qed.

(* ===================================================================== *)
(** ** The script *)
(* ===================================================================== *)

Lemma load_design_specs_cases (f : specs_file) (page : list call) :
  load_design_specs f page =
  match f with
  | File_absent =>
      (Done get_default_specs, page ++ [st_warning (Specs_not_found "design_specs.json")])
  | File_no_permission => (Raised PermissionError, page)
  | File_not_json => (Raised JSONDecodeError, page)
  | File_holds specs => (Done specs, page)
  end.
Proof. destruct f; reflexivity. Qed.

Lemma validate_required_columns (page : list call) :
  validate_csv_structure required_columns page = (Done true, page).
Proof. reflexivity. Qed.

Lemma process_bookings_run (ss : session) (d : design_specs) (df2 : list booking)
      (page : list call) :
  process_bookings ss d df2 page =
  let specs := set_styling ss (set_fonts ss d) in
  let found :=
    [ st_success (Found_bookings (List.length df2));
      st_header Filter_by_service_period ] in
  match apply_filter (filter_choice ss) df2 with
  | Raise e => (Raised e, page ++ found)
  | Ok filtered_df =>
      let counted :=
        found ++
        [ st_info (match filter_choice ss with
                   | Lunch_only => Filtered_to (List.length filtered_df) "Lunch"
                   | Dinner_only => Filtered_to (List.length filtered_df) "Dinner"
                   | All_bookings => Including_all (List.length filtered_df)
                   end) ] in
      match filtered_df with
      | [] => (Stopped, page ++ counted ++ [st_warning No_bookings_found])
      | _ :: _ =>
          (Done tt,
           page ++ counted ++
           [ st_subheader "Filtered Data Preview"; st_dataframe (head filtered_df);
             st_header Design_settings; st_info Layout_note;
             st_subheader "Font Settings"; st_subheader "Card Styling";
             st_subheader "Preview"; st_write ] ++
           match preview_render ss specs with
           | Ok png => [st_image png]
           | Raise e => [st_error (Preview_failed e); st_code]
           end ++
           (if generate_clicked ss
            then st_spinner ::
                 match generate_placecards (reportlab ss) (doc_build ss)
                                           filtered_df specs with
                 | Ok pdf => [ st_success Placecards_generated;
                               st_download_button (file_name_for (filter_choice ss)) pdf ]
                 | Raise e => [st_error (Error_generating e)]
                 end
            else []))
      end
  end.
Proof.
  cbv zeta. unfold process_bookings.
  destruct (apply_filter (filter_choice ss) df2) as [[|row rest]|e] eqn:E.
  - cbv [then_ emit stop lift List.length Nat.ltb Nat.leb].
    rewrite <- !app_assoc. reflexivity.
  - unfold generate_preview_card.
    cbv [then_ emit stop Nat.ltb Nat.leb try_except lift Exception ret].
    change (List.length (row :: rest)) with (S (List.length rest)). cbv iota beta.
    destruct (preview_render ss (set_styling ss (set_fonts ss d))) as [png|e];
      destruct (generate_clicked ss);
      try destruct (generate_placecards (reportlab ss) (doc_build ss) (row :: rest)
                      (set_styling ss (set_fonts ss d))) as [pdf|e'];
      cbv iota beta; rewrite <- !app_assoc; reflexivity.
  - cbv [then_ emit lift]. rewrite <- !app_assoc. reflexivity.
Qed.

Lemma main_run (ss : session) :
  run (main ss) =
  match load_design_specs (design_specs_json ss) [st_title; st_markdown Intro] with
  | (Done d, page) =>
      let page := page ++ [st_header Upload_booking_data] in
      let closing :=
        [st_markdown Rule; st_header Instructions; st_markdown Instructions_text] in
      match uploaded_file ss with
      | None => (Done tt, page ++ closing)
      | Some (Raise e) => (Done tt, page ++ st_error (Error_reading_csv e) :: closing)
      | Some (Ok df) =>
          match select_required df with
          | Raise e => (Done tt, page ++ st_error (Error_reading_csv e) :: closing)
          | Ok df2 =>
              match process_bookings ss d df2
                      (page ++ [st_subheader "Data Preview"; st_dataframe (head df2)])
              with
              | (Done _, page') => (Done tt, page' ++ closing)
              | (Raised e, page') =>
                  (Done tt, page' ++ st_error (Error_reading_csv e) :: closing)
              | (Stopped, page') => (Stopped, page')
              end
          end
      end
  | (Raised e, page) => (Raised e, page)
  | (Stopped, page) => (Stopped, page)
  end.
Proof.
  unfold run, main.
  cbv [then_ emit]. cbn [app].
  destruct (load_design_specs (design_specs_json ss) [st_title; st_markdown Intro])
    as [[d|e|] page]; try reflexivity.
  cbv zeta.
  destruct (uploaded_file ss) as [[df|e]|].
  - cbv [try_except lift Exception then_ emit].
    destruct (select_required df) as [df2|e].
    + rewrite validate_required_columns.
      rewrite <- !app_assoc. cbn [app].
      destruct (process_bookings ss d df2
                  (page ++ [st_header Upload_booking_data;
                            st_subheader "Data Preview"; st_dataframe (head df2)]))
        as [[[]|e|] page']; rewrite <- ?app_assoc; reflexivity.
    + rewrite <- !app_assoc. reflexivity.
  - cbv [try_except lift Exception then_ emit].
    rewrite <- !app_assoc. reflexivity.
  - cbv [ret]. rewrite <- !app_assoc. reflexivity.
Qed.

Lemma missing_from_iff (columns : list string) (col : string) :
  In col (missing_from columns) <-> In col required_columns /\ ~ In col columns.
Proof.
  unfold missing_from. rewrite filter_In.
  assert (H : existsb (String.eqb col) columns = true <-> In col columns).
  { rewrite existsb_exists. split.
    - intros [x [Hx E]]. apply String.eqb_eq in E. now subst.
    - intros Hc. exists col. split; [exact Hc | apply String.eqb_refl]. }
  destruct (existsb (String.eqb col) columns); simpl.
  - split; [intros [_ F]; discriminate | intros [_ F]; elim F; now apply H].
  - split; [intros [Hr _] | intros [Hr _]]; (split; [exact Hr|]); trivial.
    intros Hc. apply H in Hc. discriminate.
Qed.

Lemma missing_from_nonempty (columns : list string) :
  (exists col, In col required_columns /\ ~ In col columns) ->
  exists col rest, missing_from columns = col :: rest.
Proof.
  intros [col H]. apply missing_from_iff in H.
  destruct (missing_from columns) as [|c rest]; [destruct H | eauto].
Qed.

Lemma validate_csv_structure_run (columns : list string) :
  run (validate_csv_structure columns) =
  match missing_from columns with
  | [] => (Done true, [])
  | missing =>
      (Done false,
       [st_error (Missing_required_columns missing); st_info Required_columns_are])
  end.
Proof.
  unfold run, validate_csv_structure.
  destruct (missing_from columns); reflexivity.
Qed.

Lemma main_never_raises_after_load (ss : session) (d : design_specs) (e : exn) :
  fst (run (load_design_specs (design_specs_json ss))) = Done d ->
  fst (run (main ss)) <> Raised e.
Proof.
  intros Hload. rewrite main_run.
  unfold run in Hload. rewrite load_design_specs_cases in *.
  destruct (design_specs_json ss); try discriminate; cbv zeta;
    (destruct (uploaded_file ss) as [[df|e']|]; try discriminate;
     destruct (select_required df) as [df2|e'']; try discriminate;
     match goal with
     | |- context [process_bookings ?a ?b ?c ?p] =>
         destruct (process_bookings a b c p) as [[[]|e3|] page']; discriminate
     end).
Qed.

Lemma main_after_load (ss : session) (d : design_specs) :
  fst (run (load_design_specs (design_specs_json ss))) = Done d ->
  load_design_specs (design_specs_json ss) [st_title; st_markdown Intro] =
  (Done d,
   [st_title; st_markdown Intro] ++ snd (run (load_design_specs (design_specs_json ss)))).
Proof.
  unfold run. rewrite !load_design_specs_cases.
  destruct (design_specs_json ss); simpl; intros H; inversion H; reflexivity.
Qed.

Ltac not_there H :=
  repeat (rewrite in_app_iff in H || simpl In in H);
  intuition (try discriminate).

(** The run of [main] once the settings are loaded, the upload read, the
    columns selected and the filter applied with a row left. *)
Lemma main_run_filtered (ss : session) (d : design_specs) (df : DataFrame)
      (df2 filtered : list booking) :
  fst (run (load_design_specs (design_specs_json ss))) = Done d ->
  uploaded_file ss = Some (Ok df) ->
  select_required df = Ok df2 ->
  apply_filter (filter_choice ss) df2 = Ok filtered ->
  filtered <> [] ->
  let specs := set_styling ss (set_fonts ss d) in
  run (main ss) =
  (Done tt,
   ([st_title; st_markdown Intro]
    ++ snd (run (load_design_specs (design_specs_json ss)))
    ++ [ st_header Upload_booking_data;
         st_subheader "Data Preview"; st_dataframe (head df2);
         st_success (Found_bookings (List.length df2));
         st_header Filter_by_service_period;
         st_info (match filter_choice ss with
                  | Lunch_only => Filtered_to (List.length filtered) "Lunch"
                  | Dinner_only => Filtered_to (List.length filtered) "Dinner"
                  | All_bookings => Including_all (List.length filtered)
                  end);
         st_subheader "Filtered Data Preview"; st_dataframe (head filtered);
         st_header Design_settings; st_info Layout_note;
         st_subheader "Font Settings"; st_subheader "Card Styling";
         st_subheader "Preview"; st_write ])
   ++ match preview_render ss specs with
      | Ok png => [st_image png]
      | Raise e => [st_error (Preview_failed e); st_code]
      end
   ++ (if generate_clicked ss
       then st_spinner ::
            match generate_placecards (reportlab ss) (doc_build ss) filtered specs with
            | Ok pdf => [ st_success Placecards_generated;
                          st_download_button (file_name_for (filter_choice ss)) pdf ]
            | Raise e => [st_error (Error_generating e)]
            end
       else [])
   ++ [st_markdown Rule; st_header Instructions; st_markdown Instructions_text]).
Proof.
  intros Hload Hup Hsel Hf Hne. cbv zeta.
  rewrite main_run, (main_after_load ss d Hload), Hup. cbv zeta.
  rewrite Hsel, process_bookings_run. cbv zeta. rewrite Hf.
  destruct filtered as [|row rest]; [congruence|].
  rewrite <- !app_assoc. reflexivity.
Qed.

(** The runs of [main] that do not reach the design settings show
    neither a preview image nor a download. *)
Lemma plain_app (l1 l2 : list call) :
  Forall plain_call l1 -> Forall plain_call l2 -> Forall plain_call (l1 ++ l2).
Proof. intros H1 H2. apply Forall_app. now split. Qed.

Lemma load_design_specs_plain (f : specs_file) :
  Forall plain_call (snd (run (load_design_specs f))).
Proof.
  unfold run. rewrite load_design_specs_cases.
  destruct f; simpl; repeat constructor.
Qed.

Lemma main_run_cases (ss : session) :
  Forall plain_call (snd (run (main ss))) \/
  exists d df df2 filtered,
    fst (run (load_design_specs (design_specs_json ss))) = Done d /\
    uploaded_file ss = Some (Ok df) /\
    select_required df = Ok df2 /\
    apply_filter (filter_choice ss) df2 = Ok filtered /\
    filtered <> [].
Proof.
  destruct (fst (run (load_design_specs (design_specs_json ss)))) as [d|e|] eqn:Hload.
  - destruct (uploaded_file ss) as [[df|e]|] eqn:Hup.
    + destruct (select_required df) as [df2|e] eqn:Hsel.
      * destruct (apply_filter (filter_choice ss) df2) as [[|row rest]|e] eqn:Hf.
        -- left. rewrite main_run, (main_after_load ss d Hload), Hup. cbv zeta.
           rewrite Hsel, process_bookings_run. cbv zeta. rewrite Hf. cbn [snd].
           repeat apply plain_app; try apply load_design_specs_plain;
             repeat constructor.
        -- right. exists d, df, df2, (row :: rest). repeat split; try assumption.
           discriminate.
        -- left. rewrite main_run, (main_after_load ss d Hload), Hup. cbv zeta.
           rewrite Hsel, process_bookings_run. cbv zeta. rewrite Hf. cbn [snd].
           repeat apply plain_app; try apply load_design_specs_plain;
             repeat constructor.
      * left. rewrite main_run, (main_after_load ss d Hload), Hup. cbv zeta.
        rewrite Hsel. cbn [snd].
        repeat apply plain_app; try apply load_design_specs_plain;
          repeat constructor.
    + left. rewrite main_run, (main_after_load ss d Hload), Hup. cbv zeta. cbn [snd].
      repeat apply plain_app; try apply load_design_specs_plain;
        repeat constructor.
    + left. rewrite main_run, (main_after_load ss d Hload), Hup. cbv zeta. cbn [snd].
      repeat apply plain_app; try apply load_design_specs_plain;
        repeat constructor.
  - left. rewrite main_run. unfold run in Hload.
    rewrite load_design_specs_cases in *.
    destruct (design_specs_json ss); try discriminate; repeat constructor.
  - unfold run in Hload. rewrite load_design_specs_cases in Hload.
    destruct (design_specs_json ss); discriminate.
Qed.

Lemma plain_no_download (l : list call) (file_name data : string) :
  Forall plain_call l -> ~ In (st_download_button file_name data) l.
Proof.
  intros H Hin. rewrite Forall_forall in H. exact (H _ Hin).
Qed.

Lemma plain_no_image (l : list call) (png : string) :
  Forall plain_call l -> ~ In (st_image png) l.
Proof.
  intros H Hin. rewrite Forall_forall in H. exact (H _ Hin).
Qed.

(** A download that is offered comes from a generation that succeeded on
    the filtered rows, with the settings as the widgets left them. *)
Lemma main_download (ss : session) (file_name data : string) :
  In (st_download_button file_name data) (snd (run (main ss))) ->
  exists d df df2 filtered,
    fst (run (load_design_specs (design_specs_json ss))) = Done d /\
    uploaded_file ss = Some (Ok df) /\
    select_required df = Ok df2 /\
    apply_filter (filter_choice ss) df2 = Ok filtered /\
    filtered <> [] /\
    generate_clicked ss = true /\
    file_name = file_name_for (filter_choice ss) /\
    generate_placecards (reportlab ss) (doc_build ss) filtered
                        (set_styling ss (set_fonts ss d)) = Ok data.
Proof.
  intros Hin.
  destruct (main_run_cases ss) as [Hplain|[d [df [df2 [filtered [Hl [Hu [Hs [Hf Hne]]]]]]]]].
  - now elim (plain_no_download _ file_name data Hplain).
  - exists d, df, df2, filtered.
    rewrite (main_run_filtered ss d df df2 filtered Hl Hu Hs Hf Hne) in Hin.
    cbn [snd] in Hin.
    assert (Hnotice := plain_no_download _ file_name data
                         (load_design_specs_plain (design_specs_json ss))).
    destruct (preview_render ss _) as [png|e'];
      destruct (generate_clicked ss) eqn:Ec;
      try destruct (generate_placecards (reportlab ss) (doc_build ss) filtered _)
        as [pdf|e] eqn:Eg;
      not_there Hin;
      match goal with
      | H : st_download_button _ _ = st_download_button _ _ |- _ =>
          inversion H; subst; repeat split; assumption
      end.
Qed.

Lemma main_offers (ss : session) (d : design_specs) (df : DataFrame)
      (df2 filtered : list booking) (data : string) :
  fst (run (load_design_specs (design_specs_json ss))) = Done d ->
  uploaded_file ss = Some (Ok df) ->
  select_required df = Ok df2 ->
  apply_filter (filter_choice ss) df2 = Ok filtered ->
  filtered <> [] ->
  generate_clicked ss = true ->
  generate_placecards (reportlab ss) (doc_build ss) filtered
                      (set_styling ss (set_fonts ss d)) = Ok data ->
  In (st_download_button (file_name_for (filter_choice ss)) data)
     (snd (run (main ss))).
Proof.
  intros Hl Hu Hs Hf Hne Hc Hg.
  rewrite (main_run_filtered ss d df df2 filtered Hl Hu Hs Hf Hne).
  cbn [snd]. rewrite Hc, Hg.
  repeat (rewrite in_app_iff || simpl In). tauto.
Qed.

(** A preview image that is shown was drawn with the settings as the
    widgets left them. *)
Lemma main_image (ss : session) (png : string) :
  In (st_image png) (snd (run (main ss))) ->
  exists d,
    fst (run (load_design_specs (design_specs_json ss))) = Done d /\
    preview_render ss (set_styling ss (set_fonts ss d)) = Ok png.
Proof.
  intros Hin.
  destruct (main_run_cases ss) as [Hplain|[d [df [df2 [filtered [Hl [Hu [Hs [Hf Hne]]]]]]]]].
  - now elim (plain_no_image _ png Hplain).
  - exists d. split; [exact Hl|].
    rewrite (main_run_filtered ss d df df2 filtered Hl Hu Hs Hf Hne) in Hin.
    cbn [snd] in Hin.
    assert (Hnotice := plain_no_image _ png
                         (load_design_specs_plain (design_specs_json ss))).
    destruct (preview_render ss _) as [png'|e'];
      destruct (generate_clicked ss) eqn:Ec;
      try destruct (generate_placecards (reportlab ss) (doc_build ss) filtered _)
        as [pdf|e] eqn:Eg;
      not_there Hin;
      match goal with
      | H : st_image _ = st_image _ |- _ => now inversion H
      end.
Qed.

(** C8 (as stated).  A style file that exists but is not valid JSON makes
    [load_design_specs] raise, with nothing shown: it is not replaced by the
    defaults. *)
Lemma load_design_specs_unreadable_raises :
  run (load_design_specs File_not_json) = (Raised JSONDecodeError, []) /\
  ~ (forall f : specs_file,
        (forall specs, f <> File_holds specs) ->
        fst (run (load_design_specs f)) = Done get_default_specs).
Proof.
  split; [reflexivity|].
  intros H. specialize (H File_not_json). simpl in H.
  assert (E : Raised JSONDecodeError = Done get_default_specs)
    by (apply H; intros specs; discriminate).
  discriminate.
Qed.

(** C8 (amended).  When the style file is absent, [load_design_specs]
    returns exactly the built-in defaults (Helvetica, title 14, content 12,
    card 3.5 by 2.5, margin 0.5, white background, black text, border on,
    gray border) after one warning, and [main] goes on: the warning is
    followed by the upload header and the run does not end with an
    exception.  The settings the preview is drawn with and the document is
    generated with are these defaults with the values of the widgets
    written over them: a preview image that is shown and a download that is
    offered were made with them, and a generation that succeeds with them
    is offered for download.  They are exactly the defaults when the
    widgets are left at the values they are created with, and in any case
    the card size, the margin and the text colour are the defaults'. *)
Theorem load_design_specs_absent (ss : session) :
  design_specs_json ss = File_absent ->
  let specs := set_styling ss (set_fonts ss get_default_specs) in
  run (load_design_specs (design_specs_json ss)) =
    (Done get_default_specs, [st_warning (Specs_not_found "design_specs.json")]) /\
  get_default_specs =
    mk_specs "Helvetica" 14 12 (7 # 2) (5 # 2) (1 # 2) "white" "black" true "gray" /\
  (exists rest,
      snd (run (main ss)) =
      [ st_title; st_markdown Intro;
        st_warning (Specs_not_found "design_specs.json");
        st_header Upload_booking_data ] ++ rest) /\
  (forall e, fst (run (main ss)) <> Raised e) /\
  (forall png,
      In (st_image png) (snd (run (main ss))) -> preview_render ss specs = Ok png) /\
  (forall file_name data,
      In (st_download_button file_name data) (snd (run (main ss))) ->
      exists df df2 filtered,
        uploaded_file ss = Some (Ok df) /\
        select_required df = Ok df2 /\
        apply_filter (filter_choice ss) df2 = Ok filtered /\
        generate_placecards (reportlab ss) (doc_build ss) filtered specs = Ok data) /\
  (forall df df2 filtered data,
      uploaded_file ss = Some (Ok df) ->
      select_required df = Ok df2 ->
      apply_filter (filter_choice ss) df2 = Ok filtered ->
      filtered <> [] ->
      generate_clicked ss = true ->
      generate_placecards (reportlab ss) (doc_build ss) filtered specs = Ok data ->
      In (st_download_button (file_name_for (filter_choice ss)) data)
         (snd (run (main ss)))) /\
  card_width specs = 7 # 2 /\ card_height specs = 5 # 2 /\ margin specs = 1 # 2 /\
  text_color specs = "black" /\
  (widgets_left_alone ss get_default_specs -> specs = get_default_specs).
Proof.
  intros Hf. cbv zeta.
  assert (Hload : run (load_design_specs (design_specs_json ss)) =
                  (Done get_default_specs,
                   [st_warning (Specs_not_found "design_specs.json")]))
    by (rewrite Hf; reflexivity).
  assert (Hd : fst (run (load_design_specs (design_specs_json ss)))
               = Done get_default_specs) by now rewrite Hload.
  split; [exact Hload|]. split; [reflexivity|]. split.
  { rewrite main_run, (main_after_load ss get_default_specs Hd).
    rewrite Hload. cbn [snd app]. cbv zeta.
    destruct (uploaded_file ss) as [[df|e]|]; [|eexists; reflexivity ..].
    destruct (select_required df) as [df2|e]; [|eexists; reflexivity].
    rewrite process_bookings_run. cbv zeta.
    destruct (apply_filter (filter_choice ss) df2) as [[|row rest]|e];
      eexists; reflexivity. }
  split.
  { intros e. now apply (main_never_raises_after_load ss get_default_specs). }
  split.
  { intros png Hin. destruct (main_image ss png Hin) as [d [Hd' Hp]].
    rewrite Hd in Hd'. inversion Hd'; subst d. exact Hp. }
  split.
  { intros file_name data Hin.
    destruct (main_download ss file_name data Hin)
      as [d [df [df2 [filtered [Hd' [Hu [Hs [Hfl [_ [_ [_ Hg]]]]]]]]]]].
    rewrite Hd in Hd'. inversion Hd'; subst d.
    exists df, df2, filtered. now repeat split. }
  split.
  { intros df df2 filtered data Hu Hs Hfl Hne Hc Hg.
    now apply (main_offers ss get_default_specs df df2 filtered data). }
  split; [reflexivity|]. split; [reflexivity|]. split; [reflexivity|].
  split; [reflexivity|].
  intros [Hfont [Htitle [Hcontent [Hborder [Hcolor Hback]]]]].
  unfold set_styling, set_fonts. cbn.
  rewrite Hfont, Htitle, Hcontent, Hborder, Hcolor, Hback. reflexivity.
Qed.

Lemma load_design_specs_absent_witness :
  run (load_design_specs (design_specs_json absent_with_upload)) =
    (Done get_default_specs, [st_warning (Specs_not_found "design_specs.json")]) /\
  set_styling absent_with_upload (set_fonts absent_with_upload get_default_specs)
  = get_default_specs /\
  In (st_download_button "brewvino_placecards_dinner.pdf" "pdf")
     (snd (run (main absent_with_upload))) /\
  generate_placecards (reportlab absent_with_upload) (doc_build absent_with_upload)
                      [ mk_booking (PyStr "Dinner") (PyStr "7:30 PM") (PyInt 4)
                                   (PyStr "john smith") (PyStr "T5") ]
                      get_default_specs = Ok "pdf".
Proof.
  destruct (load_design_specs_absent absent_with_upload eq_refl)
    as [Hload [_ [_ [_ [_ [_ [Hoffer [_ [_ [_ [_ Hsame]]]]]]]]]]].
  assert (Halone : widgets_left_alone absent_with_upload get_default_specs)
    by (repeat split).
  split; [exact Hload|]. split; [exact (Hsame Halone)|].
  assert (Hin : In (st_download_button "brewvino_placecards_dinner.pdf" "pdf")
                   (snd (run (main absent_with_upload)))).
  { apply (Hoffer dinner_only_frame
                  [ mk_booking (PyStr "Dinner") (PyStr "7:30 PM") (PyInt 4)
                               (PyStr "john smith") (PyStr "T5");
                    mk_booking PyNaN (PyStr "19:30") (PyInt 2) (PyStr "jane doe")
                               (PyStr "3") ]
                  [ mk_booking (PyStr "Dinner") (PyStr "7:30 PM") (PyInt 4)
                               (PyStr "john smith") (PyStr "T5") ]
                  "pdf"); try reflexivity.
    discriminate. }
  split; [exact Hin | reflexivity].
Defined.

(** C1. Missing required columns.  [validate_csv_structure] returns
    [False] exactly when a required column is absent, having first shown an
    error that lists the absent required columns, in the order of the
    required list, and nothing else.  In [main] an upload that lacks a
    required column ends at the column selection placed just before the
    validation: its [KeyError], which names exactly the absent required
    columns, is shown by the handler of the enclosing [try] as the only
    output on the upload, before any preview, count, filter or
    generation, and only the closing instructions follow. *)
Theorem missing_columns_fatal (ss : session) (df : DataFrame) (d : design_specs) :
  fst (run (load_design_specs (design_specs_json ss))) = Done d ->
  uploaded_file ss = Some (Ok df) ->
  (exists col, In col required_columns /\ ~ In col (columns df)) ->
  let missing := missing_from (columns df) in
  (forall col, In col missing <-> In col required_columns /\ ~ In col (columns df)) /\
  subsequence missing required_columns /\
  run (validate_csv_structure (columns df)) =
    (Done false,
     [st_error (Missing_required_columns missing); st_info Required_columns_are]) /\
  run (main ss) =
    (Done tt,
     [st_title; st_markdown Intro]
     ++ snd (run (load_design_specs (design_specs_json ss)))
     ++ [ st_header Upload_booking_data;
          st_error (Error_reading_csv (KeyError missing));
          st_markdown Rule; st_header Instructions; st_markdown Instructions_text ]).
Proof.
  intros Hload Hup Hmiss. cbv zeta.
  destruct (missing_from_nonempty (columns df) Hmiss) as [col [rest E]].
  split; [intros c; apply missing_from_iff|].
  split; [apply subsequence_filter|].
  split.
  - rewrite validate_csv_structure_run, E. reflexivity.
  - rewrite main_run, (main_after_load ss d Hload), Hup. cbv zeta.
    unfold select_required. rewrite E.
    rewrite <- !app_assoc. reflexivity.
Qed.

Lemma missing_columns_fatal_witness :
  run (validate_csv_structure (columns no_time_column)) =
    (Done false,
     [st_error (Missing_required_columns ["Time"]); st_info Required_columns_are]) /\
  run (main no_time_session) =
    (Done tt,
     [ st_title; st_markdown Intro; st_header Upload_booking_data;
       st_error (Error_reading_csv (KeyError ["Time"]));
       st_markdown Rule; st_header Instructions; st_markdown Instructions_text ]).
Proof.
  assert (H1 : fst (run (load_design_specs (design_specs_json no_time_session)))
               = Done get_default_specs) by reflexivity.
  assert (H2 : uploaded_file no_time_session = Some (Ok no_time_column)) by reflexivity.
  assert (H3 : exists col, In col required_columns /\ ~ In col (columns no_time_column)).
  { exists "Time"%string. split; [simpl; tauto|].
    simpl. intros [H|[H|[H|[H|[]]]]]; discriminate. }
  destruct (missing_columns_fatal no_time_session no_time_column get_default_specs H1 H2 H3)
    as [_ [_ [Hv Hm]]].
  split; [exact Hv | exact Hm].
Defined.

Lemma generate_placecards_pages (lib : ReportLab)
      (build : list flowable -> result string) (filtered : list booking)
      (specs : design_specs) (data : string) :
  generate_placecards lib build filtered specs = Ok data ->
  exists title content cards,
    title_style lib specs = Ok title /\
    content_style lib specs = Ok content /\
    cards_of lib title content specs filtered = Ok cards /\
    build (story_of cards) = Ok data /\
    List.length (filter is_page (story_of cards)) = (List.length filtered + 3) / 4.
Proof.
  rewrite generate_placecards_eq.
  destruct (title_style lib specs) as [title|e]; [|discriminate].
  destruct (content_style lib specs) as [content|e]; [|discriminate].
  destruct (cards_of lib title content specs filtered) as [cards|e] eqn:E;
    [|discriminate].
  intros Hb. exists title, content, cards.
  repeat split; try assumption.
  rewrite story_of_pages. now rewrite (map_result_length _ _ _ E).
Qed.

(** C7. An empty selection.  When the filter returns no record, [main]
    shows the count of the selection and the warning that no booking was
    found (a warning, not an error) and stops there: nothing of the design
    settings is shown and nothing is generated.  In every run, a download
    button only ever offers a document built from a story of at least one
    page.  But when the table has rows and no cell of its service column is
    text, a keyword filter, which matches no record, does not return the
    empty selection: [.str] raises, the handler of the enclosing [try]
    shows the exception as an error in reading the file, and the run goes on
    to the closing instructions without a warning and without stopping. *)
Theorem empty_filter_stops :
  (forall (ss : session) (df : DataFrame) (df2 : list booking) (d : design_specs),
      fst (run (load_design_specs (design_specs_json ss))) = Done d ->
      uploaded_file ss = Some (Ok df) ->
      select_required df = Ok df2 ->
      apply_filter (filter_choice ss) df2 = Ok [] ->
      run (main ss) =
        (Stopped,
         [st_title; st_markdown Intro]
         ++ snd (run (load_design_specs (design_specs_json ss)))
         ++ [ st_header Upload_booking_data;
              st_subheader "Data Preview"; st_dataframe (head df2);
              st_success (Found_bookings (List.length df2));
              st_header Filter_by_service_period;
              st_info (match filter_choice ss with
                       | Lunch_only => Filtered_to 0 "Lunch"
                       | Dinner_only => Filtered_to 0 "Dinner"
                       | All_bookings => Including_all 0
                       end);
              st_warning No_bookings_found ])) /\
  (forall (ss : session) (file_name data : string),
      In (st_download_button file_name data) (snd (run (main ss))) ->
      exists (filtered_df : list booking) (specs : design_specs)
             (title content : ParagraphStyle) (cards : list card_table),
        filtered_df <> [] /\
        cards_of (reportlab ss) title content specs filtered_df = Ok cards /\
        doc_build ss (story_of cards) = Ok data /\
        1 <= List.length (filter is_page (story_of cards))) /\
  (forall (ss : session) (df : DataFrame) (df2 : list booking) (d : design_specs)
          (keyword : string),
      fst (run (load_design_specs (design_specs_json ss))) = Done d ->
      uploaded_file ss = Some (Ok df) ->
      select_required df = Ok df2 ->
      keyword_of (filter_choice ss) = Some keyword ->
      text_column df2 = false ->
      filter (fun row => lower_contains keyword (service_or_event row)) df2 = [] /\
      apply_filter (filter_choice ss) df2 = Raise AttributeError /\
      run (main ss) =
        (Done tt,
         [st_title; st_markdown Intro]
         ++ snd (run (load_design_specs (design_specs_json ss)))
         ++ [ st_header Upload_booking_data;
              st_subheader "Data Preview"; st_dataframe (head df2);
              st_success (Found_bookings (List.length df2));
              st_header Filter_by_service_period;
              st_error (Error_reading_csv AttributeError);
              st_markdown Rule; st_header Instructions;
              st_markdown Instructions_text ])) /\
  run (main lunch_of_blanks) =
    (Done tt,
     [ st_title; st_markdown Intro; st_header Upload_booking_data;
       st_subheader "Data Preview"; st_dataframe blank_service_rows;
       st_success (Found_bookings 2);
       st_header Filter_by_service_period;
       st_error (Error_reading_csv AttributeError);
       st_markdown Rule; st_header Instructions; st_markdown Instructions_text ]).
Proof.
  split.
  { intros ss df df2 d Hload Hup Hsel Hempty.
    rewrite main_run, (main_after_load ss d Hload), Hup. cbv zeta.
    rewrite Hsel, process_bookings_run. cbv zeta.
    rewrite Hempty. cbn [List.length].
    rewrite <- !app_assoc. reflexivity. }
  split.
  { intros ss file_name data H.
    destruct (main_download ss file_name data H)
      as [d [df [df2 [filtered [_ [_ [_ [_ [Hne [_ [_ Hg]]]]]]]]]]].
    destruct (generate_placecards_pages _ _ _ _ _ Hg)
      as [title [content [cards [_ [_ [Hc [Hb Hn]]]]]]].
    exists filtered, (set_styling ss (set_fonts ss d)), title, content, cards.
    split; [exact Hne|]. split; [exact Hc|]. split; [exact Hb|].
    rewrite Hn. destruct filtered as [|row rest]; [congruence|].
    cbn [List.length]. apply Nat.div_le_lower_bound; lia. }
  split; [|reflexivity].
  intros ss df df2 d keyword Hload Hup Hsel Hk Hcol.
  destruct (keyword_of_lower _ _ Hk) as [_ [_ Hf]].
  assert (Hraise : apply_filter (filter_choice ss) df2 = Raise AttributeError)
    by (now rewrite Hf, filter_service_eq, Hcol).
  split; [apply (text_column_false keyword df2 Hcol)|].
  split; [exact Hraise|].
  rewrite main_run, (main_after_load ss d Hload), Hup. cbv zeta.
  rewrite Hsel, process_bookings_run. cbv zeta.
  rewrite Hraise. rewrite <- !app_assoc. reflexivity.
Qed.

Lemma empty_filter_stops_witness :
  run (main lunch_of_dinners) =
    (Stopped,
     [ st_title; st_markdown Intro; st_header Upload_booking_data;
       st_subheader "Data Preview";
       st_dataframe
         [ mk_booking (PyStr "Dinner") (PyStr "7:30 PM") (PyInt 4)
                      (PyStr "john smith") (PyStr "T5");
           mk_booking PyNaN (PyStr "19:30") (PyInt 2) (PyStr "jane doe") (PyStr "3") ];
       st_success (Found_bookings 2);
       st_header Filter_by_service_period;
       st_info (Filtered_to 0 "Lunch");
       st_warning No_bookings_found ]).
Proof.
  apply (proj1 empty_filter_stops lunch_of_dinners dinner_only_frame
               [ mk_booking (PyStr "Dinner") (PyStr "7:30 PM") (PyInt 4)
                            (PyStr "john smith") (PyStr "T5");
                 mk_booking PyNaN (PyStr "19:30") (PyInt 2) (PyStr "jane doe")
                            (PyStr "3") ]
               get_default_specs); reflexivity.
Defined.

(* ===================================================================== *)
(** ** The normalizers on every value *)
(* ===================================================================== *)

Lemma calculate_end_time_try_text (s : string) :
  exists time_range, calculate_end_time_try (PyStr s) = Ok time_range.
Proof.
  unfold calculate_end_time_try. rewrite try_formats_text.
  cbv beta iota delta [bind].
  destruct (first_parse time_formats (PyStr.strip s)); eexists; reflexivity.
Qed.

Lemma has_digit_append (a b : string) :
  has_digit (a ++ b) = has_digit a || has_digit b.
Proof.
  induction a as [|c a IH]; simpl; [reflexivity|].
  now rewrite IH, orb_assoc.
Qed.

Lemma split_on_go_no_digit (sep : ascii) (t field : string) :
  has_digit field = false -> has_digit t = false ->
  filter has_digit (PyStr.split_on_go sep field t) = [].
Proof.
  revert field. induction t as [|c t IH]; intros field Hf Ht; simpl.
  - now rewrite Hf.
  - simpl in Ht. apply orb_false_iff in Ht. destruct Ht as [Hc Ht].
    destruct (Ascii.eqb c sep); simpl.
    + rewrite Hf. now apply IH.
    + apply IH; [|exact Ht].
      rewrite has_digit_append, Hf. simpl. now rewrite Hc.
Qed.

Lemma extract_table_numbers_no_digit (s : string) :
  has_digit s = true \/ extract_table_numbers (PyStr s) = "TBD".
Proof.
  destruct (has_digit s) eqn:E; [now left | right].
  rewrite extract_table_numbers_text.
  unfold PyStr.split_on. now rewrite split_on_go_no_digit.
Qed.

Lemma has_digit_join (l : list string) :
  has_digit (PyStr.join "," l) = existsb has_digit l.
Proof.
  induction l as [|x l IH]; [reflexivity|].
  destruct l as [|y l].
  - simpl. now rewrite orb_false_r.
  - rewrite join_cons by discriminate.
    rewrite !has_digit_append, IH. reflexivity.
Qed.

Lemma filter_nil_existsb {A : Type} (p : A -> bool) (l : list A) :
  filter p l = [] -> existsb p l = false.
Proof.
  induction l as [|x l IH]; simpl; [reflexivity|].
  destruct (p x); [discriminate | exact IH].
Qed.

Lemma extract_table_numbers_digit (s : string) :
  has_digit s = true -> extract_table_numbers (PyStr s) <> "TBD".
Proof.
  intros Hd. rewrite extract_table_numbers_text.
  assert (Hsome : existsb has_digit (PyStr.split_on "," s) = true).
  { rewrite <- has_digit_join. unfold PyStr.split_on.
    now rewrite (join_split_on_go "," s ""). }
  generalize (runs_digits (filter has_digit (PyStr.split_on "," s))).
  destruct (filter has_digit (PyStr.split_on "," s)) as [|seg segs] eqn:E.
  - apply filter_nil_existsb in E. congruence.
  - intros Hruns E'.
    assert (H : all_chars digit_or_comma
                  (PyStr.join "," (map first_digit_run (seg :: segs))) = true)
      by (apply all_chars_join; [reflexivity | exact Hruns]).
    change (map first_digit_run (seg :: segs))
      with (first_digit_run seg :: map first_digit_run segs) in *.
    rewrite E' in H. discriminate.
Qed.

Lemma extract_table_numbers_tbd : extract_table_numbers (PyStr "TBD") = "TBD".
Proof. reflexivity. Qed.

(* ===================================================================== *)
(** ** Normalizing twice *)
(* ===================================================================== *)

Lemma split_on_go_append (sep : ascii) (x field rest : string) :
  all_chars (not_sep sep) x = true ->
  PyStr.split_on_go sep field (x ++ rest) = PyStr.split_on_go sep (field ++ x) rest.
Proof.
  revert field. induction x as [|c x IH]; intros field Hx; simpl.
  - now rewrite append_nil_r.
  - simpl in Hx. apply andb_true_iff in Hx. destruct Hx as [Hc Hx].
    unfold not_sep in Hc. apply negb_true_iff in Hc. rewrite Hc.
    rewrite IH by exact Hx. now rewrite append_snoc.
Qed.

Lemma split_on_go_sep (sep : ascii) (field rest : string) :
  PyStr.split_on_go sep field (String sep rest)
  = field :: PyStr.split_on_go sep "" rest.
Proof. simpl. now rewrite Ascii.eqb_refl. Qed.

Lemma split_on_go_join (sep : ascii) (l : list string) :
  Forall (fun x => all_chars (not_sep sep) x = true) l ->
  forall x field,
    all_chars (not_sep sep) x = true ->
    PyStr.split_on_go sep field (PyStr.join (String sep "") (x :: l))
    = (field ++ x)%string :: l.
Proof.
  induction 1 as [|y l Hy Hl IH]; intros x field Hx.
  - simpl. rewrite <- (append_nil_r x) at 1.
    now rewrite split_on_go_append.
  - rewrite join_cons by discriminate.
    rewrite split_on_go_append by exact Hx.
    change (String sep "" ++ PyStr.join (String sep "") (y :: l))%string
      with (String sep (PyStr.join (String sep "") (y :: l))).
    rewrite split_on_go_sep.
    now rewrite (IH y ""%string Hy).
Qed.

Lemma split_on_join (sep : ascii) (l : list string) :
  l <> [] ->
  Forall (fun x => all_chars (not_sep sep) x = true) l ->
  PyStr.split_on sep (PyStr.join (String sep "") l) = l.
Proof.
  intros Hne H. destruct l as [|x l]; [congruence|].
  inversion H; subst. unfold PyStr.split_on.
  now rewrite split_on_go_join.
Qed.

Lemma take_digits_all (x : string) :
  all_chars PyStr.is_digit x = true -> take_digits x = x.
Proof.
  induction x as [|c x IH]; simpl; [reflexivity|].
  intros H. apply andb_true_iff in H. destruct H as [Hc Hx].
  now rewrite Hc, IH.
Qed.

Lemma first_digit_run_all (x : string) :
  all_chars PyStr.is_digit x = true -> first_digit_run x = x.
Proof.
  intros H. unfold first_digit_run.
  destruct x as [|c x]; [reflexivity|].
  simpl in H. apply andb_true_iff in H. destruct H as [Hc Hx].
  simpl. rewrite Hc. simpl. now rewrite Hc, take_digits_all.
Qed.

Lemma first_digit_run_is_run (seg : string) :
  has_digit seg = true -> is_run (first_digit_run seg).
Proof.
  intros H. split.
  - rewrite has_digit_first_run in H. now apply negb_true_iff in H.
  - apply take_digits_all_digits.
Qed.

Lemma runs_are_runs (segments : list string) :
  Forall is_run (map first_digit_run (filter has_digit segments)).
Proof.
  induction segments as [|seg segments IH]; simpl; [constructor|].
  destruct (has_digit seg) eqn:E; [|exact IH].
  simpl. constructor; [now apply first_digit_run_is_run | exact IH].
Qed.

Lemma is_run_has_digit (x : string) : is_run x -> has_digit x = true.
Proof.
  intros [Hne Hd]. destruct x as [|c x]; [discriminate|].
  simpl in *. apply andb_true_iff in Hd. destruct Hd as [Hc _]. now rewrite Hc.
Qed.

Lemma is_run_no_comma (x : string) :
  is_run x -> all_chars (not_sep ",") x = true.
Proof.
  intros [_ Hd]. apply (all_chars_weaken PyStr.is_digit); [|exact Hd].
  intros c Hc. unfold not_sep. apply negb_true_iff.
  generalize (digit_then_not_comma c). rewrite Hc. trivial.
Qed.

Lemma runs_fixed (runs : list string) :
  Forall is_run runs ->
  map first_digit_run (filter has_digit runs) = runs.
Proof.
  induction 1 as [|x runs Hx Hr IH]; simpl; [reflexivity|].
  rewrite (is_run_has_digit x Hx). simpl.
  rewrite IH. now rewrite first_digit_run_all by apply Hx.
Qed.

Lemma join_runs_not_empty (x : string) (runs : list string) :
  is_run x -> PyStr.is_empty (PyStr.join "," (x :: runs)) = false.
Proof.
  intros [Hne _]. destruct x as [|c x]; [discriminate|].
  destruct runs; reflexivity.
Qed.

Lemma extract_table_numbers_idempotent (v : pyval) :
  extract_table_numbers (PyStr (extract_table_numbers v)) = extract_table_numbers v.
Proof.
  unfold extract_table_numbers at 2 3.
  destruct (pd_isna v || eq_empty v); [reflexivity|].
  rewrite clean_tables_runs.
  generalize (runs_are_runs (PyStr.split_on "," (py_str v))).
  destruct (map first_digit_run _) as [|x runs]; [reflexivity|].
  intros Hruns. rewrite extract_table_numbers_text.
  rewrite split_on_join.
  - now rewrite runs_fixed.
  - discriminate.
  - eapply Forall_impl; [|exact Hruns]. apply is_run_no_comma.
Qed.

(** *** Words *)

Lemma split_go_words (s word : string) :
  all_chars no_space word = true ->
  Forall is_word (PyStr.split_go word s).
Proof.
  revert word. induction s as [|c s IH]; intros word Hw; simpl.
  - destruct (PyStr.is_empty word) eqn:E; [constructor|].
    constructor; [now split | constructor].
  - destruct (PyStr.is_space c) eqn:Hc.
    + destruct (PyStr.is_empty word) eqn:E; [now apply IH|].
      constructor; [now split | now apply IH].
    + apply IH. rewrite all_chars_append, Hw. simpl.
      unfold no_space. now rewrite Hc.
Qed.

Lemma split_words (s : string) : Forall is_word (PyStr.split s).
Proof. apply split_go_words. reflexivity. Qed.

Lemma split_go_append (x word rest : string) :
  all_chars no_space x = true ->
  PyStr.split_go word (x ++ rest) = PyStr.split_go (word ++ x) rest.
Proof.
  revert word. induction x as [|c x IH]; intros word Hx; simpl.
  - now rewrite append_nil_r.
  - simpl in Hx. apply andb_true_iff in Hx. destruct Hx as [Hc Hx].
    unfold no_space in Hc. apply negb_true_iff in Hc. rewrite Hc.
    rewrite IH by exact Hx. now rewrite append_snoc.
Qed.

Lemma split_go_blank (word rest : string) :
  PyStr.split_go word (String " " rest) =
  if PyStr.is_empty word then PyStr.split_go "" rest
  else word :: PyStr.split_go "" rest.
Proof. reflexivity. Qed.

Lemma split_go_join (l : list string) :
  Forall is_word l ->
  forall x, is_word x -> PyStr.split_go "" (PyStr.join " " (x :: l)) = x :: l.
Proof.
  induction 1 as [|y l Hy Hl IH]; intros x [Hne Hx].
  - simpl PyStr.join. rewrite <- (append_nil_r x) at 1.
    rewrite split_go_append by exact Hx. simpl. now rewrite Hne.
  - rewrite join_cons by discriminate.
    rewrite split_go_append by exact Hx.
    change (" " ++ PyStr.join " " (y :: l))%string
      with (String " " (PyStr.join " " (y :: l))).
    rewrite split_go_blank. change ("" ++ x)%string with x. rewrite Hne.
    now rewrite (IH y Hy).
Qed.

Lemma split_join (l : list string) :
  Forall is_word l -> PyStr.split (PyStr.join " " l) = l.
Proof.
  intros H. destruct l as [|x l]; [reflexivity|].
  inversion H; subst. now apply split_go_join.
Qed.

Lemma join_ends_with_word (l : list string) :
  Forall is_word l ->
  forall x, is_word x ->
  exists a w, PyStr.join " " (x :: l) = (a ++ w)%string /\ is_word w.
Proof.
  induction 1 as [|y l Hy Hl IH]; intros x Hx.
  - exists ""%string, x. now split.
  - destruct (IH y Hy) as [a [w [E Hw]]].
    exists (x ++ " " ++ a)%string, w. split; [|exact Hw].
    rewrite join_cons by discriminate. rewrite E.
    now rewrite !append_assoc.
Qed.

Lemma strip_join (x : string) (l : list string) :
  Forall is_word (x :: l) ->
  PyStr.strip (PyStr.join " " (x :: l)) = PyStr.join " " (x :: l).
Proof.
  intros H. inversion H as [|x' l' Hx Hl]; subst.
  unfold PyStr.strip.
  assert (E : PyStr.lstrip (PyStr.join " " (x :: l)) = PyStr.join " " (x :: l)).
  { destruct l as [|y l].
    - simpl. rewrite <- (append_nil_r x). now apply lstrip_starts_with_word.
    - rewrite join_cons by discriminate. now apply lstrip_starts_with_word. }
  rewrite E.
  destruct (join_ends_with_word l Hl x Hx) as [a [w [Ej Hw]]].
  rewrite Ej. now apply rstrip_ends_with_word.
Qed.

(** *** Capitalized words *)

Lemma capitalize_words_map (words : list string) :
  Forall is_word words ->
  capitalize_words words = map PyStr.capitalize words.
Proof.
  induction 1 as [|w words [Hne _] Hws IH]; simpl; [reflexivity|].
  rewrite Hne, IH. unfold capitalize_word.
  now destruct (existsb _ particles).
Qed.

Lemma all_chars_lower (w : string) :
  all_chars no_space (PyStr.lower w) = all_chars no_space w.
Proof.
  induction w as [|c w IH]; simpl; [reflexivity|].
  unfold no_space at 1 3. now rewrite is_space_lower_char, IH.
Qed.

Lemma is_word_lower (w : string) : is_word w -> is_word (PyStr.lower w).
Proof.
  intros [Hne Hw]. split.
  - destruct w; [discriminate | reflexivity].
  - now rewrite all_chars_lower.
Qed.

Lemma is_word_capitalize (w : string) : is_word w -> is_word (PyStr.capitalize w).
Proof.
  intros [Hne Hw]. destruct w as [|c w]; [discriminate|].
  split; [reflexivity|]. simpl in *.
  apply andb_true_iff in Hw. destruct Hw as [Hc Hw].
  rewrite all_chars_lower, Hw.
  unfold no_space in *. now rewrite is_space_upper_char, Hc.
Qed.

Lemma capitalize_idem (w : string) :
  PyStr.capitalize (PyStr.capitalize w) = PyStr.capitalize w.
Proof.
  destruct w as [|c w]; [reflexivity|]. simpl.
  now rewrite upper_char_idem, lower_idem.
Qed.

Lemma upper_lower_char (c : ascii) :
  PyStr.upper_char (PyStr.lower_char c) = PyStr.upper_char c.
Proof. destruct c as [[] [] [] [] [] [] [] []]; reflexivity. Qed.

Lemma capitalize_lower (w : string) :
  PyStr.capitalize (PyStr.lower w) = PyStr.capitalize w.
Proof.
  destruct w as [|c w]; [reflexivity|]. simpl.
  now rewrite upper_lower_char, lower_idem.
Qed.

Lemma lower_join (l : list string) :
  PyStr.lower (PyStr.join " " l) = PyStr.join " " (map PyStr.lower l).
Proof.
  induction l as [|x l IH]; [reflexivity|].
  destruct l as [|y l]; [reflexivity|].
  rewrite join_cons by discriminate.
  change (map PyStr.lower (x :: y :: l))
    with (PyStr.lower x :: map PyStr.lower (y :: l)).
  rewrite (join_cons " " (PyStr.lower x) (map PyStr.lower (y :: l)))
    by discriminate.
  now rewrite !lower_append, IH.
Qed.

(** A list of capitalized words is recovered from the lower-cased text of
    its join. *)
Lemma join_capitalized_from_lower (words : list string) :
  Forall is_word words ->
  let out := PyStr.join " " (map PyStr.capitalize words) in
  PyStr.join " " (map PyStr.capitalize (PyStr.split (PyStr.lower out))) = out.
Proof.
  intros H. cbv zeta. rewrite lower_join, split_join.
  - rewrite !map_map. f_equal. apply map_ext. intros w.
    now rewrite capitalize_lower, capitalize_idem.
  - rewrite map_map. apply Forall_map.
    eapply Forall_impl; [|exact H].
    intros w Hw. now apply is_word_lower, is_word_capitalize.
Qed.

Lemma capitalize_customer_name_twice (v : pyval) :
  capitalize_customer_name (PyStr (capitalize_customer_name v)) =
  if PyStr.is_empty (capitalize_customer_name v) then "Guest"
  else capitalize_customer_name v.
Proof.
  unfold capitalize_customer_name at 2 3 4.
  destruct (pd_isna v || eq_empty v); [reflexivity|].
  destruct (String.eqb (PyStr.lower (PyStr.strip (py_str v))) "walk in");
    [reflexivity|].
  generalize (split_words (PyStr.strip (py_str v))).
  generalize (PyStr.split (PyStr.strip (py_str v))). intros words Hwords.
  rewrite (capitalize_words_map words Hwords).
  destruct words as [|w words]; [reflexivity|].
  assert (Hcap : Forall is_word (map PyStr.capitalize (w :: words))).
  { apply Forall_map. eapply Forall_impl; [|exact Hwords].
    intros x. apply is_word_capitalize. }
  assert (Hne : PyStr.is_empty (PyStr.join " " (map PyStr.capitalize (w :: words))) = false).
  { inversion Hcap as [|x l [Hx _] _]; subst.
    change (map PyStr.capitalize (w :: words))
      with (PyStr.capitalize w :: map PyStr.capitalize words).
    destruct (PyStr.capitalize w); [discriminate|].
    destruct (map PyStr.capitalize words); reflexivity. }
  rewrite Hne.
  unfold capitalize_customer_name.
  change (pd_isna (PyStr ?x)) with false.
  cbv beta iota delta [orb eq_empty py_str]. rewrite Hne.
  change (map PyStr.capitalize (w :: words))
    with (PyStr.capitalize w :: map PyStr.capitalize words) in *.
  rewrite strip_join by exact Hcap.
  destruct (String.eqb_spec
              (PyStr.lower (PyStr.join " " (PyStr.capitalize w :: map PyStr.capitalize words)))
              "walk in") as [E|_].
  - generalize (join_capitalized_from_lower (w :: words) Hwords). cbv zeta.
    change (map PyStr.capitalize (w :: words))
      with (PyStr.capitalize w :: map PyStr.capitalize words).
    rewrite E. intros <-. reflexivity.
  - rewrite split_join by exact Hcap.
    rewrite (capitalize_words_map _ Hcap).
    change (PyStr.capitalize w :: map PyStr.capitalize words)
      with (map PyStr.capitalize (w :: words)).
    rewrite map_map. f_equal. apply map_ext. intros x. apply capitalize_idem.
Qed.

Lemma strip_blank (s : string) :
  all_chars PyStr.is_space s = true -> PyStr.strip s = "".
Proof.
  unfold PyStr.strip. induction s as [|c s IH]; simpl; [reflexivity|].
  intros H. apply andb_true_iff in H. destruct H as [Hc Hs].
  rewrite Hc. now apply IH.
Qed.

(** What [capitalize_customer_name] returns for a text: the particle test
    has the same outcome on both sides and no word of [split] is empty, so
    the words are just capitalized. *)
Lemma capitalize_customer_name_text (s : string) :
  capitalize_customer_name (PyStr s) =
  if PyStr.is_empty s then "Guest"
  else if String.eqb (PyStr.lower (PyStr.strip s)) "walk in" then "Walk In"
  else PyStr.join " " (map PyStr.capitalize (PyStr.split (PyStr.strip s))).
Proof.
  unfold capitalize_customer_name. simpl pd_isna. simpl eq_empty. simpl py_str.
  destruct (PyStr.is_empty s); [reflexivity|]. simpl orb.
  destruct (String.eqb _ "walk in"); [reflexivity|].
  now rewrite (capitalize_words_map _ (split_words _)).
Qed.

Lemma capitalize_customer_name_blanks (s : string) :
  PyStr.is_empty s = false -> all_chars PyStr.is_space s = true ->
  capitalize_customer_name (PyStr s) = "".
Proof.
  intros Hne Hs. rewrite capitalize_customer_name_text, Hne.
  now rewrite (strip_blank s Hs).
Qed.

(** C10. Normalizing twice.  Table-number extraction is idempotent on
    every value.  Name capitalization is idempotent on every value whose
    capitalized name is not empty; a name made of blanks only is
    capitalized to the empty text, which is in turn capitalized to
    ["Guest"], so for it the two differ. *)
Theorem normalizers_twice :
  (forall v : pyval,
      extract_table_numbers (PyStr (extract_table_numbers v))
      = extract_table_numbers v) /\
  (forall v : pyval,
      capitalize_customer_name (PyStr (capitalize_customer_name v)) =
      if PyStr.is_empty (capitalize_customer_name v) then "Guest"
      else capitalize_customer_name v) /\
  capitalize_customer_name (PyStr "   ") = "" /\
  capitalize_customer_name (PyStr (capitalize_customer_name (PyStr "   "))) = "Guest" /\
  capitalize_customer_name (PyStr (capitalize_customer_name (PyStr "   ")))
  <> capitalize_customer_name (PyStr "   ").
Proof.
  split; [exact extract_table_numbers_idempotent|].
  split; [exact capitalize_customer_name_twice|].
  split; [reflexivity|]. split; [reflexivity|]. discriminate.
Qed.

(* ===================================================================== *)
(** ** Names *)
(* ===================================================================== *)

(** C4. Name capitalization.  A missing or empty name gives ["Guest"]; a
    name whose trimmed text is "walk in", case ignored, gives ["Walk In"];
    any other text is trimmed, split into its blank-free words, each word
    capitalized (the particle list changes nothing) and the words joined
    by single blanks.  A name made of blanks only is not empty, so it takes
    the last path: it is trimmed to the empty text, which has no word, and
    the result is the empty text, not ["Guest"]. *)
Theorem capitalize_customer_name_blank :
  capitalize_customer_name (PyStr "   ") = "" /\
  capitalize_customer_name (PyStr "   ") <> "Guest" /\
  (forall s : string,
      PyStr.is_empty s = false -> all_chars PyStr.is_space s = true ->
      capitalize_customer_name (PyStr s) = "") /\
  capitalize_customer_name PyNaN = "Guest" /\
  capitalize_customer_name (PyStr "") = "Guest" /\
  (forall s : string,
      capitalize_customer_name (PyStr s) =
      if PyStr.is_empty s then "Guest"
      else if String.eqb (PyStr.lower (PyStr.strip s)) "walk in" then "Walk In"
      else PyStr.join " " (map PyStr.capitalize (PyStr.split (PyStr.strip s)))) /\
  (forall s : string, Forall is_word (PyStr.split s)) /\
  capitalize_customer_name (PyStr " WALK in ") = "Walk In" /\
  capitalize_customer_name (PyStr "  jOHN   mc  van DE smith ") = "John Mc Van De Smith".
Proof.
  split; [reflexivity|]. split; [discriminate|].
  split; [exact capitalize_customer_name_blanks|].
  split; [reflexivity|]. split; [reflexivity|].
  split; [exact capitalize_customer_name_text|].
  split; [exact split_words|].
  split; reflexivity.
Qed.

(* ===================================================================== *)
(** ** Malformed fields *)
(* ===================================================================== *)

(** C9. Malformed fields.  The name and table normalizers apply only
    operations of [str] to the text [str(...)] returns, so nothing in them
    can raise (the embedding records it in their type).  The body of the
    time computation raises [AttributeError] on every value that is not a
    text, and the handler of the function returns the passthrough of the
    original value; on a text the body does not raise.  A missing value
    gives ["Guest"], ["TBD"] and ["nan - nan"]; an empty text gives
    ["Guest"] and ["TBD"]; an ASCII text gives ["TBD"] exactly when it has
    no digit, and the text twice when no format parses it.  But a name made
    of blanks only, the one malformed field left, does not give its
    placeholder ["Guest"]: it gives the empty text. *)
Theorem normalizers_never_raise :
  (forall v : pyval,
      match v with
      | PyStr s =>
          exists time_range,
            calculate_end_time_try v = Ok time_range /\
            calculate_end_time v = time_range
      | _ =>
          calculate_end_time_try v = Raise AttributeError /\
          calculate_end_time v = (py_str v ++ " - " ++ py_str v)%string
      end) /\
  calculate_end_time PyNaN = "nan - nan" /\
  calculate_end_time (PyInt 1930) = "1930 - 1930" /\
  capitalize_customer_name PyNaN = "Guest" /\
  capitalize_customer_name (PyStr "") = "Guest" /\
  extract_table_numbers PyNaN = "TBD" /\
  extract_table_numbers (PyStr "") = "TBD" /\
  (forall s : string,
      PyStr.is_ascii s = true ->
      (extract_table_numbers (PyStr s) = "TBD" <-> has_digit s = false)) /\
  (forall s : string,
      PyStr.is_ascii s = true ->
      first_parse time_formats (PyStr.strip s) = None ->
      calculate_end_time (PyStr s) = (s ++ " - " ++ s)%string) /\
  (forall s : string,
      PyStr.is_empty s = false -> all_chars PyStr.is_space s = true ->
      capitalize_customer_name (PyStr s) = "" /\
      capitalize_customer_name (PyStr s) <> "Guest") /\
  capitalize_customer_name (PyStr "   ") = "" /\
  capitalize_customer_name (PyStr "   ") <> "Guest".
Proof.
  split.
  { intros [s| |z].
    - destruct (calculate_end_time_try_text s) as [time_range E].
      exists time_range. split; [exact E|].
      unfold calculate_end_time. now rewrite E.
    - split; reflexivity.
    - split; reflexivity. }
  split; [reflexivity|]. split; [reflexivity|].
  split; [reflexivity|]. split; [reflexivity|].
  split; [reflexivity|]. split; [reflexivity|].
  split.
  { intros s _. split.
    - intros E. destruct (has_digit s) eqn:Hd; [|reflexivity].
      now elim (extract_table_numbers_digit s Hd).
    - intros Hd. destruct (extract_table_numbers_no_digit s); congruence. }
  split.
  { intros s _ E. now rewrite calculate_end_time_text, E. }
  split.
  { intros s Hne Hs.
    rewrite (capitalize_customer_name_blanks s Hne Hs). split; [reflexivity | discriminate]. }
  split; [reflexivity | discriminate].
Qed.

(* ===================================================================== *)
(** ** Sample runs of the general statements *)
(* ===================================================================== *)

Lemma generate_placecards_pagination_witness :
  title_style sample_reportlab get_default_specs = Ok sample_title /\
  content_style sample_reportlab get_default_specs = Ok sample_content /\
  exists cards,
    cards_of sample_reportlab sample_title sample_content get_default_specs
             five_bookings = Ok cards /\
    List.length (filter is_page (story_of cards)) = 2 /\
    List.length (nth 0 (chunks4 cards) []) = 4.
Proof.
  split; [reflexivity|]. split; [reflexivity|].
  destruct (generate_placecards_pagination
              sample_reportlab sample_title sample_content get_default_specs
              five_bookings) as [_ [_ [_ [H _]]]].
  destruct (cards_of sample_reportlab sample_title sample_content get_default_specs
                     five_bookings) as [cards|e] eqn:E.
  - exists cards. split; [reflexivity|].
    destruct (H cards eq_refl) as [_ [Hpages [Hlen [_ [_ [_ [Hfull _]]]]]]].
    split; [exact Hpages|].
    apply (Hfull 0). rewrite Hlen. simpl. lia.
  - vm_compute in E. discriminate.
Defined.

Lemma filter_by_service_spec_witness :
  apply_filter Dinner_only five_bookings = Ok five_bookings /\
  service_or_event (booking_number 1) <> PyNaN /\
  service_or_event (booking_number 1) <> PyStr "".
Proof.
  destruct (proj1 filter_by_service_spec five_bookings Dinner_only)
    as [_ [_ [_ [Hin [Hcode _]]]]].
  split; [exact Hcode|].
  apply Hin. simpl. tauto.
Defined.

(* ===================================================================== *)
(** ** More on names *)
(* ===================================================================== *)

Lemma split_go_lstrip (s : string) :
  PyStr.split_go "" (PyStr.lstrip s) = PyStr.split_go "" s.
Proof.
  induction s as [|c s IH]; simpl; [reflexivity|].
  destruct (PyStr.is_space c) eqn:Hc; [exact IH|].
  simpl. now rewrite Hc.
Qed.

Lemma split_go_rstrip (s word : string) :
  PyStr.split_go word (PyStr.rstrip s) = PyStr.split_go word s.
Proof.
  revert word. induction s as [|c s IH]; intros word; simpl; [reflexivity|].
  destruct (PyStr.is_space c) eqn:Hc; simpl.
  - destruct (PyStr.is_empty (PyStr.rstrip s)) eqn:E; simpl.
    + apply is_empty_true in E.
      rewrite <- (IH ""%string), E. simpl.
      now destruct (PyStr.is_empty word).
    + now rewrite Hc, IH.
  - now rewrite Hc, IH.
Qed.

Lemma split_strip (s : string) : PyStr.split (PyStr.strip s) = PyStr.split s.
Proof.
  unfold PyStr.split, PyStr.strip.
  now rewrite split_go_rstrip, split_go_lstrip.
Qed.

Lemma is_empty_lower (s : string) :
  PyStr.is_empty (PyStr.lower s) = PyStr.is_empty s.
Proof. now destruct s. Qed.

Lemma split_go_lower (s word : string) :
  PyStr.split_go (PyStr.lower word) (PyStr.lower s)
  = map PyStr.lower (PyStr.split_go word s).
Proof.
  revert word. induction s as [|c s IH]; intros word; simpl.
  - rewrite is_empty_lower. now destruct (PyStr.is_empty word).
  - rewrite is_space_lower_char, is_empty_lower.
    destruct (PyStr.is_space c).
    + destruct (PyStr.is_empty word); simpl; now rewrite <- (IH ""%string).
    + rewrite <- IH. now rewrite lower_append.
Qed.

Lemma split_lower (s : string) :
  PyStr.split (PyStr.lower s) = map PyStr.lower (PyStr.split s).
Proof. apply (split_go_lower s ""). Qed.

Lemma map_capitalize_lower (words : list string) :
  map PyStr.capitalize (map PyStr.lower words) = map PyStr.capitalize words.
Proof.
  rewrite map_map. apply map_ext. intros w. apply capitalize_lower.
Qed.

(** X1. For every ASCII text that is not empty the capitalized name is
    the list of the blank-separated words of the text, each capitalized,
    joined by single blanks: the trimming, the "walk in" case and the
    particle test never change the result. *)
Theorem capitalize_customer_name_words (s : string) :
  PyStr.is_ascii s = true ->
  PyStr.is_empty s = false ->
  capitalize_customer_name (PyStr s)
  = PyStr.join " " (map PyStr.capitalize (PyStr.split s)).
Proof.
  intros _ Hne. rewrite capitalize_customer_name_text, Hne, split_strip.
  destruct (String.eqb_spec (PyStr.lower (PyStr.strip s)) "walk in") as [E|_];
    [|reflexivity].
  assert (H : map PyStr.lower (PyStr.split s) = PyStr.split "walk in")
    by (now rewrite <- E, split_lower, split_strip).
  now rewrite <- map_capitalize_lower, H.
Qed.

Lemma capitalize_customer_name_words_witness :
  capitalize_customer_name (PyStr " walk   IN ")
  = PyStr.join " " (map PyStr.capitalize (PyStr.split " walk   IN ")).
Proof. apply capitalize_customer_name_words; reflexivity. Defined.

Lemma lstrip_lower (s : string) :
  PyStr.lstrip (PyStr.lower s) = PyStr.lower (PyStr.lstrip s).
Proof.
  induction s as [|c s IH]; simpl; [reflexivity|].
  rewrite is_space_lower_char. now destruct (PyStr.is_space c).
Qed.

Lemma rstrip_lower (s : string) :
  PyStr.rstrip (PyStr.lower s) = PyStr.lower (PyStr.rstrip s).
Proof.
  induction s as [|c s IH]; simpl; [reflexivity|].
  rewrite is_space_lower_char, IH, is_empty_lower.
  now destruct (PyStr.is_space c && PyStr.is_empty (PyStr.rstrip s)).
Qed.

Lemma strip_lower (s : string) :
  PyStr.lower (PyStr.strip s) = PyStr.strip (PyStr.lower s).
Proof. unfold PyStr.strip. now rewrite lstrip_lower, rstrip_lower. Qed.

(** X2. The capitalized name of an ASCII text depends on its letters only
    up to case: two ASCII texts with the same lower-case form have the same
    capitalized name. *)
Theorem capitalize_customer_name_case (s t : string) :
  PyStr.is_ascii s = true -> PyStr.is_ascii t = true ->
  PyStr.lower s = PyStr.lower t ->
  capitalize_customer_name (PyStr s) = capitalize_customer_name (PyStr t).
Proof.
  intros _ _ E.
  assert (H : forall x,
             capitalize_customer_name (PyStr x)
             = if PyStr.is_empty (PyStr.lower x) then "Guest"
               else if String.eqb (PyStr.strip (PyStr.lower x)) "walk in"
                    then "Walk In"
                    else PyStr.join " " (map PyStr.capitalize
                                             (PyStr.split (PyStr.lower x)))).
  { intros x.
    rewrite capitalize_customer_name_text, is_empty_lower, strip_lower.
    rewrite split_lower, map_capitalize_lower, split_strip.
    reflexivity. }
  now rewrite (H s), (H t), E.
Qed.

Lemma capitalize_customer_name_case_witness :
  capitalize_customer_name (PyStr "JOHN smith")
  = capitalize_customer_name (PyStr "john SMITH").
Proof. apply capitalize_customer_name_case; reflexivity. Defined.

(** X3. Whatever the ASCII value, the capitalized name is in normal form:
    split into words and joined again by single blanks it is unchanged, so
    it has no blank at either end and no two blanks in a row, and trimming
    it changes nothing. *)
Theorem capitalize_customer_name_normal (v : pyval) :
  ascii_value v = true ->
  PyStr.join " " (PyStr.split (capitalize_customer_name v))
  = capitalize_customer_name v /\
  PyStr.strip (capitalize_customer_name v) = capitalize_customer_name v.
Proof.
  intros _. unfold capitalize_customer_name.
  destruct (pd_isna v || eq_empty v); [split; reflexivity|].
  destruct (String.eqb _ "walk in"); [split; reflexivity|].
  generalize (split_words (PyStr.strip (py_str v))).
  generalize (PyStr.split (PyStr.strip (py_str v))). intros words Hwords.
  rewrite (capitalize_words_map words Hwords).
  assert (Hcap : Forall is_word (map PyStr.capitalize words)).
  { apply Forall_map. eapply Forall_impl; [|exact Hwords].
    intros x. apply is_word_capitalize. }
  split.
  - now rewrite split_join.
  - destruct (map PyStr.capitalize words) as [|w ws]; [reflexivity|].
    now apply strip_join.
Qed.

Lemma capitalize_customer_name_normal_witness :
  PyStr.join " " (PyStr.split (capitalize_customer_name (PyStr "  ann   DE la  cruz ")))
  = capitalize_customer_name (PyStr "  ann   DE la  cruz ") /\
  PyStr.strip (capitalize_customer_name (PyStr "  ann   DE la  cruz "))
  = capitalize_customer_name (PyStr "  ann   DE la  cruz ").
Proof.
  apply (capitalize_customer_name_normal (PyStr "  ann   DE la  cruz ")).
  reflexivity.
Defined.

(* ===================================================================== *)
(** ** More on table numbers *)
(* ===================================================================== *)

(** X4. For an ASCII value, a result of the table-number extraction other
    than ["TBD"] is a non-empty list of digit runs joined by commas: split
    on commas it gives back those runs (no empty part, no comma at either
    end), and there are at most as many runs as the input had
    comma-separated segments. *)
Theorem extract_table_numbers_parts (v : pyval) :
  ascii_value v = true ->
  extract_table_numbers v = "TBD" \/
  exists runs : list string,
    runs <> [] /\
    Forall is_run runs /\
    extract_table_numbers v = PyStr.join "," runs /\
    PyStr.split_on "," (extract_table_numbers v) = runs /\
    List.length runs <= List.length (PyStr.split_on "," (py_str v)).
Proof.
  intros _. unfold extract_table_numbers.
  destruct (pd_isna v || eq_empty v); [now left|].
  rewrite clean_tables_runs.
  generalize (runs_are_runs (PyStr.split_on "," (py_str v))).
  assert (Hlen : List.length (map first_digit_run
                                  (filter has_digit (PyStr.split_on "," (py_str v))))
                 <= List.length (PyStr.split_on "," (py_str v)))
    by (rewrite length_map; apply filter_length_le).
  destruct (map first_digit_run _) as [|x runs]; [now left|].
  intros Hruns. right. exists (x :: runs).
  split; [discriminate|]. split; [exact Hruns|]. split; [reflexivity|].
  split; [|exact Hlen].
  apply split_on_join; [discriminate|].
  eapply Forall_impl; [|exact Hruns]. apply is_run_no_comma.
Qed.

Lemma extract_table_numbers_parts_witness :
  extract_table_numbers (PyStr "T5, 12a,, x") = "TBD" \/
  exists runs : list string,
    runs <> [] /\
    Forall is_run runs /\
    extract_table_numbers (PyStr "T5, 12a,, x") = PyStr.join "," runs /\
    PyStr.split_on "," (extract_table_numbers (PyStr "T5, 12a,, x")) = runs /\
    List.length runs <= List.length (PyStr.split_on "," (py_str (PyStr "T5, 12a,, x"))).
Proof.
  apply (extract_table_numbers_parts (PyStr "T5, 12a,, x")). reflexivity.
Defined.

Lemma uint_digits (u : Decimal.uint) :
  all_chars PyStr.is_digit (NilEmpty.string_of_uint u) = true.
Proof. induction u; simpl; trivial. Qed.

Lemma uint_is_run (u : Decimal.uint) : is_run (NilZero.string_of_uint u).
Proof.
  split.
  - destruct u; reflexivity.
  - destruct u; try apply (uint_digits (_ u)); reflexivity.
Qed.

Lemma split_on_no_sep (sep : ascii) (x : string) :
  all_chars (not_sep sep) x = true -> PyStr.split_on sep x = [x].
Proof.
  intros H. unfold PyStr.split_on.
  rewrite <- (append_nil_r x) at 1.
  now rewrite split_on_go_append.
Qed.

Lemma extract_table_numbers_run (x : string) :
  is_run x ->
  extract_table_numbers (PyStr x) = x /\
  extract_table_numbers (PyStr (String "-" x)) = x.
Proof.
  intros Hx. rewrite !extract_table_numbers_text.
  assert (Hc := is_run_no_comma x Hx).
  rewrite (split_on_no_sep "," x Hc).
  rewrite (split_on_no_sep "," (String "-" x)) by (simpl; now rewrite Hc).
  simpl filter. rewrite (is_run_has_digit x Hx). simpl.
  change (first_digit_run (String "-" x)) with (first_digit_run x).
  rewrite (first_digit_run_all x) by apply Hx.
  destruct Hx as [Hne _]. destruct x; [discriminate|]. now split.
Qed.

(** X5. A table cell read as an integer gives the decimal text of its
    absolute value: the digits of the number, without a sign. *)
Theorem extract_table_numbers_integer (z : Z) :
  extract_table_numbers (PyInt z) = PyStr.of_Z (Z.abs z).
Proof.
  assert (H : forall x, PyStr.is_empty x = false -> PyStr.of_Z z = x ->
                        extract_table_numbers (PyInt z)
                        = extract_table_numbers (PyStr x)).
  { intros x Hx E. unfold extract_table_numbers. simpl. now rewrite E, Hx. }
  destruct z as [|p|p]; [reflexivity| |].
  - destruct (uint_is_run (Pos.to_uint p)) as [Hne Hd].
    rewrite (H (NilZero.string_of_uint (Pos.to_uint p)) Hne eq_refl).
    now apply extract_table_numbers_run.
  - rewrite (H (String "-" (NilZero.string_of_uint (Pos.to_uint p))) eq_refl eq_refl).
    now apply extract_table_numbers_run, uint_is_run.
Qed.

(* ===================================================================== *)
(** ** More on the time range *)
(* ===================================================================== *)

Lemma parses_to_true (data : string) (fmt : time_format) (h m : nat) :
  parses_to data fmt h m = true -> strptime data fmt = Ok (at_time h m).
Proof.
  unfold parses_to, at_time.
  destruct (strptime data fmt) as [[d h' m']|e]; [|discriminate].
  simpl. intros H.
  apply andb_true_iff in H. destruct H as [H Hm].
  apply andb_true_iff in H. destruct H as [Hd Hh].
  apply Nat.eqb_eq in Hd, Hh, Hm. now subst.
Qed.

Lemma time_of_day_at (dt : datetime) :
  time_of_day dt -> dt = at_time (dt_hour dt) (dt_minute dt).
Proof. destruct dt as [d h m]. intros [Hd _]. simpl in *. now subst. Qed.

Lemma display_parses_check :
  all_times (fun h m => parses_to (display (at_time h m)) Fmt_I_M_p h m) = true.
Proof. vm_compute. reflexivity. Qed.

Lemma display_strip_check :
  all_times (fun h m =>
               String.eqb (PyStr.strip (display (at_time h m)))
                          (display (at_time h m))) = true.
Proof. vm_compute. reflexivity. Qed.

Lemma clock24_range_check :
  all_times (fun h m =>
               String.eqb (calculate_end_time (PyStr (clock24 h m)))
                          (display (at_time h m) ++ " - "
                           ++ display (add_hours (at_time h m) 2))) = true.
Proof. vm_compute. reflexivity. Qed.

Lemma display_parses (dt : datetime) :
  time_of_day dt -> strptime (display dt) Fmt_I_M_p = Ok dt.
Proof.
  destruct dt as [d h m]. intros [Hd [Hh Hm]]. simpl in Hd, Hh, Hm. subst d.
  change (mk_datetime 0 h m) with (at_time h m).
  apply parses_to_true.
  apply (all_times_spec _ display_parses_check h m Hh Hm).
Qed.

Lemma display_injective (dt : datetime) :
  time_of_day dt ->
  forall dt', time_of_day dt' -> display dt' = display dt -> dt' = dt.
Proof.
  intros Hdt dt' Hdt' E.
  assert (H := display_parses dt' Hdt'). rewrite E, (display_parses dt Hdt) in H.
  now inversion H.
Qed.

(** X6. Reading back what is written.  The way [calculate_end_time]
    writes a time of day is read back by [strptime] in the first format
    of the list as that same time; so the written start of a range,
    given again as input, yields the range that starts there, and two
    times of day written alike are the same time. *)
Theorem display_round_trip (dt : datetime) :
  time_of_day dt ->
  strptime (display dt) Fmt_I_M_p = Ok dt /\
  calculate_end_time (PyStr (display dt))
    = (display dt ++ " - " ++ display (add_hours dt 2))%string /\
  (forall dt', time_of_day dt' -> display dt' = display dt -> dt' = dt).
Proof.
  intros Hdt.
  assert (Hparse : forall x, time_of_day x -> strptime (display x) Fmt_I_M_p = Ok x).
  { intros [d h m] [Hd [Hh Hm]]. simpl in Hd, Hh, Hm. subst d.
    change (mk_datetime 0 h m) with (at_time h m).
    apply parses_to_true.
    apply (all_times_spec _ display_parses_check h m Hh Hm). }
  split; [now apply Hparse|]. split.
  - unfold calculate_end_time, calculate_end_time_try.
    rewrite try_formats_text.
    assert (Hs : PyStr.strip (display dt) = display dt).
    { destruct dt as [d h m]. destruct Hdt as [Hd [Hh Hm]].
      simpl in Hd, Hh, Hm. subst d.
      change (mk_datetime 0 h m) with (at_time h m).
      apply String.eqb_eq.
      apply (all_times_spec _ display_strip_check h m Hh Hm). }
    rewrite Hs. unfold time_formats, first_parse.
    rewrite (Hparse dt Hdt). reflexivity.
  - intros dt' Hdt' E.
    assert (H := Hparse dt' Hdt'). rewrite E, (Hparse dt Hdt) in H.
    now inversion H.
Qed.

Lemma display_round_trip_witness :
  strptime (display (at_time 23 15)) Fmt_I_M_p = Ok (at_time 23 15) /\
  calculate_end_time (PyStr (display (at_time 23 15)))
    = (display (at_time 23 15) ++ " - " ++ display (add_hours (at_time 23 15) 2))%string /\
  (forall dt', time_of_day dt' -> display dt' = display (at_time 23 15) ->
               dt' = at_time 23 15).
Proof.
  apply (display_round_trip (at_time 23 15)).
  repeat split; simpl; lia.
Defined.

(** A time written on the 24-hour clock as [HH:MM] gives the range from
    that time to two hours later, written on the 12-hour clock. *)
Lemma calculate_end_time_24_hour (h m : nat) :
  h < 24 -> m < 60 ->
  calculate_end_time (PyStr (clock24 h m))
  = (display (at_time h m) ++ " - " ++ display (add_hours (at_time h m) 2))%string.
Proof.
  intros Hh Hm. apply String.eqb_eq.
  apply (all_times_spec _ clock24_range_check h m Hh Hm).
Qed.

Lemma calculate_end_time_24_hour_witness :
  calculate_end_time (PyStr (clock24 22 5))
  = (display (at_time 22 5) ++ " - " ++ display (add_hours (at_time 22 5) 2))%string.
Proof. apply calculate_end_time_24_hour; lia. Defined.

(** X8. When the time parses, the end of the range is never written like
    its start. *)
Theorem calculate_end_time_end_differs (s : string) (start : datetime) :
  first_parse time_formats (PyStr.strip s) = Some start ->
  calculate_end_time (PyStr s)
    = (display start ++ " - " ++ display (add_hours start 2))%string /\
  display (add_hours start 2) <> display start.
Proof.
  intros E.
  assert (Hdt := first_parse_range _ _ _ E).
  split.
  - unfold calculate_end_time, calculate_end_time_try.
    rewrite try_formats_text, E. reflexivity.
  - change (display (add_hours start 2))
      with (display (at_time ((dt_hour start + 2) mod 24) (dt_minute start))).
    intros H.
    assert (Hinj := display_injective start Hdt).
    destruct Hdt as [Hd [Hh Hm]].
    assert (Hend : time_of_day (at_time ((dt_hour start + 2) mod 24) (dt_minute start))).
    { unfold time_of_day, at_time. cbn [dt_day dt_hour dt_minute].
      split; [reflexivity|]. split; [|exact Hm].
      apply Nat.mod_upper_bound. discriminate. }
    apply (Hinj _ Hend) in H.
    apply (f_equal dt_hour) in H. unfold at_time in H. cbn [dt_hour] in H.
    assert (Hq := Nat.div_mod_eq (dt_hour start + 2) 24).
    lia.
Qed.

Lemma calculate_end_time_end_differs_witness :
  calculate_end_time (PyStr " 11:15 pm ")
    = (display (at_time 23 15) ++ " - " ++ display (add_hours (at_time 23 15) 2))%string /\
  display (add_hours (at_time 23 15) 2) <> display (at_time 23 15).
Proof. apply (calculate_end_time_end_differs " 11:15 pm " (at_time 23 15)). reflexivity. Defined.

Lemma no_leading_blank_lstrip (s : string) :
  no_leading_blank (PyStr.lstrip s) = true.
Proof.
  induction s as [|c s IH]; simpl; [reflexivity|].
  destruct (PyStr.is_space c) eqn:Hc; [exact IH|]. simpl. now rewrite Hc.
Qed.

Lemma no_leading_blank_rstrip (s : string) :
  no_leading_blank s = true -> no_leading_blank (PyStr.rstrip s) = true.
Proof.
  destruct s as [|c s]; simpl; [trivial|].
  intros Hc. apply negb_true_iff in Hc. rewrite Hc. simpl. now rewrite Hc.
Qed.

Lemma lstrip_no_leading_blank (s : string) :
  no_leading_blank s = true -> PyStr.lstrip s = s.
Proof.
  destruct s as [|c s]; simpl; [trivial|].
  intros Hc. apply negb_true_iff in Hc. now rewrite Hc.
Qed.

Lemma rstrip_idem (s : string) : PyStr.rstrip (PyStr.rstrip s) = PyStr.rstrip s.
Proof.
  induction s as [|c s IH]; simpl; [reflexivity|].
  destruct (PyStr.is_space c && PyStr.is_empty (PyStr.rstrip s)) eqn:E;
    [reflexivity|].
  simpl. now rewrite IH, E.
Qed.

Lemma strip_idem (s : string) : PyStr.strip (PyStr.strip s) = PyStr.strip s.
Proof.
  unfold PyStr.strip.
  rewrite (lstrip_no_leading_blank (PyStr.rstrip (PyStr.lstrip s))).
  - apply rstrip_idem.
  - apply no_leading_blank_rstrip, no_leading_blank_lstrip.
Qed.

(** X9. Blanks around a time that parses do not matter: two texts with the
    same trimmed form, one of which parses, give the same range.  (A text
    that does not parse is echoed with its blanks.) *)
Theorem calculate_end_time_trimmed (s t : string) (start : datetime) :
  PyStr.strip s = PyStr.strip t ->
  first_parse time_formats (PyStr.strip s) = Some start ->
  calculate_end_time (PyStr s) = calculate_end_time (PyStr t) /\
  calculate_end_time (PyStr s) = calculate_end_time (PyStr (PyStr.strip s)).
Proof.
  intros Est E.
  rewrite !calculate_end_time_text, strip_idem, <- Est, E. now split.
Qed.

Lemma calculate_end_time_trimmed_witness :
  calculate_end_time (PyStr "  7:30 PM") = calculate_end_time (PyStr "7:30 PM   ") /\
  calculate_end_time (PyStr "  7:30 PM")
  = calculate_end_time (PyStr (PyStr.strip "  7:30 PM")).
Proof.
  apply (calculate_end_time_trimmed "  7:30 PM" "7:30 PM   " (at_time 19 30));
    reflexivity.
Defined.

(* ===================================================================== *)
(** ** More on the uploaded table *)
(* ===================================================================== *)

Lemma select_required_rows (df : DataFrame) (df2 : list booking) :
  select_required df = Ok df2 -> List.length df2 = List.length (rows df).
Proof.
  unfold select_required.
  destruct (missing_from (columns df)); [|discriminate].
  intros H. inversion H. apply length_map.
Qed.

Lemma missing_from_nil_iff (columns : list string) :
  missing_from columns = [] <->
  forall col, In col required_columns -> In col columns.
Proof.
  split.
  - intros E col Hc.
    destruct (in_dec string_dec col columns) as [Hin|Hnot]; [exact Hin|].
    assert (H : In col (missing_from columns)) by (apply missing_from_iff; now split).
    rewrite E in H. destruct H.
  - intros H. destruct (missing_from columns) as [|c rest] eqn:E; [reflexivity|].
    assert (Hc : In c (missing_from columns)) by (rewrite E; now left).
    apply missing_from_iff in Hc. destruct Hc as [Hr Hn]. elim Hn. now apply H.
Qed.

(** X10. The column selection of [main] and [validate_csv_structure] accept
    the same tables: the selection succeeds exactly when every required
    column is among the columns (whatever their order and whatever other
    columns there are), which is exactly when the validation of those
    columns shows nothing and returns [True]; a selection that succeeds
    keeps one booking per row of the table. *)
Theorem select_required_agrees (df : DataFrame) :
  ((exists df2, select_required df = Ok df2) <->
   (forall col, In col required_columns -> In col (columns df))) /\
  ((exists df2, select_required df = Ok df2) <->
   run (validate_csv_structure (columns df)) = (Done true, [])) /\
  (forall df2, select_required df = Ok df2 ->
               List.length df2 = List.length (rows df)) /\
  (forall e, select_required df = Raise e ->
             e = KeyError (missing_from (columns df)) /\
             run (validate_csv_structure (columns df))
             = (Done false,
                [ st_error (Missing_required_columns (missing_from (columns df)));
                  st_info Required_columns_are ])).
Proof.
  assert (Hsel : (exists df2, select_required df = Ok df2) <->
                 missing_from (columns df) = []).
  { unfold select_required.
    destruct (missing_from (columns df)) as [|c rest].
    - split; [reflexivity | intros _; eexists; reflexivity].
    - split; [intros [df2 H]; discriminate | discriminate]. }
  split; [now rewrite Hsel, missing_from_nil_iff|].
  split.
  - rewrite Hsel, validate_csv_structure_run.
    destruct (missing_from (columns df)); split; trivial; discriminate.
  - split; [apply select_required_rows|].
    intros e. rewrite validate_csv_structure_run. unfold select_required.
    destruct (missing_from (columns df)) as [|c rest]; [discriminate|].
    intros H. inversion H. now split.
Qed.

(* ===================================================================== *)
(** ** More on the script *)
(* ===================================================================== *)

(** X12. The only uncaught exception.  [main] ends with an exception
    exactly when the file of design settings exists and cannot be read
    ([PermissionError]) or parsed ([JSONDecodeError]); nothing but the
    title and the introduction has then been shown.  Whatever else goes
    wrong (reading the upload, selecting the columns, the preview, the
    generation) leaves the run ending normally or by [st.stop()]. *)
Theorem main_raises (ss : session) (e : exn) :
  (fst (run (main ss)) = Raised e <->
   (design_specs_json ss = File_no_permission /\ e = PermissionError) \/
   (design_specs_json ss = File_not_json /\ e = JSONDecodeError)) /\
  (fst (run (main ss)) = Raised e ->
   snd (run (main ss)) = [st_title; st_markdown Intro]).
Proof.
  rewrite main_run, load_design_specs_cases.
  destruct (design_specs_json ss) as [| | |d0]; cbv zeta.
  - split; [split|]; [| intros [[H _]|[H _]]; discriminate |];
      (destruct (uploaded_file ss) as [[df|e']|]; try discriminate;
       destruct (select_required df) as [df2|e'']; try discriminate;
       match goal with
       | |- context [process_bookings ?a ?b ?c ?p] =>
           destruct (process_bookings a b c p) as [[[]|e3|] page']; discriminate
       end).
  - simpl. split; [|reflexivity]. split.
    + intros H. left. inversion H. now split.
    + intros [[_ ->]|[H _]]; [reflexivity | discriminate].
  - simpl. split; [|reflexivity]. split.
    + intros H. right. inversion H. now split.
    + intros [[H _]|[_ ->]]; [discriminate | reflexivity].
  - split; [split|]; [| intros [[H _]|[H _]]; discriminate |];
      (destruct (uploaded_file ss) as [[df|e']|]; try discriminate;
       destruct (select_required df) as [df2|e'']; try discriminate;
       match goal with
       | |- context [process_bookings ?a ?b ?c ?p] =>
           destruct (process_bookings a b c p) as [[[]|e3|] page']; discriminate
       end).
Qed.

(** X13. No table to work on.  With the design settings loaded, a run
    without upload shows the upload header and the instructions and no
    error; a run whose upload [pd.read_csv] cannot read shows, between the
    two, exactly one error carrying that exception; both end normally. *)
Theorem main_without_table (ss : session) (d : design_specs) :
  fst (run (load_design_specs (design_specs_json ss))) = Done d ->
  (forall df, uploaded_file ss <> Some (Ok df)) ->
  run (main ss) =
    (Done tt,
     [st_title; st_markdown Intro]
     ++ snd (run (load_design_specs (design_specs_json ss)))
     ++ st_header Upload_booking_data
        :: match uploaded_file ss with
           | Some (Raise e) => [st_error (Error_reading_csv e)]
           | _ => []
           end
     ++ [st_markdown Rule; st_header Instructions; st_markdown Instructions_text]).
Proof.
  intros Hload Hup.
  rewrite main_run, (main_after_load ss d Hload). cbv zeta.
  destruct (uploaded_file ss) as [[df|e]|].
  - now elim (Hup df).
  - rewrite <- !app_assoc. reflexivity.
  - rewrite <- !app_assoc. reflexivity.
Qed.

Lemma main_without_table_witness :
  run (main absent_session) =
    (Done tt,
     [ st_title; st_markdown Intro;
       st_warning (Specs_not_found "design_specs.json");
       st_header Upload_booking_data;
       st_markdown Rule; st_header Instructions; st_markdown Instructions_text ]).
Proof.
  apply (main_without_table absent_session get_default_specs).
  - reflexivity.
  - intros df. discriminate.
Defined.

(** X14. When a download is offered.  A run offers a download exactly
    when the design settings load, the upload is read, the five columns are
    selected, the filter returns at least one row, the button is pressed
    and the generation succeeds on those rows with the settings as the
    widgets left them; the preview plays no part.  The file is named after
    the filter choice.  The generation succeeds exactly when the library
    accepts the text colour for the two styles, builds the card of every
    row and builds the document from the story of those cards, which is
    the data offered.  A run offers at most one download. *)
Theorem download_offered (ss : session) (file_name data : string) :
  (In (st_download_button file_name data) (snd (run (main ss))) <->
   exists d df df2 filtered,
     fst (run (load_design_specs (design_specs_json ss))) = Done d /\
     uploaded_file ss = Some (Ok df) /\
     select_required df = Ok df2 /\
     apply_filter (filter_choice ss) df2 = Ok filtered /\
     filtered <> [] /\
     generate_clicked ss = true /\
     file_name = file_name_for (filter_choice ss) /\
     generate_placecards (reportlab ss) (doc_build ss) filtered
                         (set_styling ss (set_fonts ss d)) = Ok data) /\
  (forall (filtered : list booking) (specs : design_specs),
      generate_placecards (reportlab ss) (doc_build ss) filtered specs = Ok data <->
      exists title content cards,
        title_style (reportlab ss) specs = Ok title /\
        content_style (reportlab ss) specs = Ok content /\
        cards_of (reportlab ss) title content specs filtered = Ok cards /\
        doc_build ss (story_of cards) = Ok data) /\
  List.length (filter is_download (snd (run (main ss)))) <= 1.
Proof.
  split; [split|split].
  - apply main_download.
  - intros [d [df [df2 [filtered [Hl [Hu [Hs [Hf [Hne [Hc [Hn Hg]]]]]]]]]]].
    subst file_name. now apply (main_offers ss d df df2 filtered data).
  - intros filtered specs. rewrite generate_placecards_eq. split.
    + destruct (title_style (reportlab ss) specs) as [title|e]; [|discriminate].
      destruct (content_style (reportlab ss) specs) as [content|e]; [|discriminate].
      destruct (cards_of (reportlab ss) title content specs filtered)
        as [cards|e] eqn:E; [|discriminate].
      intros Hb. exists title, content, cards. now repeat split.
    + intros [title [content [cards [Ht [Hc [Hcards Hb]]]]]].
      now rewrite Ht, Hc, Hcards.
  - destruct (main_run_cases ss)
      as [Hplain|[d [df [df2 [filtered [Hl [Hu [Hs [Hf Hne]]]]]]]]].
    + assert (E : filter is_download (snd (run (main ss))) = []).
      { induction Hplain as [|c l Hc Hl IH]; [reflexivity|].
        simpl. rewrite IH. now destruct c. }
      rewrite E. simpl. lia.
    + rewrite (main_run_filtered ss d df df2 filtered Hl Hu Hs Hf Hne). cbn [snd].
      assert (E : filter is_download
                    (snd (run (load_design_specs (design_specs_json ss)))) = []).
      { generalize (load_design_specs_plain (design_specs_json ss)).
        induction 1 as [|c l Hc Hl' IH]; [reflexivity|].
        simpl. rewrite IH. now destruct c. }
      rewrite !filter_app, E.
      destruct (preview_render ss _) as [png|e'];
        destruct (generate_clicked ss);
        try destruct (generate_placecards (reportlab ss) (doc_build ss) filtered _)
          as [pdf|e];
        simpl; lia.
Qed.

(** X15. A document that cannot be generated.  When everything up to the
    button succeeds and the generation raises, whichever of its calls does
    (the colour of a style, the card of a row, or the building of the
    document), the run shows the spinner, then one error carrying that
    exception, then the closing instructions; it ends normally and offers
    no download. *)
Theorem generation_failure_reported
        (ss : session) (df : DataFrame) (df2 filtered : list booking)
        (d : design_specs) (e : exn) :
  fst (run (load_design_specs (design_specs_json ss))) = Done d ->
  uploaded_file ss = Some (Ok df) ->
  select_required df = Ok df2 ->
  apply_filter (filter_choice ss) df2 = Ok filtered ->
  filtered <> [] ->
  generate_clicked ss = true ->
  generate_placecards (reportlab ss) (doc_build ss) filtered
                      (set_styling ss (set_fonts ss d)) = Raise e ->
  (exists page,
      run (main ss) =
      (Done tt,
       page ++ [ st_spinner; st_error (Error_generating e);
                 st_markdown Rule; st_header Instructions;
                 st_markdown Instructions_text ])) /\
  (forall file_name data,
      ~ In (st_download_button file_name data) (snd (run (main ss)))) /\
  (forall title content cards,
      title_style (reportlab ss) (set_styling ss (set_fonts ss d)) = Ok title ->
      content_style (reportlab ss) (set_styling ss (set_fonts ss d)) = Ok content ->
      cards_of (reportlab ss) title content (set_styling ss (set_fonts ss d)) filtered
      = Ok cards ->
      doc_build ss (story_of cards) = Raise e).
Proof.
  intros Hload Hup Hsel Hf Hne Hc Hg. split; [|split].
  - rewrite (main_run_filtered ss d df df2 filtered Hload Hup Hsel Hf Hne).
    rewrite Hc, Hg.
    match goal with
    | |- exists page, (_, ?X ++ ?P ++ _ ++ _) = _ => exists (X ++ P)
    end.
    rewrite <- !app_assoc. reflexivity.
  - intros file_name data Hin.
    destruct (main_download ss file_name data Hin)
      as [d' [df' [df2' [filtered' [Hl' [Hu' [Hs' [Hf' [_ [_ [_ Hg']]]]]]]]]]].
    rewrite Hload in Hl'. inversion Hl'; subst d'.
    rewrite Hup in Hu'. inversion Hu'; subst df'.
    rewrite Hsel in Hs'. inversion Hs'; subst df2'.
    rewrite Hf in Hf'. inversion Hf'; subst filtered'.
    congruence.
  - intros title content cards Ht Hcont Hcards.
    rewrite generate_placecards_eq, Ht, Hcont, Hcards in Hg. exact Hg.
Qed.

Lemma generation_failure_reported_witness :
  (exists page,
      run (main failing_build) =
      (Done tt,
       page ++ [ st_spinner; st_error (Error_generating RenderError);
                 st_markdown Rule; st_header Instructions;
                 st_markdown Instructions_text ])) /\
  (forall file_name data,
      ~ In (st_download_button file_name data) (snd (run (main failing_build)))).
Proof.
  destruct (generation_failure_reported
              failing_build dinner_only_frame
              [ mk_booking (PyStr "Dinner") (PyStr "7:30 PM") (PyInt 4)
                           (PyStr "john smith") (PyStr "T5");
                mk_booking PyNaN (PyStr "19:30") (PyInt 2) (PyStr "jane doe")
                           (PyStr "3") ]
              [ mk_booking (PyStr "Dinner") (PyStr "7:30 PM") (PyInt 4)
                           (PyStr "john smith") (PyStr "T5") ]
              get_default_specs RenderError) as [H1 [H2 _]];
    try reflexivity; [discriminate|].
  split; [exact H1 | exact H2].
Defined.

(* ===================================================================== *)
(** ** More on the story and the cards *)
(* ===================================================================== *)

Lemma intersperse_cons (x y : flowable) (l : list flowable) :
  intersperse PageBreak (x :: y :: l) = x :: PageBreak :: intersperse PageBreak (y :: l).
Proof. reflexivity. Qed.

Lemma intersperse_length (pages : list flowable) :
  List.length (intersperse PageBreak pages) = 2 * List.length pages - 1.
Proof.
  induction pages as [|x l IH]; [reflexivity|].
  destruct l as [|y l]; [reflexivity|].
  rewrite intersperse_cons. cbn [List.length] in *. lia.
Qed.

Lemma intersperse_breaks (pages : list flowable) :
  Forall (fun f => is_page f = true) pages ->
  List.length (filter is_break (intersperse PageBreak pages))
  = List.length pages - 1.
Proof.
  induction 1 as [|x l Hx Hl IH]; [reflexivity|].
  destruct l as [|y l].
  - simpl. unfold is_break. now rewrite Hx.
  - rewrite intersperse_cons.
    change (filter is_break (x :: PageBreak :: ?r))
      with (if is_break x then x :: PageBreak :: filter is_break r
            else PageBreak :: filter is_break r).
    unfold is_break at 1. rewrite Hx. cbn [negb List.length] in *. lia.
Qed.

Lemma intersperse_no_double_break (pages : list flowable) :
  Forall (fun f => is_page f = true) pages ->
  no_double_break (intersperse PageBreak pages) = true.
Proof.
  induction 1 as [|x l Hx Hl IH]; [reflexivity|].
  destruct l as [|y l].
  - destruct x; [reflexivity | discriminate].
  - rewrite intersperse_cons.
    destruct x; [|discriminate].
    inversion Hl as [|y' l' Hy _]; subst.
    destruct y; [|discriminate].
    destruct l as [|z l]; [reflexivity|].
    rewrite intersperse_cons in *. exact IH.
Qed.

Lemma intersperse_ends (pages : list flowable) :
  Forall (fun f => is_page f = true) pages ->
  match intersperse PageBreak pages with
  | [] => pages = []
  | first :: _ =>
      is_page first = true /\
      is_page (last (intersperse PageBreak pages) PageBreak) = true
  end.
Proof.
  induction 1 as [|x l Hx Hl IH]; [reflexivity|].
  destruct l as [|y l]; [now split|].
  rewrite intersperse_cons. split; [exact Hx|].
  destruct (intersperse PageBreak (y :: l)) as [|f r]; [discriminate IH|].
  destruct IH as [_ IH]. exact IH.
Qed.

(** X16. The shape of the story.  A story the page loop builds never
    begins or ends with a page break and never has two in a row; for [N]
    records it has ceil(N/4) page tables and one page break fewer (none at
    all for no record), and every page table, the last one included, has
    two rows of two cells and the page style. *)
Theorem story_shape (lib : ReportLab) (title content : ParagraphStyle)
        (specs : design_specs) (df : list booking) (story : list flowable) :
  build_story lib df title content specs = Ok story ->
  match story with
  | [] => df = []
  | first :: _ =>
      is_page first = true /\ is_page (last story PageBreak) = true
  end /\
  no_double_break story = true /\
  List.length (filter is_page story) = (List.length df + 3) / 4 /\
  List.length (filter is_break story) = (List.length df + 3) / 4 - 1 /\
  List.length story = 2 * ((List.length df + 3) / 4) - 1 /\
  Forall two_by_two story.
Proof.
  rewrite build_story_eq.
  destruct (cards_of lib title content specs df) as [cards|e] eqn:E; [|discriminate].
  intros H. inversion H; subst story. clear H.
  assert (Hlen := map_result_length _ _ _ E). rewrite <- Hlen.
  unfold story_of.
  assert (Hp : Forall (fun f => is_page f = true) (map page_of (chunks4 cards))).
  { apply Forall_map, Forall_forall. reflexivity. }
  split.
  { generalize (intersperse_ends _ Hp).
    destruct (intersperse PageBreak _); [|trivial].
    intros E'. apply map_eq_nil in E'. apply chunks4_nil in E'.
    destruct df; [reflexivity|]. subst cards. discriminate Hlen. }
  split; [now apply intersperse_no_double_break|].
  split; [rewrite filter_is_page_intersperse, length_map; apply length_chunks4|].
  split; [rewrite (intersperse_breaks _ Hp), length_map; now rewrite length_chunks4|].
  split; [rewrite intersperse_length, length_map; now rewrite length_chunks4|].
  generalize (chunks4 cards). intros chunks.
  induction chunks as [|c l IH]; [constructor|].
  destruct l as [|c' l].
  - constructor; [now split | constructor].
  - change (Forall two_by_two
              (page_of c :: PageBreak :: intersperse PageBreak (map page_of (c' :: l)))).
    constructor; [now split|]. constructor; [exact I | exact IH].
Qed.

Lemma story_shape_witness :
  exists story,
    build_story sample_reportlab five_bookings sample_title sample_content
                get_default_specs = Ok story /\
    List.length story = 3 /\
    no_double_break story = true /\
    Forall two_by_two story.
Proof.
  destruct (build_story sample_reportlab five_bookings sample_title sample_content
                        get_default_specs) as [story|e] eqn:E.
  - exists story. split; [reflexivity|].
    destruct (story_shape sample_reportlab sample_title sample_content
                          get_default_specs five_bookings story E)
      as [_ [Hno [_ [_ [Hlen Htwo]]]]].
    split; [exact Hlen|]. split; [exact Hno | exact Htwo].
  - vm_compute in E. discriminate.
Defined.

Ltac open_result :=
  repeat (match goal with
          | |- context [match ?m with Ok _ => _ | Raise _ => _ end] =>
              destruct m eqn:?
          end; cbv beta iota zeta).

Lemma new_Paragraph_ok (lib : ReportLab) (text : string) (style : ParagraphStyle)
      (p : Paragraph) :
  new_Paragraph lib text style = Ok p -> p = mk_paragraph text style.
Proof.
  unfold new_Paragraph. destruct (parse_markup lib text style); [|discriminate].
  intros H. now inversion H.
Qed.

(** X17. What reaches a card from the widgets.  On a card built with the
    settings as [main] leaves them, every paragraph is set in the chosen
    font family and in the colour the library makes of the text colour of
    the loaded settings (no widget changes it); the header is two points
    larger than the chosen title size; the card is outlined exactly when
    the border box is ticked, in the chosen border colour; the rule under
    the header is drawn either way, in the chosen border colour when the
    box is ticked and in the loaded one otherwise; the background is the
    chosen one. *)
Theorem card_follows_widgets (ss : session) (d : design_specs) (row : booking)
        (title content : ParagraphStyle) (card : card_table) :
  let lib := reportlab ss in
  let specs := set_styling ss (set_fonts ss d) in
  title_style lib specs = Ok title ->
  content_style lib specs = Ok content ->
  create_single_card lib row title content specs = Ok card ->
  exists text_c background_c rule_c : Color,
    toColor lib (text_color d) = Ok text_c /\
    toColor lib (background_color_choice ss) = Ok background_c /\
    toColor lib (if border_choice ss then border_color_choice ss else border_color d)
    = Ok rule_c /\
    Forall (fun p => fontName (style p) = font_family_choice ss /\
                     textColor (style p) = text_c)
           (card_paragraphs card) /\
    fontSize (style (reserved_title card)) = title_font_size_choice ss + 2 /\
    fontSize (style (name card)) = title_font_size_choice ss /\
    fontSize (style (time_info card)) = content_font_size_choice ss /\
    existsb is_box (table_style card) = border_choice ss /\
    (forall c1 c2 w color,
        In (BOX c1 c2 w color) (table_style card) ->
        toColor lib (border_color_choice ss) = Ok color) /\
    In (LINEBELOW (0, 0)%Z (0, 0)%Z 1 rule_c) (table_style card) /\
    In (BACKGROUND (0, 0)%Z (-1, -1)%Z background_c) (table_style card).
Proof.
  cbv zeta. unfold set_styling, set_fonts, title_style, content_style,
    create_single_card, card_paragraphs.
  cbn [font_family title_font_size content_font_size background_color
       text_color border border_color].
  destruct (border_choice ss);
    cbv beta iota zeta delta [bind];
    open_result; try discriminate;
    intros Ht Hc H; inversion Ht; subst title; inversion Hc; subst content;
    inversion H; subst card; clear Ht Hc H;
    repeat match goal with
           | E : new_Paragraph _ _ _ = Ok ?p |- _ =>
               apply new_Paragraph_ok in E; subst p
           end;
    cbn [reserved_title name time_info empty_space table_party_table table_style
         footer_left footer_right style fontName textColor fontSize];
    (do 3 eexists);
    (split; [reflexivity|]); (split; [reflexivity|]); (split; [reflexivity|]).
  all: split; [repeat constructor|].
  all: split; [reflexivity|]; split; [reflexivity|]; split; [reflexivity|].
  all: split; [reflexivity|]; split; [|simpl; tauto].
  all: intros c1 c2 w color Hin; simpl in Hin; intuition (try discriminate).
  match goal with
  | E : BOX _ _ _ _ = BOX _ _ _ _ |- _ => now inversion E
  end.
Qed.

Lemma card_follows_widgets_witness :
  exists card,
    create_single_card sample_reportlab (booking_number 1) sample_title sample_content
                       get_default_specs = Ok card /\
    fontSize (style (reserved_title card)) = 16 /\
    existsb is_box (table_style card) = true /\
    In (BACKGROUND (0, 0)%Z (-1, -1)%Z (Color_value "white")) (table_style card).
Proof.
  destruct (create_single_card sample_reportlab (booking_number 1) sample_title
                               sample_content get_default_specs)
    as [card|e] eqn:E.
  - exists card. split; [reflexivity|].
    destruct (card_follows_widgets absent_with_upload get_default_specs
                (booking_number 1) sample_title sample_content card
                eq_refl eq_refl E)
      as [text_c [background_c [rule_c [_ [Hb [_ [_ [Hsize [_ [_ [Hbox [_ [_ Hback]]]]]]]]]]]]].
    split; [exact Hsize|]. split; [exact Hbox|].
    inversion Hb; subst background_c. exact Hback.
  - vm_compute in E. discriminate.
Defined.

(* ===================================================================== *)
(** ** Writings of a time *)
(* ===================================================================== *)



